(** * dow: cached download, checksum verification and the CLI boundary

    A shallow embedding of [src/dow/cached_download.py], [src/dow/_indent.py]
    and the exception handlers of [src/dow/cli.py], with the properties of
    the specification that concern them. *)

From Stdlib Require Import ZArith Lia Bool Ascii String.
From Stdlib.Strings Require Import Byte.
From stdpp Require Import base option list strings pretty gmap fin_maps.

Local Open Scope Z_scope.

(** ** hashlib.md5

    The digest the standard library computes (RFC 1321), on 32-bit words
    kept in [Z] with the wrap-around written out. *)
Module Md5.

Definition w32 (x : Z) : Z := Z.land x 0xFFFFFFFF.

Definition rotl32 (x c : Z) : Z :=
  w32 (Z.lor (Z.shiftl x c) (Z.shiftr x (32 - c))).

Definition K : list Z :=
  [ 0xd76aa478; 0xe8c7b756; 0x242070db; 0xc1bdceee;
    0xf57c0faf; 0x4787c62a; 0xa8304613; 0xfd469501;
    0x698098d8; 0x8b44f7af; 0xffff5bb1; 0x895cd7be;
    0x6b901122; 0xfd987193; 0xa679438e; 0x49b40821;
    0xf61e2562; 0xc040b340; 0x265e5a51; 0xe9b6c7aa;
    0xd62f105d; 0x02441453; 0xd8a1e681; 0xe7d3fbc8;
    0x21e1cde6; 0xc33707d6; 0xf4d50d87; 0x455a14ed;
    0xa9e3e905; 0xfcefa3f8; 0x676f02d9; 0x8d2a4c8a;
    0xfffa3942; 0x8771f681; 0x6d9d6122; 0xfde5380c;
    0xa4beea44; 0x4bdecfa9; 0xf6bb4b60; 0xbebfbc70;
    0x289b7ec6; 0xeaa127fa; 0xd4ef3085; 0x04881d05;
    0xd9d4d039; 0xe6db99e5; 0x1fa27cf8; 0xc4ac5665;
    0xf4292244; 0x432aff97; 0xab9423a7; 0xfc93a039;
    0x655b59c3; 0x8f0ccc92; 0xffeff47d; 0x85845dd1;
    0x6fa87e4f; 0xfe2ce6e0; 0xa3014314; 0x4e0811a1;
    0xf7537e82; 0xbd3af235; 0x2ad7d2bb; 0xeb86d391 ].

Definition shifts : list Z :=
  [ 7; 12; 17; 22; 7; 12; 17; 22; 7; 12; 17; 22; 7; 12; 17; 22;
    5; 9; 14; 20; 5; 9; 14; 20; 5; 9; 14; 20; 5; 9; 14; 20;
    4; 11; 16; 23; 4; 11; 16; 23; 4; 11; 16; 23; 4; 11; 16; 23;
    6; 10; 15; 21; 6; 10; 15; 21; 6; 10; 15; 21; 6; 10; 15; 21 ].

Definition state : Type := Z * Z * Z * Z.

Definition init : state := (0x67452301, 0xefcdab89, 0x98badcfe, 0x10325476).

Definition byte_val (b : byte) : Z := Z.of_N (Byte.to_N b).

(** Little-endian word of four bytes, and back. *)
Definition word_of (bs : list byte) : Z :=
  fold_right (fun b acc => byte_val b + 256 * acc) 0 bs.

Definition bytes_of (n : nat) (x : Z) : list Z :=
  map (fun i => Z.land (Z.shiftr x (8 * Z.of_nat i)) 0xFF) (seq 0 n).

Fixpoint words (n : nat) (bs : list byte) : list Z :=
  match n with
  | O => []
  | S n' => word_of (firstn 4 bs) :: words n' (skipn 4 bs)
  end.

Definition step (M : list Z) (st : state) (i : nat) : state :=
  let '(a, b, c, d) := st in
  let zi := Z.of_nat i in
  let '(f, g) :=
    if zi <? 16 then (Z.lor (Z.land b c) (Z.land (w32 (Z.lnot b)) d), zi)
    else if zi <? 32 then
      (Z.lor (Z.land d b) (Z.land (w32 (Z.lnot d)) c), (5 * zi + 1) mod 16)
    else if zi <? 48 then (Z.lxor b (Z.lxor c d), (3 * zi + 5) mod 16)
    else (Z.lxor c (Z.lor b (w32 (Z.lnot d))), (7 * zi) mod 16) in
  let f' := w32 (f + a + nth i K 0 + nth (Z.to_nat g) M 0) in
  (d, w32 (b + rotl32 f' (nth i shifts 0)), b, c).

Definition compress (st : state) (block : list byte) : state :=
  let M := words 16 block in
  let '(a, b, c, d) := st in
  let '(a', b', c', d') := fold_left (step M) (seq 0 64) st in
  (w32 (a + a'), w32 (b + b'), w32 (c + c'), w32 (d + d')).

Definition byte_of_Z (z : Z) : byte :=
  match Byte.of_N (Z.to_N z) with Some b => b | None => x00 end.

Definition pad (msg : list byte) : list byte :=
  let len := Z.of_nat (length msg) in
  let zeros := Z.to_nat ((55 - len) mod 64) in
  msg ++ x80 :: repeat x00 zeros ++ map byte_of_Z (bytes_of 8 (8 * len)).

Fixpoint blocks (n : nat) (bs : list byte) : list (list byte) :=
  match n with
  | O => []
  | S n' => firstn 64 bs :: blocks n' (skipn 64 bs)
  end.

Definition digest_state (msg : list byte) : state :=
  let p := pad msg in
  fold_left compress (blocks (length p / 64) p) init.

Definition hex_digit (z : Z) : ascii :=
  if z <? 10 then ascii_of_N (Z.to_N (48 + z)) else ascii_of_N (Z.to_N (87 + z)).

Definition hex_byte (z : Z) (rest : string) : string :=
  String (hex_digit (Z.shiftr z 4)) (String (hex_digit (Z.land z 0xF)) rest).

Definition hex_word (x : Z) (rest : string) : string :=
  hex_byte (Z.land x 0xFF)
    (hex_byte (Z.land (Z.shiftr x 8) 0xFF)
       (hex_byte (Z.land (Z.shiftr x 16) 0xFF)
          (hex_byte (Z.land (Z.shiftr x 24) 0xFF) rest))).

Definition hex_state (st : state) : string :=
  let '(a, b, c, d) := st in
  hex_word a (hex_word b (hex_word c (hex_word d ""))).

(** [hashlib.md5(msg).hexdigest()] *)
Definition hexdigest (msg : list byte) : string := hex_state (digest_state msg).

End Md5.

(** ** Python strings and [os.path]

    A [str] is a [string]: its characters are the code points below 256.
    Paths are POSIX paths, compared as strings (no normalisation, no
    symbolic links). *)
Module Py.

Definition nl : string := String (ascii_of_nat 10) "".
Definition tab : string := String (ascii_of_nat 9) "".
Definition slash : ascii := ascii_of_nat 47.

(** [s.startswith(pre)] *)
Fixpoint starts_with (pre s : string) : bool :=
  match pre, s with
  | "", _ => true
  | String _ _, "" => false
  | String a pre', String b s' => Ascii.eqb a b && starts_with pre' s'
  end.

(** [s.replace(old, new)] for a non-empty [old]: the occurrences of [old]
    are replaced from the left and do not overlap. [skip] counts the
    characters of a replaced occurrence that are still to be dropped. *)
Fixpoint replace_from (old new : string) (skip : nat) (s : string) : string :=
  match s with
  | "" => ""
  | String c s' =>
      match skip with
      | S k => replace_from old new k s'
      | O =>
          if starts_with old s
          then new +:+ replace_from old new (String.length old - 1) s'
          else String c (replace_from old new 0 s')
      end
  end.

Definition replace (old new s : string) : string := replace_from old new 0 s.

(** [s.endswith("/")] *)
Fixpoint ends_with_slash (s : string) : bool :=
  match s with
  | "" => false
  | String c "" => Ascii.eqb c slash
  | String _ s' => ends_with_slash s'
  end.

(** [posixpath.join(a, b)] *)
Definition join (a b : string) : string :=
  if starts_with "/" b then b
  else if String.eqb a "" || ends_with_slash a then a +:+ b
  else a +:+ "/" +:+ b.

(** [p[:p.rfind("/") + 1]] *)
Fixpoint has_slash (s : string) : bool :=
  match s with
  | "" => false
  | String c s' => Ascii.eqb c slash || has_slash s'
  end.

Fixpoint upto_last_slash (s : string) : string :=
  match s with
  | "" => ""
  | String c s' => if has_slash s then String c (upto_last_slash s') else ""
  end.

(** [p == "/" * len(p)] *)
Fixpoint all_slashes (s : string) : bool :=
  match s with
  | "" => true
  | String c s' => Ascii.eqb c slash && all_slashes s'
  end.

(** [s.rstrip("/")] *)
Fixpoint rstrip_slash (s : string) : string :=
  match s with
  | "" => ""
  | String c s' =>
      match rstrip_slash s' with
      | "" => if Ascii.eqb c slash then "" else String c ""
      | r => String c r
      end
  end.

(** [posixpath.dirname(p)]: the head up to the last slash, without its
    trailing slashes unless it consists of slashes only. *)
Definition dirname (p : string) : string :=
  let head := upto_last_slash p in
  match rstrip_slash head with
  | "" => head
  | h => h
  end.

(** Truth value of an optional [str] argument: [None] and the empty string
    are false. *)
Definition truthy (o : option string) : bool :=
  match o with
  | Some (String _ _) => true
  | _ => false
  end.

(** ["{}".format(o)] *)
Definition fmt (o : option string) : string :=
  match o with
  | Some s => s
  | None => "None"
  end.

End Py.

(** ** Exceptions, the world and the monad of effects *)

Inductive exn : Type :=
  | ValueError (msg : string)
  | AssertionError (msg : string)
  | TypeError (msg : string)
  | NameError (msg : string)
  | OSError (msg : string)
  | FileURLRetrievalError (msg : string)
  | FolderContentsMaximumLimitError (msg : string)
  | ProxyError (msg : string)
  | RuntimeError (msg : string)
  | KeyboardInterrupt
  | SystemExit (code : Z).

(** [isinstance(e, Exception)]: an interrupt and [sys.exit] derive from
    [BaseException] only. *)
Definition is_Exception (e : exn) : bool :=
  match e with
  | KeyboardInterrupt | SystemExit _ => false
  | _ => true
  end.

(** [str(e)] *)
Definition str_exn (e : exn) : string :=
  match e with
  | ValueError m | AssertionError m | TypeError m | NameError m | OSError m
  | FileURLRetrievalError m | FolderContentsMaximumLimitError m
  | ProxyError m | RuntimeError m => m
  | KeyboardInterrupt => ""
  | SystemExit c => pretty c
  end.

Inductive node : Type :=
  | File (data : list byte)
  | Dir.

(** What the code does to the outside, in the order it does it. [EvOpen]
    and [EvFetch] are recorded when the call is made, the others when the
    operation has completed. *)
Inductive event : Type :=
  | EvOpen (p : string)
  | EvMakedirs (p : string)
  | EvMkdtemp (p : string)
  | EvFetch (url dst : string)
  | EvLock (p : string)
  | EvMove (src dst : string)
  | EvRmtree (p : string)
  | EvWarn (category message : string).

(** The file system is a flat name space from paths to nodes; [stdout] and
    [stderr] hold what this package's own [print] calls wrote, one entry
    per call. *)
Record World : Type := mkWorld {
  fs : gmap string node;
  stdout : list string;
  stderr : list string;
  trace : list event
}.

Inductive Result (A : Type) : Type :=
  | Ok (a : A)
  | Raise (e : exn).
Arguments Ok {A} a.
Arguments Raise {A} e.

Definition M (A : Type) : Type := World -> Result A * World.

Definition ret {A} (a : A) : M A := fun w => (Ok a, w).
Definition raise {A} (e : exn) : M A := fun w => (Raise e, w).
Definition bind {A B} (c : M A) (k : A -> M B) : M B :=
  fun w =>
    match c w with
    | (Ok a, w') => k a w'
    | (Raise e, w') => (Raise e, w')
    end.

(** [try: c  except <class> as e: h e]; [h e = None] when the clause does
    not match the class of [e]. *)
Definition try_except {A} (c : M A) (h : exn -> option (M A)) : M A :=
  fun w =>
    match c w with
    | (Ok a, w') => (Ok a, w')
    | (Raise e, w') =>
        match h e with
        | Some k => k w'
        | None => (Raise e, w')
        end
    end.

Notation "'let*' x ':=' c 'in' k" := (bind c (fun x => k))
  (at level 10, x name, c at level 100, k at level 200).
Notation "c ;; k" := (bind c (fun _ => k))
  (at level 100, k at level 200, right associativity).

Definition when (b : bool) (c : M unit) : M unit := if b then c else ret tt.

Definition set_fs (f : gmap string node -> gmap string node) : M unit :=
  fun w => (Ok tt, mkWorld (f (fs w)) (stdout w) (stderr w) (trace w)).
Definition emit (e : event) : M unit :=
  fun w => (Ok tt, mkWorld (fs w) (stdout w) (stderr w) (trace w ++ [e])).
(** [print(s)] and [print(s, file=sys.stderr)] *)
Definition print (s : string) : M unit :=
  fun w => (Ok tt, mkWorld (fs w) (stdout w ++ [s]) (stderr w) (trace w)).
Definition print_err (s : string) : M unit :=
  fun w => (Ok tt, mkWorld (fs w) (stdout w) (stderr w ++ [s]) (trace w)).
Definition get_fs : M (gmap string node) := fun w => (Ok (fs w), w).

(** The events a call added to the trace. *)
Definition new_events (w w' : World) : list event :=
  drop (length (trace w)) (trace w').

(** [EvFetch] events: the network fetches. *)
Definition is_fetch (e : event) : bool :=
  match e with EvFetch _ _ => true | _ => false end.
Definition fetches (evs : list event) : nat :=
  length (List.filter is_fetch evs).

(** ** The file system operations the package calls *)
Module Os.

(** What is at a path: nothing at the empty path, the root directory at
    a path of slashes, and what the name space holds elsewhere. A path is
    looked up under the spelling it is given. *)
Definition stat (m : gmap string node) (p : string) : option node :=
  if String.eqb p "" then None
  else if Py.all_slashes p then Some Dir
  else m !! p.

Definition present (m : gmap string node) (p : string) : bool :=
  match stat m p with Some _ => true | None => false end.

Definition is_dir (m : gmap string node) (p : string) : bool :=
  match stat m p with Some Dir => true | _ => false end.

(** [os.path.exists(p)] *)
Definition path_exists (p : string) : M bool :=
  fun w => (Ok (present (fs w) p), w).

(** [p] is the directory [root] or lies below it. *)
Definition at_or_under (root p : string) : bool :=
  String.eqb p root || Py.starts_with (root +:+ "/") p.

(** No path of the file system is [root] or lies below it. *)
Definition free (m : gmap string node) (root : string) : bool :=
  bool_decide (map_Forall (fun p _ => at_or_under root p = false) m).

(** [open(p, "rb").read()]: the whole content, or [IOError]. *)
Definition read_file (p : string) : M (list byte) :=
  emit (EvOpen p) ;;
  let* m := get_fs in
  match stat m p with
  | Some (File d) => ret d
  | Some Dir => raise (OSError ("Is a directory: " +:+ p))
  | None => raise (OSError ("No such file or directory: " +:+ p))
  end.

(** [os.makedirs(d)]: [FileExistsError] when [d] exists, and no directory
    can be made at the empty path. The one directory [d] is made: the
    directories above it are taken to be there. *)
Definition makedirs (d : string) : M unit :=
  let* m := get_fs in
  if String.eqb d "" then raise (OSError "No such file or directory: ")
  else if present m d then raise (OSError ("File exists: " +:+ d))
  else set_fs (insert d Dir) ;; emit (EvMakedirs d).

(** [shutil.rmtree(p)] *)
Definition rmtree (p : string) : M unit :=
  let* m := get_fs in
  if is_dir m p then
    set_fs (filter (fun kv => at_or_under p kv.1 = false)) ;;
    emit (EvRmtree p)
  else raise (OSError ("Not a directory: " +:+ p)).

End Os.

(** ** What the environment decides

    The outcome of the operations whose result does not depend on the
    modelled state alone. *)

(** Modelled from the spec: [custom_download] (src/dow/custom_download.py
    is not part of the sources at hand). Section 4.2: it streams the
    resource to the destination, writes exactly that one file, takes no
    lock, and raises when no byte stream can be obtained. It either returns
    or raises, and in both cases may have written the destination. *)
Inductive dl_outcome : Type :=
  | DlReturn (written : option (list byte))
  | DlRaise (e : exn) (partial : option (list byte)).

Record Env : Type := mkEnv {
  (** what [custom_download] does for a URL *)
  remote : string -> dl_outcome;
  (** the random draws of [tempfile]: each candidate name is a list of
      indices into its alphabet *)
  temp_draws : list (list nat);
  (** the exception [filelock.FileLock] raises on acquisition, if any *)
  lock_failure : option exn;
  (** the exception [shutil.move] raises for a reason outside the modelled
      name space (permissions, devices), if any, and what it had written
      to the destination by then, if anything: when [os.rename] fails,
      [shutil.move] copies the file instead *)
  move_failure : option (exn * option (list byte))
}.

Module Ext.

(** [tempfile._RandomNameSequence.characters] *)
Definition characters : list ascii :=
  list_ascii_of_string "abcdefghijklmnopqrstuvwxyz0123456789_".

Definition rand_char (i : nat) : ascii :=
  nth (i mod 37) characters "a"%char.

(** A candidate name: the prefix [tmp] and the drawn characters. *)
Definition temp_name (draw : list nat) : string :=
  "tmp" +:+ string_of_list_ascii (map rand_char draw).

(** [tempfile.mkdtemp(dir=root)]: the first candidate that can be created;
    a directory can be created where [root] is a directory and nothing
    exists at the candidate's path or below it. *)
Definition mkdtemp (env : Env) (root : string) : M string :=
  let* m := get_fs in
  if Os.is_dir m root then
    match List.find (fun d => Os.free m (Py.join root (temp_name d)))
                    (temp_draws env) with
    | Some d =>
        let p := Py.join root (temp_name d) in
        set_fs (insert p Dir) ;; emit (EvMkdtemp p) ;; ret p
    | None => raise (OSError "No usable temporary directory name found")
    end
  else raise (OSError ("No such directory: " +:+ root)).

(** [custom_download(url, dst, silent=silent)] *)
Definition custom_download (env : Env) (url dst : string) (silent : bool)
  : M unit :=
  emit (EvFetch url dst) ;;
  match remote env url with
  | DlReturn (Some d) => set_fs (insert dst (File d))
  | DlReturn None => ret tt
  | DlRaise e (Some d) => set_fs (insert dst (File d)) ;; raise e
  | DlRaise e None => raise e
  end.

(** [with filelock.FileLock(lock_path): body]. The lock file itself is
    kept outside the modelled name space. *)
Definition with_lock {A} (env : Env) (lock_path : string) (body : M A) : M A :=
  match lock_failure env with
  | Some e => raise e
  | None => emit (EvLock lock_path) ;; body
  end.

(** [os.path.basename(p)] *)
Fixpoint basename (p : string) : string :=
  match p with
  | "" => ""
  | String c p' => if Py.has_slash p then basename p' else p
  end.

(** [shutil.move(src, dst)] of a regular file: into [dst] when it is a
    directory, onto [dst] otherwise. The destination's directory must
    exist; the rename replaces an existing file. When [os.rename] fails,
    [shutil.move] copies the file and then removes the source: a copy
    that fails leaves what it has written at the destination, and the
    source in its place. *)
Definition move (env : Env) (src dst : string) : M unit :=
  let* m := get_fs in
  match move_failure env with
  | Some (e, None) => raise e
  | outcome =>
      match Os.stat m src with
      | Some (File d) =>
          let into := Os.is_dir m dst in
          let real_dst := if into then Py.join dst (basename src) else dst in
          let parent := Py.dirname real_dst in
          if into && Os.present m real_dst
          then raise (OSError ("Destination path already exists: " +:+ real_dst))
          else if String.eqb real_dst ""
          then raise (OSError "No such file or directory: ")
          else if String.eqb parent "" || Os.is_dir m parent
          then
            match outcome with
            | Some (e, Some part) =>
                set_fs (insert real_dst (File part)) ;; raise e
            | _ =>
                set_fs (fun m0 : gmap string node =>
                          <[real_dst := File d]> (delete src m0)) ;;
                emit (EvMove src real_dst)
            end
          else raise (OSError ("No such file or directory: " +:+ real_dst))
      | _ => raise (OSError ("No such file or directory: " +:+ src))
      end
  end.

End Ext.

(** ** src/dow/cached_download.py *)
Section CachedDownload.

(** [osp.expanduser("~")] *)
Variable home : string.

(** Line 14. *)
Definition custom_cache_root : string := Py.join home ".custom_cache/gdown".


(** [iter(lambda: file.read(block_size), b"")]: the blocks read until one
    is empty, for a size [file.read] accepts. A negative size (-1) reads
    all that is left, size 0 reads nothing.
    Each block but the last empty one takes a byte at least, so the length
    of the file is fuel enough. *)
Fixpoint read_blocks (fuel : nat) (block_size : Z) (data : list byte)
  : list (list byte) :=
  match fuel with
  | O => []
  | S fuel' =>
      let block :=
        if block_size <? 0 then data else take (Z.to_nat block_size) data in
      match block with
      | [] => []
      | _ => block :: read_blocks fuel' block_size (drop (length block) data)
      end
  end.

(** [hash_md5.update(block)]: the hash object is the input so far. *)
Definition md5_update (h block : list byte) : list byte := h ++ block.

Definition calculate_md5sum (file_path : string) (block_size : option Z)
  : M string :=
  let block_size :=
    match block_size with None => 65536 | Some n => n end in
  let hash_md5 : list byte := [] in
  let* file := Os.read_file file_path in
  let hash_md5 :=
    fold_left md5_update (read_blocks (length file) block_size file) hash_md5 in
  ret (Md5.hexdigest hash_md5).

(** ["MD5 mismatch:\nActual: {}\nExpected: {}".format(actual, expected)] *)
Definition mismatch_message (actual : string) (expected : option string)
  : string :=
  "MD5 mismatch:" +:+ Py.nl +:+ "Actual: " +:+ actual
  +:+ Py.nl +:+ "Expected: " +:+ Py.fmt expected.

Definition validate_md5sum (file_path : string) (expected_md5 : option string)
    (silent : bool) (block_size : option Z) : M bool :=
  if negb (match expected_md5 with
           | Some s => Nat.eqb (String.length s) 32
           | None => false
           end)
  then raise (ValueError ("Expected MD5 must be 32 characters long: "
                          +:+ Py.fmt expected_md5))
  else
    when (negb silent) (print ("Calculating MD5: " +:+ file_path)) ;;
    let* actual_md5 := calculate_md5sum file_path block_size in
    if bool_decide (Some actual_md5 = expected_md5) then
      when (negb silent) (print ("MD5 matches: " +:+ file_path)) ;;
      ret true
    else
      raise (AssertionError (mismatch_message actual_md5 expected_md5)).

(** Lines 77-83: the path derived from the URL. *)
Definition derive_file_path (url : string) : string :=
  Py.join custom_cache_root
    (Py.replace "?" "-QUESTION-"
       (Py.replace "=" "-EQUAL-"
          (Py.replace ":" "-COLON-"
             (Py.replace "/" "-SLASH-" url)))).

(** [except OSError: pass] *)
Definition pass_OSError (e : exn) : option (M unit) :=
  match e with OSError _ => Some (ret tt) | _ => None end.

(** Lines 85-96: whether the call returns [file_path] without a download
    (the [return] of line 89 or of line 93). *)
Definition check_existing (file_path : string) (expected_md5 : option string)
    (silent : bool) : M bool :=
  let* ex := Os.path_exists file_path in
  if ex && negb (Py.truthy expected_md5) then
    when (negb silent) (print ("File already exists: " +:+ file_path)) ;;
    ret true
  else if ex && Py.truthy expected_md5 then
    try_except
      (validate_md5sum file_path expected_md5 silent None ;; ret true)
      (fun e =>
         match e with
         | AssertionError _ => Some (print_err (str_exn e) ;; ret false)
         | _ => None
         end)
  else ret false.

(** Lines 98-121: the download into a temporary directory and the move
    to [file_path] under the lock. *)
Definition download_and_publish (env : Env) (url file_path : string)
    (silent : bool) : M unit :=
  let lock_path := Py.join custom_cache_root "_dl_lock" in
  try_except (Os.makedirs (Py.dirname file_path)) pass_OSError ;;
  let* temp_root := Ext.mkdtemp env custom_cache_root in
  try_except
    (let temp_file_path := Py.join temp_root "dl" in
     when (negb silent)
       (print_err
          (if Py.truthy (Some file_path)
           then "Cached Download in progress: " +:+ file_path
           else "Cached Download in progress...")) ;;
     Ext.custom_download env url temp_file_path silent ;;
     Ext.with_lock env lock_path (Ext.move env temp_file_path file_path))
    (fun e =>
       if is_Exception e then Some (Os.rmtree temp_root ;; raise e)
       else None).

(** The path the call works on: lines 76-83. *)
Definition target_path (url : string) (file_path : option string) : string :=
  match file_path with
  | None => derive_file_path url
  | Some p => p
  end.

(** A [postprocess] callback works on the file system and may raise. *)
Definition callback : Type :=
  string -> gmap string node -> Result unit * gmap string node.

Definition run_callback (f : callback) (p : string) : M unit :=
  fun w =>
    let '(r, m) := f p (fs w) in
    (r, mkWorld m (stdout w) (stderr w) (trace w)).

(** Lines 123-130: the verification of the fresh file and the callback. *)
Definition verify_and_postprocess (file_path : string)
    (expected_md5 : option string) (silent : bool)
    (postprocess : option callback) : M string :=
  when (Py.truthy expected_md5)
    (validate_md5sum file_path expected_md5 silent None ;; ret tt) ;;
  match postprocess with
  | Some f => run_callback f file_path
  | None => ret tt
  end ;;
  ret file_path.

(** [cached_custom_download(url, file_path, expected_md5, silent,
    postprocess)] *)
Definition cached_custom_download (env : Env) (url : string)
    (file_path : option string) (expected_md5 : option string)
    (silent : bool) (postprocess : option callback) : M string :=
  let file_path := target_path url file_path in
  let* hit := check_existing file_path expected_md5 silent in
  if hit then ret file_path
  else
    download_and_publish env url file_path silent ;;
    verify_and_postprocess file_path expected_md5 silent postprocess.

(** The path of the temporary directory made from a draw. *)
Definition temp_root (d : list nat) : string :=
  Py.join custom_cache_root (Ext.temp_name d).

End CachedDownload.

(** ** src/dow/_indent.py *)
Module Indent.

(** The line boundaries of [str.splitlines] among the code points below
    256: LF, VT, FF, CR, FS, GS, RS and NEL; CR LF counts as one. *)
Definition is_linebreak (c : ascii) : bool :=
  match nat_of_ascii c with
  | 10 | 11 | 12 | 13 | 28 | 29 | 30 | 133 => true
  | _ => false
  end%nat.

(** [str.isspace] on one character, code points below 256. *)
Definition is_space (c : ascii) : bool :=
  match nat_of_ascii c with
  | 9 | 10 | 11 | 12 | 13 | 28 | 29 | 30 | 31 | 32 | 133 | 160 => true
  | _ => false
  end%nat.

(** [t.splitlines(True)]; [cur] is the line read so far. *)
Fixpoint splitlines_from (cur t : string) : list string :=
  match t with
  | "" => if String.eqb cur "" then [] else [cur]
  | String c t' =>
      if Ascii.eqb c (ascii_of_nat 13) then
        match t' with
        | String c' t'' =>
            if Ascii.eqb c' (ascii_of_nat 10)
            then (cur +:+ String c (String c' "")) :: splitlines_from "" t''
            else (cur +:+ String c "") :: splitlines_from "" t'
        | "" => [cur +:+ String c ""]
        end
      else if is_linebreak c then (cur +:+ String c "") :: splitlines_from "" t'
      else splitlines_from (cur +:+ String c "") t'
  end.

Definition splitlines_keepends (t : string) : list string := splitlines_from "" t.

(** The truth value of [line.strip()]: some character is not white space. *)
Fixpoint strip_nonempty (line : string) : bool :=
  match line with
  | "" => false
  | String c l => negb (is_space c) || strip_nonempty l
  end.

(** [indent(t, p)], the body. *)
Definition indent (t p : string) : string :=
  String.concat ""
    (map (fun line => if strip_nonempty line then p +:+ line else line)
       (splitlines_keepends t)).

(** A text that holds no line boundary. *)
Fixpoint no_linebreak (line : string) : bool :=
  match line with
  | "" => true
  | String c l => negb (is_linebreak c) && no_linebreak l
  end.

(** What [indent] makes of one line: [p + line if line.strip() else line]. *)
Definition prefixed (p line : string) : string :=
  if strip_nonempty line then p +:+ line else line.

(** How a call binds positional arguments and keywords to the parameters
    of a function without defaults: positional arguments in order, then
    each keyword to the parameter of its name. *)
Fixpoint bind_keywords (fname : string) (params : list string)
    (bound : list (string * string)) (kwargs : list (string * string))
  : Result (list (string * string)) :=
  match kwargs with
  | [] => Ok bound
  | (k, v) :: rest =>
      if negb (existsb (String.eqb k) params) then
        Raise (TypeError (fname +:+ "() got an unexpected keyword argument '"
                          +:+ k +:+ "'"))
      else if existsb (fun kv => String.eqb k kv.1) bound then
        Raise (TypeError (fname +:+ "() got multiple values for argument '"
                          +:+ k +:+ "'"))
      else bind_keywords fname params (bound ++ [(k, v)]) rest
  end.

Definition lookup_arg (bound : list (string * string)) (name : string)
  : option string :=
  snd <$> List.find (fun kv => String.eqb name kv.1) bound.

Definition bind_call (fname : string) (params args : list string)
    (kwargs : list (string * string)) : Result (list (string * string)) :=
  if (length params <? length args)%nat then
    Raise (TypeError (fname +:+ "() takes " +:+ pretty (length params)
                      +:+ " positional arguments but "
                      +:+ pretty (length args) +:+ " were given"))
  else
    match bind_keywords fname params (zip params args) kwargs with
    | Raise e => Raise e
    | Ok bound =>
        match List.find (fun p => negb (existsb (fun kv => String.eqb p kv.1) bound))
                        params with
        | Some p =>
            Raise (TypeError (fname +:+ "() missing required argument: '"
                              +:+ p +:+ "'"))
        | None => Ok bound
        end
    end.

(** A call of [def indent(t, p)] with positional arguments [args] and
    keywords [kwargs]. *)
Definition call (args : list string) (kwargs : list (string * string))
  : Result string :=
  match bind_call "indent" ["t"; "p"] args kwargs with
  | Raise e => Raise e
  | Ok bound =>
      match lookup_arg bound "t", lookup_arg bound "p" with
      | Some t, Some p => Ok (indent t p)
      | _, _ => Raise (TypeError "indent() missing required argument")
      end
  end.

End Indent.

(** ** src/dow/cli.py: [main] from the parsed arguments on *)
Module Cli.

(** The namespace [parser.parse_args()] returns. *)
Record Args : Type := mkArgs {
  url_or_id : string;
  output : option string;
  quiet : bool;
  fuzzy : bool;
  id : bool;
  proxy : option string;
  speed : option Z;
  no_cookies : bool;
  no_check_certificate : bool;
  continue_ : bool;
  folder : bool;
  remaining_ok : bool;
  format : option string
}.

(** Lines 126-130: ["-"] stands for the standard output stream. *)
Inductive destination : Type :=
  | ToDefault
  | ToPath (p : string)
  | ToStdout.

(** The keyword arguments of the call at lines 161-173. *)
Record download_call : Type := mkCall {
  c_url : option string;
  c_output : destination;
  c_quiet : bool;
  c_proxy : option string;
  c_speed : option Z;
  c_use_cookies : bool;
  c_verify : bool;
  c_file_id : option string;
  c_fuzzy : bool;
  c_resume : bool;
  c_format : option string
}.

(** [re.match("^https?://.*", s)] *)
Definition is_http_url (s : string) : bool :=
  Py.starts_with "http://" s || Py.starts_with "https://" s.

Definition lift {A} (r : Result A) : M A := fun w => (r, w).

(** [sys.exit(code)] *)
Definition sys_exit (code : Z) : M unit := raise (SystemExit code).

(** The exit status of the process once [main] has ended: that of
    [sys.exit], and 1 after the traceback of an exception nobody caught. *)
Definition exit_status (r : Result unit) : Z :=
  match r with
  | Ok _ => 0
  | Raise (SystemExit c) => c
  | Raise _ => 1
  end.

(** The value of [float(size) * factor] of lines 37-46, kept as its two
    operands: [size] is the integer the digits denote and [factor] the
    power of 1024 of the unit. How [float] rounds is not modelled. *)
Inductive pyfloat : Type :=
  | FloatMul (size : Z) (factor : Z).

(** [[0-9]] *)
Definition is_digit (c : ascii) : bool :=
  let n := nat_of_ascii c in ((48 <=? n) && (n <=? 57))%nat.

(** The longest prefix of digits, what [[0-9]+] takes, and the rest. The
    group cannot give digits back: what follows a shorter prefix is a
    digit, and no unit begins with one. *)
Fixpoint span_digits (s : string) : string * string :=
  match s with
  | "" => ("", "")
  | String c s' =>
      if is_digit c then
        let '(ds, rest) := span_digits s' in (String c ds, rest)
      else ("", s)
  end.

(** The integer a string of digits denotes. *)
Fixpoint digits_value_from (acc : Z) (ds : string) : Z :=
  match ds with
  | "" => acc
  | String c ds' =>
      digits_value_from (10 * acc + (Z.of_nat (nat_of_ascii c) - 48)) ds'
  end.

Definition digits_value (ds : string) : Z := digits_value_from 0 ds.

Inductive size_unit : Type := GB | MB | KB | B.

(** [(GB|MB|KB|B)] at the start of [s], the alternatives in their order. *)
Definition match_unit (s : string) : option size_unit :=
  if Py.starts_with "GB" s then Some GB
  else if Py.starts_with "MB" s then Some MB
  else if Py.starts_with "KB" s then Some KB
  else if Py.starts_with "B" s then Some B
  else None.

(** Lines 38-45. *)
Definition unit_factor (u : size_unit) : Z :=
  match u with
  | KB => 1024
  | MB => 1024 ^ 2
  | GB => 1024 ^ 3
  | B => 1
  end.

(** [calculate_file_size(argv)]: [None] for [None] (the function falls
    off its end), [TypeError] when [re.match] finds nothing. *)
Definition calculate_file_size (argv : option string)
  : Result (option pyfloat) :=
  match argv with
  | None => Ok None
  | Some s =>
      let '(size, rest) := span_digits s in
      match size, match_unit rest with
      | String _ _, Some u =>
          Ok (Some (FloatMul (digits_value size) (unit_factor u)))
      | _, _ => Raise (TypeError "")
      end
  end.

Section Main.

(** [textwrap.wrap] *)
Variable wrap : string -> list string.

(** The function [custom_download] the module imports; its source is not
    at hand, so what a call does is a parameter. *)
Variable custom_download : download_call -> M unit.

(** Lines 177-185. *)
Definition on_folder_limit (e : exn) : M unit :=
  let* body := lift (Indent.call [String.concat Py.nl (wrap (str_exn e))]
                                 [("prefix", Py.tab)]) in
  print_err ("Failed to retrieve folder contents:" +:+ Py.nl +:+ Py.nl
             +:+ body +:+ Py.nl +:+ Py.nl
             +:+ "You can use the `--remaining-ok` option to ignore this error.") ;;
  sys_exit 1.

(** Lines 186-194. *)
Definition on_proxy_error (e : exn) : M unit :=
  let* body := lift (Indent.call [String.concat Py.nl (wrap (str_exn e))]
                                 [("prefix", Py.tab)]) in
  print_err ("Failed to use proxy:" +:+ Py.nl +:+ Py.nl
             +:+ body +:+ Py.nl +:+ Py.nl
             +:+ "Please check your proxy settings.") ;;
  sys_exit 1.

(** The [except] clauses of lines 174-200, in their order. *)
Definition handlers (e : exn) : option (M unit) :=
  match e with
  | FileURLRetrievalError _ => Some (print_err (str_exn e) ;; sys_exit 1)
  | FolderContentsMaximumLimitError _ => Some (on_folder_limit e)
  | ProxyError _ => Some (on_proxy_error e)
  | _ =>
      if is_Exception e then Some (print_err "Error" ;; sys_exit 1) else None
  end.

(** Lines 126-200. No name [download_folder] is bound in the module, so
    the call of line 149 raises [NameError] when it is reached. *)
Definition main (args : Args) : M unit :=
  let out :=
    match output args with
    | Some "-" => ToStdout
    | Some p => ToPath p
    | None => ToDefault
    end in
  let* ids :=
    if id args then
      emit (EvWarn "FutureWarning" "Option") ;;
      ret (None, Some (url_or_id args))
    else if is_http_url (url_or_id args) then ret (Some (url_or_id args), None)
    else ret (None, Some (url_or_id args)) in
  let '(url, file_id) := ids in
  try_except
    (if folder args then
       raise (NameError "name 'download_folder' is not defined")
     else
       custom_download
         (mkCall url out (quiet args) (proxy args) (speed args)
            (negb (no_cookies args)) (negb (no_check_certificate args))
            file_id (fuzzy args) (continue_ args) (format args)))
    handlers.

End Main.
End Cli.

(** * The vocabulary of the properties *)

(** ** Checksums and messages *)

(** The spec's reading of a well-formed checksum: exactly 32 hexadecimal
    characters. *)
Definition is_hex_char (c : ascii) : bool :=
  let n := nat_of_ascii c in
  ((48 <=? n) && (n <=? 57) || (97 <=? n) && (n <=? 102)
   || (65 <=? n) && (n <=? 70))%nat.

Fixpoint all_hex (s : string) : bool :=
  match s with
  | "" => true
  | String c s' => is_hex_char c && all_hex s'
  end.

Definition well_formed_md5 (s : string) : bool :=
  Nat.eqb (String.length s) 32 && all_hex s.

(** The messages [validate_md5sum] prints before and after the digest. *)
Definition calculating (silent : bool) (p : string) : list string :=
  if silent then [] else ["Calculating MD5: " +:+ p].

Definition calculated (silent : bool) (p : string) : list string :=
  if silent then [] else ["Calculating MD5: " +:+ p; "MD5 matches: " +:+ p].

(** What line 88 prints. *)
Definition hit_message (silent : bool) (target : string) : list string :=
  if silent then [] else ["File already exists: " +:+ target].

(** ** The path derived from a URL, as the spec words it *)

(** The spec's reading: every character of the URL is kept, except that
    each of the four unsafe characters is replaced by its marker. *)
Definition marker (c : ascii) : string :=
  if Ascii.eqb c "/" then "-SLASH-"
  else if Ascii.eqb c ":" then "-COLON-"
  else if Ascii.eqb c "=" then "-EQUAL-"
  else if Ascii.eqb c "?" then "-QUESTION-"
  else String c "".

Fixpoint mangle (url : string) : string :=
  match url with
  | "" => ""
  | String c u => marker c +:+ mangle u
  end.

(** ** The blocks of [cached_custom_download] and their outcomes *)

Inductive check_outcome (target : string) (md5 : option string)
    (silent : bool) (w : World) : Result bool -> World -> Prop :=
  | co_hit :
      Py.truthy md5 = false -> Os.present (fs w) target = true ->
      check_outcome target md5 silent w (Ok true)
        (mkWorld (fs w) (stdout w ++ hit_message silent target) (stderr w)
           (trace w))
  | co_absent :
      Os.present (fs w) target = false ->
      check_outcome target md5 silent w (Ok false) w
  | co_bad_length (expected : string) :
      md5 = Some expected -> Os.present (fs w) target = true ->
      Py.truthy md5 = true -> String.length expected <> 32%nat ->
      check_outcome target md5 silent w
        (Raise (ValueError ("Expected MD5 must be 32 characters long: "
                            +:+ expected))) w
  | co_match (expected : string) (old : list byte) :
      md5 = Some expected -> Os.stat (fs w) target = Some (File old) ->
      String.length expected = 32%nat -> Md5.hexdigest old = expected ->
      check_outcome target md5 silent w (Ok true)
        (mkWorld (fs w) (stdout w ++ calculated silent target) (stderr w)
           (trace w ++ [EvOpen target]))
  | co_mismatch (expected : string) (old : list byte) :
      md5 = Some expected -> Os.stat (fs w) target = Some (File old) ->
      String.length expected = 32%nat -> Md5.hexdigest old <> expected ->
      check_outcome target md5 silent w (Ok false)
        (mkWorld (fs w) (stdout w ++ calculating silent target)
           (stderr w ++ [mismatch_message (Md5.hexdigest old) (Some expected)])
           (trace w ++ [EvOpen target]))
  | co_not_file (expected msg : string) :
      md5 = Some expected -> Os.stat (fs w) target = Some Dir ->
      String.length expected = 32%nat ->
      check_outcome target md5 silent w (Raise (OSError msg))
        (mkWorld (fs w) (stdout w ++ calculating silent target) (stderr w)
           (trace w ++ [EvOpen target])).

(** Lines 123-124 alone. *)
Definition verify_fresh (target : string) (md5 : option string)
    (silent : bool) : M unit :=
  when (Py.truthy md5) (validate_md5sum target md5 silent None ;; ret tt).

(** Lines 127-128 alone. *)
Definition postprocess_step (target : string) (pp : option callback) : M unit :=
  match pp with
  | Some f => run_callback f target
  | None => ret tt
  end.

Inductive verify_outcome (target : string) (md5 : option string)
    (silent : bool) (w : World) : Result unit -> World -> Prop :=
  | vo_skip :
      Py.truthy md5 = false ->
      verify_outcome target md5 silent w (Ok tt) w
  | vo_bad_length (expected : string) :
      md5 = Some expected -> Py.truthy md5 = true ->
      String.length expected <> 32%nat ->
      verify_outcome target md5 silent w
        (Raise (ValueError ("Expected MD5 must be 32 characters long: "
                            +:+ expected))) w
  | vo_match (expected : string) (new : list byte) :
      md5 = Some expected -> Os.stat (fs w) target = Some (File new) ->
      String.length expected = 32%nat -> Md5.hexdigest new = expected ->
      verify_outcome target md5 silent w (Ok tt)
        (mkWorld (fs w) (stdout w ++ calculated silent target) (stderr w)
           (trace w ++ [EvOpen target]))
  | vo_mismatch (expected : string) (new : list byte) :
      md5 = Some expected -> Os.stat (fs w) target = Some (File new) ->
      String.length expected = 32%nat -> Md5.hexdigest new <> expected ->
      verify_outcome target md5 silent w
        (Raise (AssertionError
                  (mismatch_message (Md5.hexdigest new) (Some expected))))
        (mkWorld (fs w) (stdout w ++ calculating silent target) (stderr w)
           (trace w ++ [EvOpen target]))
  | vo_not_file (expected msg : string) :
      md5 = Some expected ->
      (forall data, Os.stat (fs w) target <> Some (File data)) ->
      String.length expected = 32%nat ->
      verify_outcome target md5 silent w (Raise (OSError msg))
        (mkWorld (fs w) (stdout w ++ calculating silent target) (stderr w)
           (trace w ++ [EvOpen target])).

Module Block.
Section Block.

Variable home : string.
Variable env : Env.
Variables (url target : string) (silent : bool).

Abbreviation root := (custom_cache_root home).
Abbreviation lock_path := (Py.join (custom_cache_root home) "_dl_lock").

(** The world once line 101 has run: the directory of the target is made
    unless it exists. *)
Definition after_makedirs (w : World) : World :=
  let d := Py.dirname target in
  if String.eqb d "" || Os.present (fs w) d then w
  else mkWorld (<[d := Dir]> (fs w)) (stdout w) (stderr w)
         (trace w ++ [EvMakedirs d]).

(** What line 114 writes to the standard error stream. *)
Definition progress : list string :=
  if silent then []
  else [if Py.truthy (Some target)
        then "Cached Download in progress: " +:+ target
        else "Cached Download in progress..."].

Definition find_temp (w1 : World) : option (list nat) :=
  List.find (fun d => Os.free (fs w1) (Py.join root (Ext.temp_name d)))
    (temp_draws env).

(** The world during the [try] block of lines 105-118, with file system
    [m] and with [evs] after the creation of [r] and the fetch. *)
Definition temp_world (w1 : World) (r : string) (m : gmap string node)
    (evs : list event) : World :=
  mkWorld m (stdout w1) (stderr w1 ++ progress)
    (trace w1 ++ [EvMkdtemp r; EvFetch url (r +:+ "/dl")] ++ evs).

(** Where a failure of the block comes from. *)
Definition failure_source (e : exn) : Prop :=
  (exists part, remote env url = DlRaise e part)
  \/ lock_failure env = Some e
  \/ (exists written, move_failure env = Some (e, written))
  \/ exists msg, e = OSError msg.

Inductive publish_outcome (w : World) : Result unit -> World -> Prop :=
  | po_no_temp (msg : string) :
      Os.is_dir (fs (after_makedirs w)) root = false
      \/ find_temp (after_makedirs w) = None ->
      publish_outcome w (Raise (OSError msg)) (after_makedirs w)
  | po_published (d : list nat) (new : list byte) (real : string) :
      let w1 := after_makedirs w in
      let r := temp_root home d in
      let m3 := <[r +:+ "/dl" := File new]> (<[r := Dir]> (fs w1)) in
      find_temp w1 = Some d ->
      remote env url = DlReturn (Some new) ->
      real = (if Os.is_dir m3 target
              then Py.join target (Ext.basename (r +:+ "/dl")) else target) ->
      Os.is_dir m3 target && Os.present m3 real = false ->
      real <> "" ->
      publish_outcome w (Ok tt)
        (temp_world w1 r (<[real := File new]> (<[r := Dir]> (fs w1)))
           [EvLock lock_path; EvMove (r +:+ "/dl") real])
  | po_cleaned (d : list nat) (e : exn) (evs : list event) :
      let w1 := after_makedirs w in
      let r := temp_root home d in
      find_temp w1 = Some d ->
      is_Exception e = true -> failure_source e ->
      evs = [] \/ evs = [EvLock lock_path] ->
      publish_outcome w (Raise e)
        (temp_world w1 r (fs w1) (evs ++ [EvRmtree r]))
  | po_interrupted (d : list nat) (e : exn) (m : gmap string node)
      (evs : list event) :
      let w1 := after_makedirs w in
      let r := temp_root home d in
      find_temp w1 = Some d ->
      is_Exception e = false -> m !! r = Some Dir ->
      evs = [] \/ evs = [EvLock lock_path] ->
      publish_outcome w (Raise e) (temp_world w1 r m evs)
  | po_overwritten (d : list nat) (e : exn) (new part : list byte)
      (real : string) :
      let w1 := after_makedirs w in
      let r := temp_root home d in
      let m3 := <[r +:+ "/dl" := File new]> (<[r := Dir]> (fs w1)) in
      find_temp w1 = Some d ->
      is_Exception e = true ->
      remote env url = DlReturn (Some new) ->
      lock_failure env = None ->
      move_failure env = Some (e, Some part) ->
      real = (if Os.is_dir m3 target
              then Py.join target (Ext.basename (r +:+ "/dl")) else target) ->
      publish_outcome w (Raise e)
        (temp_world w1 r
           (filter (fun kv : string * node => Os.at_or_under r kv.1 = false)
              (<[real := File part]> m3))
           [EvLock lock_path; EvRmtree r]).

(** The block returned: candidate [d] was created, the download wrote
    [new], and the file was moved to [real]. *)
Definition published (w w2 : World) (d : list nat) (new : list byte)
    (real : string) : Prop :=
  let w1 := after_makedirs w in
  let r := temp_root home d in
  let m3 := <[r +:+ "/dl" := File new]> (<[r := Dir]> (fs w1)) in
  find_temp w1 = Some d
  /\ remote env url = DlReturn (Some new)
  /\ real = (if Os.is_dir m3 target
             then Py.join target (Ext.basename (r +:+ "/dl")) else target)
  /\ Os.is_dir m3 target && Os.present m3 real = false
  /\ real <> ""
  /\ w2 = temp_world w1 r
            (<[real := File new]> (<[r := Dir]> (fs w1)))
            [EvLock lock_path; EvMove (r +:+ "/dl") real].

(** The block raised [e] after candidate [d] was created, and the handler
    removed the directory. *)
Definition cleaned (w w2 : World) (e : exn) (d : list nat)
    (evs : list event) : Prop :=
  let w1 := after_makedirs w in
  let r := temp_root home d in
  find_temp w1 = Some d
  /\ is_Exception e = true
  /\ failure_source e
  /\ (evs = [] \/ evs = [EvLock lock_path])
  /\ w2 = temp_world w1 r (fs w1) (evs ++ [EvRmtree r]).

(** The block was left by [e], which no clause caught. *)
Definition interrupted (w w2 : World) (e : exn) (d : list nat)
    (m : gmap string node) (evs : list event) : Prop :=
  let w1 := after_makedirs w in
  let r := temp_root home d in
  find_temp w1 = Some d
  /\ is_Exception e = false
  /\ m !! r = Some Dir
  /\ (evs = [] \/ evs = [EvLock lock_path])
  /\ w2 = temp_world w1 r m evs.

(** The move failed with [e] after its copy had written [part] to [real];
    the handler removed the temporary directory. *)
Definition overwritten (w w2 : World) (e : exn) (d : list nat)
    (new part : list byte) (real : string) : Prop :=
  let w1 := after_makedirs w in
  let r := temp_root home d in
  let m3 := <[r +:+ "/dl" := File new]> (<[r := Dir]> (fs w1)) in
  find_temp w1 = Some d
  /\ is_Exception e = true
  /\ remote env url = DlReturn (Some new)
  /\ lock_failure env = None
  /\ move_failure env = Some (e, Some part)
  /\ real = (if Os.is_dir m3 target
             then Py.join target (Ext.basename (r +:+ "/dl")) else target)
  /\ w2 = temp_world w1 r
            (filter (fun kv : string * node => Os.at_or_under r kv.1 = false)
               (<[real := File part]> m3))
            [EvLock lock_path; EvRmtree r].

End Block.
End Block.

(** ** Callbacks and events *)

(** The events of line 101. *)
Definition makedirs_events (target : string) (w : World) : list event :=
  let d := Py.dirname target in
  if String.eqb d "" || Os.present (fs w) d then [] else [EvMakedirs d].

(** A callback that does not remove the target. *)
Definition keeps_target (pp : option callback) (target : string) : Prop :=
  forall f m r m',
    pp = Some f -> f target m = (r, m') ->
    Os.present m target = true -> Os.present m' target = true.

(** A callback that leaves the paths at and below [r] alone. *)
Definition keeps_below (pp : option callback) (r : string) : Prop :=
  forall f p m res m' q,
    pp = Some f -> f p m = (res, m') ->
    Os.at_or_under r q = true -> m' !! q = m !! q.

(** ** The inputs the properties are stated for *)

(** A path component that names an entry of a directory. *)
Definition proper_name (n : string) : bool :=
  negb (String.eqb n "") && negb (String.eqb n ".")
  && negb (String.eqb n "..").

(** The components of a path, what lies between its slashes; [cur] is the
    component read so far. *)
Fixpoint components_from (cur p : string) : list string :=
  match p with
  | "" => [cur]
  | String c p' =>
      if Ascii.eqb c "/" then cur :: components_from "" p'
      else components_from (cur +:+ String c "") p'
  end.

(** A normalised path that names a file: every component is a proper
    name, but for the empty first component of an absolute path. The
    file system finds a directory also under its name with a slash, [.]
    or [..] at the end, and a file under every spelling of its path;
    [Os.stat] looks the one spelling up. *)
Definition proper_target (p : string) : bool :=
  match components_from "" p with
  | [] => false
  | [c] => proper_name c
  | c :: cs => (String.eqb c "" || proper_name c) && forallb proper_name cs
  end.

(** Line 101 has at most one directory to make: the directory of the
    target exists, or the directory above it does. [os.makedirs] would
    also make the directories above, and fails below a regular file;
    [Os.makedirs] makes the one directory. *)
Definition directory_ready (m : gmap string node) (target : string) : bool :=
  let d := Py.dirname target in
  String.eqb d "" || Os.present m d
  || String.eqb (Py.dirname d) "" || Os.is_dir m (Py.dirname d).

(** The block sizes for which [file.read] returns the blocks of
    [read_blocks]: the default, -1 (all that is left) and the positive
    sizes up to the default. A size below -1 raises [ValueError], a size
    too large to allocate [OverflowError] or [MemoryError]. *)
Definition accepted_size (block_size : option Z) : bool :=
  match block_size with
  | None => true
  | Some n => (n =? -1) || ((0 <? n) && (n <=? 65536))
  end.


(** ** The command line *)

(** A string of ASCII digits. *)
Fixpoint all_digits (s : string) : bool :=
  match s with
  | "" => true
  | String c s' => Cli.is_digit c && all_digits s'
  end.

(** How a unit is written. *)
Definition unit_text (u : Cli.size_unit) : string :=
  match u with
  | Cli.GB => "GB"
  | Cli.MB => "MB"
  | Cli.KB => "KB"
  | Cli.B => "B"
  end.

(** The world in which [main] makes the download call: with [--id], the
    warning of lines 133-137 has been issued. *)
Definition warned (args : Cli.Args) (w : World) : World :=
  if Cli.id args then
    mkWorld (fs w) (stdout w) (stderr w)
      (trace w ++ [EvWarn "FutureWarning" "Option"])
  else w.

(** The exception classes with an [except] clause of their own. *)
Definition has_own_clause (e : exn) : bool :=
  match e with
  | FileURLRetrievalError _ | FolderContentsMaximumLimitError _
  | ProxyError _ => true
  | _ => false
  end.

(** ** What [silent] may change *)

(** Two worlds with the same file system and the same trace: they differ
    in what was printed only. *)
Definition same_effects (w1 w2 : World) : Prop :=
  fs w1 = fs w2 /\ trace w1 = trace w2.

(** Two computations that, from such worlds, end in the same way in such
    worlds. *)
Definition alike {A} (c1 c2 : M A) : Prop :=
  forall w1 w2,
    same_effects w1 w2 ->
    (c1 w1).1 = (c2 w2).1 /\ same_effects (c1 w1).2 (c2 w2).2.

(** ** URLs without a dash *)

Fixpoint no_dash (s : string) : bool :=
  match s with
  | "" => true
  | String c s' => negb (Ascii.eqb c "-") && no_dash s'
  end.

(** ** Concrete runs *)

Definition z32 : string := "zzzzzzzzzzzzzzzzzzzzzzzzzzzzzzzz".

(** A world with one empty file [f]. *)
Definition world_empty_file : World := mkWorld {[ "f" := File [] ]} [] [] [].

(** A world with one file [f] that holds [abc]. *)
Definition world_abc : World :=
  mkWorld {[ "f" := File [x61; x62; x63] ]} [] [] [].

Definition demo_home : string := "/home/u".

Definition demo_root : string := "/home/u/.custom_cache/gdown".

Definition demo_url : string := "http://x/y?a=b".

Definition demo_target : string :=
  "/home/u/.custom_cache/gdown/http-COLON--SLASH--SLASH-x-SLASH-y-QUESTION-a-EQUAL-b".

Definition demo_temp : string := "/home/u/.custom_cache/gdown/tmpabc".

Definition abc : list byte := [x61; x62; x63].

Definition md5_hello : string := "5d41402abc4b2a76b9719d911017c592".

(** The download succeeds and writes [abc]. *)
Definition env_ok : Env :=
  mkEnv (fun _ => DlReturn (Some abc)) [[0; 1; 2]%nat] None None.

(** The download fails after it has written a byte. *)
Definition env_broken : Env :=
  mkEnv (fun _ => DlRaise (RuntimeError "connection lost") (Some [x61]))
    [[0; 1; 2]%nat] None None.

(** A cache root without files. *)
Definition world_cold : World := mkWorld {[ demo_root := Dir ]} [] [] [].

(** A cache root that holds a stale copy of the target. *)
Definition world_stale : World :=
  mkWorld (<[demo_target := File [x6f; x6c; x64]]> {[ demo_root := Dir ]})
    [] [] [].

Definition plain_args (url : string) : Cli.Args :=
  Cli.mkArgs url None false false false None None false false false false
    false None.

(** The arguments of a call with [--folder]. *)
Definition folder_args : Cli.Args :=
  Cli.mkArgs "https://drive.example/folder" None false false false None None
    false false false true false None.




(** A world without the cache root. *)
Definition world_bare : World := mkWorld ∅ [] [] [].

(** A cache root that holds the target with content [abc]. *)
Definition world_warm : World :=
  mkWorld (<[demo_target := File abc]> {[ demo_root := Dir ]}) [] [] [].

(** A cache root in which the target path is a directory. *)
Definition world_dir_target : World :=
  mkWorld (<[demo_target := Dir]> {[ demo_root := Dir ]}) [] [] [].

(** The download is interrupted after it has written a byte. *)
Definition env_interrupted : Env :=
  mkEnv (fun _ => DlRaise KeyboardInterrupt (Some [x61]))
    [[0; 1; 2]%nat] None None.

(** A callback that removes the file it is given. *)
Definition remove_file : callback := fun p m => (Ok tt, delete p m).

(** * Properties *)

(** ** The library functions on examples *)

Lemma hex_state_length (st : Md5.state) : String.length (Md5.hex_state st) = 32%nat.
Proof. destruct st as [[[a b] c] d]. reflexivity. Qed.

Lemma hexdigest_length (msg : list byte) : String.length (Md5.hexdigest msg) = 32%nat.
Proof. apply hex_state_length. Qed.

Example hexdigest_empty : Md5.hexdigest [] = "d41d8cd98f00b204e9800998ecf8427e".
Proof. vm_compute. reflexivity. Qed.

Example hexdigest_abc :
  Md5.hexdigest [x61; x62; x63] = "900150983cd24fb0d6963f7d28e17f72".
Proof. vm_compute. reflexivity. Qed.

Example hexdigest_two_blocks :
  Md5.hexdigest (repeat x61 70) = "0f5c6c4e740bfcc08c3c26ccb2673d46".
Proof. vm_compute. reflexivity. Qed.

Example replace_slash : Py.replace "/" "-SLASH-" "a/b//c" = "a-SLASH-b-SLASH--SLASH-c".
Proof. reflexivity. Qed.

Example replace_long : Py.replace "ab" "x" "ababa-abb" = "xxa-xb".
Proof. reflexivity. Qed.

Example join_plain_example : Py.join "/home/u" ".custom_cache/gdown" = "/home/u/.custom_cache/gdown".
Proof. reflexivity. Qed.

Example join_root_example : Py.join "/" "x" = "/x".
Proof. reflexivity. Qed.

Example join_absolute_example : Py.join "/home/u" "/etc/x" = "/etc/x".
Proof. reflexivity. Qed.

Example dirname_file_example : Py.dirname "/a/b/c.txt" = "/a/b".
Proof. reflexivity. Qed.

Example dirname_slashes_example : Py.dirname "//x" = "//".
Proof. reflexivity. Qed.

Example dirname_bare_example : Py.dirname "c.txt" = "".
Proof. reflexivity. Qed.

Example dirname_double_example : Py.dirname "/a//b" = "/a".
Proof. reflexivity. Qed.

Example indent_two_lines :
  Indent.indent ("a" +:+ Py.nl +:+ Py.nl +:+ " b") Py.tab
  = Py.tab +:+ "a" +:+ Py.nl +:+ Py.nl +:+ Py.tab +:+ " b".
Proof. reflexivity. Qed.

Example indent_crlf :
  Indent.splitlines_keepends ("a" +:+ String (ascii_of_nat 13) Py.nl +:+ "b")
  = ["a" +:+ String (ascii_of_nat 13) Py.nl; "b"].
Proof. reflexivity. Qed.

Example call_positional : Indent.call ["a"; ">"] [] = Ok ">a".
Proof. reflexivity. Qed.

Example call_keyword_p : Indent.call ["a"] [("p", ">")] = Ok ">a".
Proof. reflexivity. Qed.

(** ** Strings and paths *)
Section PathFacts.

#[local] Arguments String.append !_ _ / : simpl nomatch.
#[local] Arguments Ascii.eqb : simpl never.

Lemma append_nil_r (s : string) : s +:+ "" = s.
Proof. induction s as [|c s IH]; simpl; [reflexivity | now rewrite IH]. Qed.

Lemma append_assoc (a b c : string) : (a +:+ b) +:+ c = a +:+ (b +:+ c).
Proof. induction a as [|x a IH]; simpl; [reflexivity | now rewrite IH]. Qed.

Lemma starts_with_append (a b : string) : Py.starts_with a (a +:+ b) = true.
Proof.
  induction a as [|x a IH]; simpl; [reflexivity |].
  now rewrite Ascii.eqb_refl.
Qed.

Lemma starts_with_split (a t : string) :
  Py.starts_with a t = true -> exists q, t = a +:+ q.
Proof.
  revert t. induction a as [|x a IH]; intros t H.
  - now exists t.
  - destruct t as [|y t]; simpl in H; [discriminate H |].
    apply andb_prop in H as [Hxy H]. apply Ascii.eqb_eq in Hxy as ->.
    destruct (IH _ H) as [q ->]. now exists q.
Qed.

Lemma has_slash_append (a b : string) :
  Py.has_slash (a +:+ b) = Py.has_slash a || Py.has_slash b.
Proof.
  induction a as [|x a IH]; simpl; [reflexivity |].
  rewrite IH. now rewrite orb_assoc.
Qed.

Lemma ends_with_slash_has_slash (s : string) :
  Py.ends_with_slash s = true -> Py.has_slash s = true.
Proof.
  induction s as [|c s IH]; simpl; [discriminate |].
  destruct s as [|c' s'].
  - intros ->. reflexivity.
  - intros H. rewrite (IH H). apply orb_true_r.
Qed.

Lemma ends_with_slash_append (a : string) (c : ascii) (b : string) :
  Py.ends_with_slash (a +:+ String c b) = Py.ends_with_slash (String c b).
Proof.
  induction a as [|x a IH]; [reflexivity |].
  change (String x a +:+ String c b) with (String x (a +:+ String c b)).
  destruct a as [|y a']; simpl in *; exact IH.
Qed.

Lemma starts_with_slash_has_slash (s : string) :
  Py.starts_with "/" s = true -> Py.has_slash s = true.
Proof.
  destruct s as [|c s]; simpl; intros H; [discriminate H |].
  apply andb_prop in H as [H _]. apply Ascii.eqb_eq in H as <-. reflexivity.
Qed.

(** Joining a directory without a trailing slash and a relative name. *)
Lemma join_plain (a b : string) :
  a <> "" -> Py.ends_with_slash a = false -> Py.starts_with "/" b = false ->
  Py.join a b = a +:+ "/" +:+ b.
Proof.
  intros Ha Hs Hb. unfold Py.join. rewrite Hb, Hs.
  destruct a; [congruence | reflexivity].
Qed.

Lemma rstrip_slash_append (a b : string) :
  Py.rstrip_slash (a +:+ b)
  = match Py.rstrip_slash b with
    | "" => Py.rstrip_slash a
    | b' => a +:+ b'
    end.
Proof.
  induction a as [|x a IH]; simpl.
  - now destruct (Py.rstrip_slash b).
  - rewrite IH. destruct (Py.rstrip_slash b); [reflexivity |].
    now destruct a.
Qed.

Lemma rstrip_slash_id (s : string) :
  Py.ends_with_slash s = false -> Py.rstrip_slash s = s.
Proof.
  induction s as [|c s IH]; [reflexivity |].
  intros H. simpl.
  destruct s as [|c' s'].
  - simpl in *. now rewrite H.
  - rewrite IH by exact H. reflexivity.
Qed.

Lemma upto_last_slash_append (a q : string) :
  Py.upto_last_slash (a +:+ "/" +:+ q) = a +:+ "/" +:+ Py.upto_last_slash q.
Proof.
  induction a as [|x a IH].
  - reflexivity.
  - change (String x a +:+ "/" +:+ q) with (String x (a +:+ "/" +:+ q)).
    cbn [Py.upto_last_slash].
    replace (Py.has_slash (String x (a +:+ "/" +:+ q))) with true.
    + now rewrite IH.
    + symmetry. cbn [Py.has_slash]. rewrite has_slash_append.
      simpl. now rewrite !orb_true_r.
Qed.

Lemma upto_last_slash_no_slash (q : string) :
  Py.has_slash q = false -> Py.upto_last_slash q = "".
Proof. destruct q; simpl; [reflexivity | now intros ->]. Qed.

(** The directory of a name placed directly in [a] is [a]. *)
Lemma dirname_child (a q : string) :
  a <> "" -> Py.ends_with_slash a = false -> Py.has_slash q = false ->
  Py.dirname (a +:+ "/" +:+ q) = a.
Proof.
  intros Ha Hs Hq. unfold Py.dirname.
  rewrite upto_last_slash_append, (upto_last_slash_no_slash _ Hq).
  rewrite rstrip_slash_append. simpl.
  rewrite (rstrip_slash_id _ Hs). destruct a; [congruence | reflexivity].
Qed.

End PathFacts.

(** ** The cache root and the temporary directories *)
Section CacheRootFacts.

#[local] Arguments String.append !_ _ / : simpl nomatch.
#[local] Arguments Ascii.eqb : simpl never.

Variable home : string.

Lemma rand_char_not_slash (i : nat) : Ascii.eqb (Ext.rand_char i) Py.slash = false.
Proof.
  unfold Ext.rand_char.
  assert (H : List.Forall (fun c => Ascii.eqb c Py.slash = false) Ext.characters)
    by (unfold Ext.characters; simpl; repeat constructor).
  rewrite List.Forall_forall in H. apply H. apply List.nth_In.
  change (length Ext.characters) with 37%nat.
  apply Nat.mod_upper_bound. discriminate.
Qed.

Lemma temp_name_no_slash (d : list nat) : Py.has_slash (Ext.temp_name d) = false.
Proof.
  unfold Ext.temp_name. rewrite has_slash_append.
  change (Py.has_slash "tmp") with false. simpl.
  induction d as [|i d IH]; simpl; [reflexivity |].
  now rewrite rand_char_not_slash, IH.
Qed.

Lemma cache_root_shape :
  exists a, custom_cache_root home = a +:+ ".custom_cache/gdown".
Proof.
  unfold custom_cache_root, Py.join.
  change (Py.starts_with "/" ".custom_cache/gdown") with false. cbv iota.
  destruct (String.eqb home "" || Py.ends_with_slash home).
  - now exists home.
  - exists (home +:+ "/"). now rewrite append_assoc.
Qed.

Lemma cache_root_not_empty : custom_cache_root home <> "".
Proof.
  destruct cache_root_shape as [a ->]. destruct a; simpl; discriminate.
Qed.

Lemma cache_root_no_trailing_slash :
  Py.ends_with_slash (custom_cache_root home) = false.
Proof.
  destruct cache_root_shape as [a ->].
  now rewrite ends_with_slash_append.
Qed.

(** A name without a slash is joined to the cache root by one slash. *)
Lemma join_cache_root (name : string) :
  Py.has_slash name = false ->
  Py.join (custom_cache_root home) name = custom_cache_root home +:+ "/" +:+ name.
Proof.
  intros Hn. apply join_plain.
  - apply cache_root_not_empty.
  - apply cache_root_no_trailing_slash.
  - destruct (Py.starts_with "/" name) eqn:E; [| reflexivity].
    apply starts_with_slash_has_slash in E. congruence.
Qed.


Lemma temp_root_no_trailing_slash (d : list nat) :
  Py.ends_with_slash (temp_root home d) = false.
Proof.
  unfold temp_root. rewrite join_cache_root by apply temp_name_no_slash.
  rewrite <- append_assoc. unfold Ext.temp_name.
  change ("tmp" +:+ ?s) with (String "t" ("mp" +:+ s)).
  rewrite ends_with_slash_append.
  destruct (Py.ends_with_slash _) eqn:E; [| reflexivity].
  apply ends_with_slash_has_slash in E.
  pose proof (temp_name_no_slash d) as H. unfold Ext.temp_name in H.
  change ("tmp" +:+ ?s) with (String "t" ("mp" +:+ s)) in H. congruence.
Qed.

Lemma temp_root_not_empty (d : list nat) : temp_root home d <> "".
Proof.
  unfold temp_root. rewrite join_cache_root by apply temp_name_no_slash.
  pose proof cache_root_not_empty.
  destruct (custom_cache_root home); [congruence | simpl; discriminate].
Qed.

Lemma temp_file_path (d : list nat) :
  Py.join (temp_root home d) "dl" = temp_root home d +:+ "/dl".
Proof.
  apply join_plain.
  - apply temp_root_not_empty.
  - apply temp_root_no_trailing_slash.
  - reflexivity.
Qed.

Lemma temp_file_under_root (d : list nat) :
  Os.at_or_under (temp_root home d) (temp_root home d +:+ "/dl") = true.
Proof.
  unfold Os.at_or_under. apply orb_true_iff. right.
  change "/dl" with ("/" +:+ "dl"). rewrite <- append_assoc.
  apply starts_with_append.
Qed.

End CacheRootFacts.

(** ** [dirname] and the hierarchy of paths *)
Section DirnameFacts.

#[local] Arguments String.append !_ _ / : simpl nomatch.
#[local] Arguments Ascii.eqb : simpl never.

Lemma rstrip_slash_shorter (h : string) :
  Py.ends_with_slash h = true ->
  (String.length (Py.rstrip_slash h) < String.length h)%nat.
Proof.
  induction h as [|c h IH]; [discriminate |].
  intros H.
  assert (Hh : h = "" \/ (h <> "" /\ Py.ends_with_slash h = true)).
  { destruct h; [now left | right; split; [discriminate | exact H]]. }
  destruct Hh as [-> | [Hne Hh]].
  - simpl in *. rewrite H. simpl. lia.
  - specialize (IH Hh). simpl.
    destruct (Py.rstrip_slash h); [destruct (Ascii.eqb c Py.slash) |];
      destruct h; try congruence; simpl in *; lia.
Qed.

Lemma rstrip_slash_empty (h : string) :
  Py.rstrip_slash h = "" -> Py.all_slashes h = true.
Proof.
  induction h as [|c h IH]; [reflexivity |]. simpl.
  destruct (Py.rstrip_slash h); [| discriminate].
  destruct (Ascii.eqb c Py.slash); [| discriminate].
  intros _. now rewrite IH.
Qed.

Lemma upto_last_slash_length (t : string) :
  (String.length (Py.upto_last_slash t) <= String.length t)%nat.
Proof.
  induction t as [|c t IH]; simpl; [lia |].
  destruct (Ascii.eqb c Py.slash || Py.has_slash t); simpl; lia.
Qed.

Lemma upto_last_slash_empty (t : string) :
  Py.upto_last_slash t = "" -> Py.has_slash t = false.
Proof.
  destruct t as [|c t]; [reflexivity |]. simpl.
  destruct (Ascii.eqb c Py.slash || Py.has_slash t); [discriminate | reflexivity].
Qed.

Lemma upto_last_slash_ends (t : string) :
  Py.upto_last_slash t = "" \/ Py.ends_with_slash (Py.upto_last_slash t) = true.
Proof.
  induction t as [|c t IH]; [now left |].
  cbn [Py.upto_last_slash].
  destruct (Py.has_slash (String c t)) eqn:E; [right | now left].
  destruct IH as [IH | IH].
  - rewrite IH. apply upto_last_slash_empty in IH.
    simpl in E. rewrite IH, orb_false_r in E. simpl. exact E.
  - destruct (Py.upto_last_slash t); [discriminate IH | exact IH].
Qed.

(** Only the empty path and the root directory are their own directory. *)
Lemma dirname_fixed (t : string) :
  Py.dirname t = t -> t = "" \/ Py.all_slashes t = true.
Proof.
  unfold Py.dirname. intros H.
  destruct (Py.rstrip_slash (Py.upto_last_slash t)) as [|c h'] eqn:E.
  - right. rewrite <- H. now apply rstrip_slash_empty.
  - exfalso.
    destruct (upto_last_slash_ends t) as [U | U].
    + rewrite U in E. discriminate E.
    + apply rstrip_slash_shorter in U. rewrite E, H in U.
      pose proof (upto_last_slash_length t). lia.
Qed.

Lemma match_nonempty (s d : string) :
  s <> "" -> match s with "" => d | String a s' => String a s' end = s.
Proof. destruct s; [congruence | reflexivity]. Qed.

(** The directory of a path below [r] is [r] or below [r]. *)
Lemma dirname_under (r t : string) :
  r <> "" -> Py.ends_with_slash r = false ->
  Py.starts_with (r +:+ "/") t = true ->
  Os.at_or_under r (Py.dirname t) = true.
Proof.
  intros Hr Hs H. apply starts_with_split in H as [q ->].
  rewrite append_assoc. unfold Py.dirname.
  rewrite upto_last_slash_append, rstrip_slash_append.
  change ("/" +:+ ?u) with (String "/" u). cbn [Py.rstrip_slash].
  unfold Os.at_or_under.
  destruct (Py.rstrip_slash (Py.upto_last_slash q)) as [|c u].
  - change (Ascii.eqb "/" Py.slash) with true. cbv iota.
    rewrite (rstrip_slash_id _ Hs).
    destruct r; [congruence |]. now rewrite String.eqb_refl.
  - cbv iota. apply orb_true_iff. right.
    rewrite match_nonempty by (destruct r; [congruence | discriminate]).
    change (String "/" (String c u)) with ("/" +:+ String c u).
    rewrite <- append_assoc. apply starts_with_append.
Qed.

Lemma all_slashes_starts_with (a d : string) :
  Py.starts_with a d = true -> Py.all_slashes d = true -> Py.all_slashes a = true.
Proof.
  revert d. induction a as [|x a IH]; intros d H Hd; [reflexivity |].
  destruct d as [|y d]; simpl in *; [discriminate H |].
  apply andb_prop in H as [Hxy H]. apply andb_prop in Hd as [Hy Hd].
  apply Ascii.eqb_eq in Hxy as ->. rewrite Hy. simpl. eauto.
Qed.

Lemma all_slashes_ends (a : string) :
  a <> "" -> Py.all_slashes a = true -> Py.ends_with_slash a = true.
Proof.
  induction a as [|x a IH]; [congruence |]. intros _ H.
  simpl in H. apply andb_prop in H as [Hx H].
  destruct a as [|y a]; [exact Hx |].
  apply IH; [discriminate | exact H].
Qed.

Lemma all_slashes_append (a b : string) :
  Py.all_slashes (a +:+ b) = Py.all_slashes a && Py.all_slashes b.
Proof.
  induction a as [|x a IH]; simpl; [reflexivity |].
  now rewrite IH, andb_assoc.
Qed.

(** The root directory is not below a directory that has a name. *)
Lemma all_slashes_not_under (r d : string) :
  r <> "" -> Py.ends_with_slash r = false ->
  Py.all_slashes d = true -> Os.at_or_under r d = false.
Proof.
  intros Hr Hs Hd. unfold Os.at_or_under. apply orb_false_iff. split.
  - apply String.eqb_neq. intros ->.
    rewrite (all_slashes_ends r Hr Hd) in Hs. discriminate Hs.
  - destruct (Py.starts_with (r +:+ "/") d) eqn:E; [| reflexivity].
    apply all_slashes_starts_with in E; [| exact Hd].
    rewrite all_slashes_append in E. apply andb_prop in E as [E _].
    rewrite (all_slashes_ends r Hr E) in Hs. discriminate Hs.
Qed.

End DirnameFacts.

(** ** Digest and verification *)
Section ChecksumFacts.

Lemma read_blocks_nil (fuel : nat) (n : Z) : read_blocks fuel n [] = [].
Proof.
  destruct fuel; simpl; [reflexivity |].
  destruct (n <? 0); [reflexivity | now rewrite take_nil].
Qed.

(** The blocks read with a size other than 0 make up the file. *)
Lemma read_blocks_concat (n : Z) (fuel : nat) :
  n <> 0 -> forall (data h : list byte),
  (length data <= fuel)%nat ->
  fold_left md5_update (read_blocks fuel n data) h = h ++ data.
Proof.
  intros Hn. induction fuel as [|fuel IH]; intros data h Hlen.
  - destruct data; simpl in *; [symmetry; apply app_nil_r | lia].
  - simpl. destruct (n <? 0) eqn:Hneg.
    + destruct data as [|b data]; [symmetry; apply app_nil_r |].
      cbn [fold_left]. rewrite drop_all, read_blocks_nil. reflexivity.
    + destruct (take (Z.to_nat n) data) as [|b block] eqn:Hblock.
      * simpl. destruct data as [|b data]; [symmetry; apply app_nil_r |].
        apply Z.ltb_ge in Hneg.
        destruct (Z.to_nat n) eqn:Hk; [lia | discriminate Hblock].
      * cbn [fold_left]. rewrite IH.
        -- unfold md5_update. rewrite <- app_assoc. f_equal.
           rewrite <- Hblock. rewrite length_take.
           destruct (Nat.le_ge_cases (Z.to_nat n) (length data)) as [Hle | Hge].
           ++ rewrite Nat.min_l by exact Hle. apply take_drop.
           ++ rewrite Nat.min_r by exact Hge.
              rewrite drop_all, take_ge by lia. apply app_nil_r.
        -- rewrite length_drop. simpl.
           destruct data; [rewrite take_nil in Hblock; discriminate Hblock |].
           simpl in *. lia.
Qed.

Lemma calculate_md5sum_file (p : string) (data : list byte)
    (block_size : option Z) (w : World) :
  Os.stat (fs w) p = Some (File data) -> block_size <> Some 0 ->
  calculate_md5sum p block_size w
  = (Ok (Md5.hexdigest data),
     mkWorld (fs w) (stdout w) (stderr w) (trace w ++ [EvOpen p])).
Proof.
  intros Hp Hb. unfold calculate_md5sum, Os.read_file, bind, emit, get_fs.
  simpl. rewrite Hp. unfold ret.
  rewrite read_blocks_concat; [reflexivity | | lia].
  destruct block_size as [n|]; [congruence | discriminate].
Qed.

Lemma calculate_md5sum_missing (p : string) (block_size : option Z) (w : World) :
  (forall data, Os.stat (fs w) p <> Some (File data)) ->
  exists msg,
    calculate_md5sum p block_size w
    = (Raise (OSError msg),
       mkWorld (fs w) (stdout w) (stderr w) (trace w ++ [EvOpen p])).
Proof.
  intros Hp. unfold calculate_md5sum, Os.read_file, bind, emit, get_fs.
  simpl. destruct (Os.stat (fs w) p) as [[data|]|]; [now destruct (Hp data) | |];
    eexists; reflexivity.
Qed.




Lemma validate_md5sum_bad_length (p : string) (expected : option string)
    (silent : bool) (block_size : option Z) (w : World) :
  (forall s, expected = Some s -> String.length s <> 32%nat) ->
  validate_md5sum p expected silent block_size w
  = (Raise (ValueError ("Expected MD5 must be 32 characters long: "
                        +:+ Py.fmt expected)), w).
Proof.
  intros H. unfold validate_md5sum.
  destruct expected as [s|]; [| reflexivity].
  specialize (H s eq_refl). apply Nat.eqb_neq in H. now rewrite H.
Qed.


Lemma validate_md5sum_file (p : string) (data : list byte) (expected : string)
    (silent : bool) (block_size : option Z) (w : World) :
  Os.stat (fs w) p = Some (File data) -> block_size <> Some 0 ->
  String.length expected = 32%nat ->
  validate_md5sum p (Some expected) silent block_size w
  = if decide (Md5.hexdigest data = expected)
    then (Ok true,
          mkWorld (fs w) (stdout w ++ calculated silent p) (stderr w)
            (trace w ++ [EvOpen p]))
    else (Raise (AssertionError
                   (mismatch_message (Md5.hexdigest data) (Some expected))),
          mkWorld (fs w) (stdout w ++ calculating silent p) (stderr w)
            (trace w ++ [EvOpen p])).
Proof.
  intros Hp Hb Hlen. unfold validate_md5sum. rewrite Hlen. cbn [Nat.eqb negb].
  unfold bind at 1.
  assert (Hcalc : forall w0, fs w0 = fs w ->
            calculate_md5sum p block_size w0
            = (Ok (Md5.hexdigest data),
               mkWorld (fs w0) (stdout w0) (stderr w0) (trace w0 ++ [EvOpen p]))).
  { intros w0 E. apply calculate_md5sum_file; [now rewrite E | exact Hb]. }
  destruct silent; cbn [negb when calculating calculated].
  - unfold ret at 1. unfold bind. rewrite Hcalc by reflexivity.
    rewrite app_nil_r.
    case_bool_decide as Hd; destruct (decide (Md5.hexdigest data = expected));
      try congruence; reflexivity.
  - unfold print at 1. unfold bind. rewrite Hcalc by reflexivity. simpl.
    case_bool_decide as Hd; destruct (decide (Md5.hexdigest data = expected));
      try congruence; [| reflexivity].
    unfold print, ret. simpl. now rewrite <- app_assoc.
Qed.

Lemma validate_md5sum_not_file (p : string) (expected : string)
    (silent : bool) (block_size : option Z) (w : World) :
  (forall data, Os.stat (fs w) p <> Some (File data)) ->
  String.length expected = 32%nat ->
  exists msg,
    validate_md5sum p (Some expected) silent block_size w
    = (Raise (OSError msg),
       mkWorld (fs w) (stdout w ++ calculating silent p) (stderr w)
         (trace w ++ [EvOpen p])).
Proof.
  intros Hp Hlen. unfold validate_md5sum. rewrite Hlen. cbn [Nat.eqb negb].
  unfold bind at 1.
  destruct silent; cbn [negb when calculating].
  - unfold ret at 1.
    destruct (calculate_md5sum_missing p block_size w Hp) as [msg E].
    exists msg. unfold bind. rewrite E. now rewrite app_nil_r.
  - unfold print at 1.
    destruct (calculate_md5sum_missing p block_size
                (mkWorld (fs w) (stdout w ++ ["Calculating MD5: " +:+ p])
                   (stderr w) (trace w)) Hp) as [msg E].
    exists msg. unfold bind. now rewrite E.
Qed.

End ChecksumFacts.

(** ** The checksum claims *)
Section ChecksumClaims.




(** C3, as the code has it: [validate_md5sum] raises [ValueError] and leaves
    the world as it was (no file opened, nothing printed) whenever the
    expected checksum is not a string of exactly 32 characters. *)
Theorem validate_md5sum_length_checked_first (p : string)
    (expected : option string) (silent : bool) (block_size : option Z)
    (w : World) :
  (forall s, expected = Some s -> String.length s <> 32%nat) ->
  validate_md5sum p expected silent block_size w
  = (Raise (ValueError ("Expected MD5 must be 32 characters long: "
                        +:+ Py.fmt expected)), w).
Proof.
  intros Hlen. unfold validate_md5sum.
  destruct expected as [s|]; [| reflexivity].
  destruct (Nat.eqb_spec (String.length s) 32) as [E | _]; [| reflexivity].
  now destruct (Hlen s eq_refl).
Qed.

(** [validate_md5sum(path, "abc")] raises before any file access. *)
Lemma validate_md5sum_abc :
  validate_md5sum "f" (Some "abc") false None world_abc
  = (Raise (ValueError "Expected MD5 must be 32 characters long: abc"),
     world_abc).
Proof.
  apply (validate_md5sum_length_checked_first "f" (Some "abc") false None world_abc).
  intros s [= <-]. simpl. lia.
Defined.

(** C3, as the spec words it, fails: a string of 32 characters that are
    not hexadecimal passes the check, the file is opened and read, and the
    call ends with the mismatch error, not with [ValueError]. *)
Lemma validate_md5sum_non_hex_reads_file :
  well_formed_md5 z32 = false /\
  validate_md5sum "f" (Some z32) true None world_empty_file
  = (Raise (AssertionError
              (mismatch_message "d41d8cd98f00b204e9800998ecf8427e" (Some z32))),
     mkWorld {[ "f" := File [] ]} [] [] [EvOpen "f"]).
Proof. split; [reflexivity | vm_compute; reflexivity]. Qed.

Lemma accepted_size_not_zero (block_size : option Z) :
  accepted_size block_size = true -> block_size <> Some 0.
Proof. intros H [= ->]. discriminate H. Qed.

(** C5: for a file with digest [D], [validate_md5sum(path, D)] returns
    [True], and for every other string [D'] of 32 characters it raises
    [AssertionError] with a message that carries [D] and [D']. The block
    size is the default, or one of those [file.read] accepts: -1 or a
    positive size up to the default. *)
Theorem validate_md5sum_integrity (p : string) (data : list byte)
    (silent : bool) (block_size : option Z) (w : World) :
  Os.stat (fs w) p = Some (File data) -> accepted_size block_size = true ->
  (validate_md5sum p (Some (Md5.hexdigest data)) silent block_size w).1
  = Ok true
  /\ forall D' : string,
       String.length D' = 32%nat -> D' <> Md5.hexdigest data ->
       (validate_md5sum p (Some D') silent block_size w).1
       = Raise (AssertionError
                  ("MD5 mismatch:" +:+ Py.nl
                   +:+ "Actual: " +:+ Md5.hexdigest data +:+ Py.nl
                   +:+ "Expected: " +:+ D')).
Proof.
  intros Hp Hb. apply accepted_size_not_zero in Hb. split.
  - rewrite (validate_md5sum_file p data) by auto using hexdigest_length.
    now destruct (decide _).
  - intros D' Hlen Hne.
    rewrite (validate_md5sum_file p data) by auto.
    destruct (decide _) as [E|_]; [now destruct Hne | reflexivity].
Qed.

Lemma validate_md5sum_integrity_abc :
  (validate_md5sum "f" (Some (Md5.hexdigest [x61; x62; x63])) false None
     world_abc).1 = Ok true
  /\ forall D' : string,
       String.length D' = 32%nat -> D' <> Md5.hexdigest [x61; x62; x63] ->
       (validate_md5sum "f" (Some D') false None world_abc).1
       = Raise (AssertionError
                  ("MD5 mismatch:" +:+ Py.nl
                   +:+ "Actual: " +:+ Md5.hexdigest [x61; x62; x63] +:+ Py.nl
                   +:+ "Expected: " +:+ D')).
Proof.
  apply (validate_md5sum_integrity "f" [x61; x62; x63] false None world_abc).
  - vm_compute. reflexivity.
  - reflexivity.
Defined.

End ChecksumClaims.

(** ** The name space under insertion and removal *)
Section FsFacts.

Implicit Types (m : gmap string node) (p q r : string).

Lemma free_lookup m r p :
  Os.free m r = true -> Os.at_or_under r p = true -> m !! p = None.
Proof.
  unfold Os.free. intros H Hp. apply bool_decide_eq_true in H.
  destruct (m !! p) as [x|] eqn:E; [| reflexivity].
  apply (map_Forall_lookup_1 _ _ _ _ H) in E. congruence.
Qed.

Lemma at_or_under_refl r : Os.at_or_under r r = true.
Proof. unfold Os.at_or_under. now rewrite String.eqb_refl. Qed.

Lemma rmtree_insert_under m r p (x : node) :
  Os.at_or_under r p = true ->
  filter (fun kv : string * node => Os.at_or_under r kv.1 = false) (<[p:=x]> m)
  = filter (fun kv : string * node => Os.at_or_under r kv.1 = false) m.
Proof.
  intros Hp. apply map_filter_insert_not. intros y. simpl. congruence.
Qed.

Lemma rmtree_free m r :
  Os.free m r = true ->
  filter (fun kv : string * node => Os.at_or_under r kv.1 = false) m = m.
Proof.
  intros H. apply map_filter_id. intros p x E. simpl.
  unfold Os.free in H. apply bool_decide_eq_true in H.
  exact (map_Forall_lookup_1 _ _ _ _ H E).
Qed.

Lemma stat_insert_ne m p q (x : node) :
  p <> q -> Os.stat (<[q:=x]> m) p = Os.stat m p.
Proof. intros H. unfold Os.stat. now rewrite lookup_insert_ne. Qed.

Lemma stat_insert_eq m p (x : node) :
  p <> "" -> Py.all_slashes p = false -> Os.stat (<[p:=x]> m) p = Some x.
Proof.
  intros H1 H2. unfold Os.stat. rewrite H2.
  apply String.eqb_neq in H1. rewrite H1. apply lookup_insert_eq.
Qed.

Lemma stat_Some_inv m p (x : node) :
  Os.stat m p = Some x ->
  p <> "" /\ (Py.all_slashes p = true \/ m !! p = Some x).
Proof.
  unfold Os.stat. destruct (String.eqb_spec p ""); [discriminate |].
  destruct (Py.all_slashes p); auto.
Qed.

Lemma present_stat m p : Os.present m p = true <-> exists x, Os.stat m p = Some x.
Proof.
  unfold Os.present. destruct (Os.stat m p); split; eauto; try discriminate.
  intros [x H]. discriminate H.
Qed.

End FsFacts.

(** ** The download and publish block *)
Section PublishFacts.

Variable home : string.
Variable env : Env.
Variables (url target : string) (silent : bool).

Abbreviation root := (custom_cache_root home).
Abbreviation lock_path := (Py.join (custom_cache_root home) "_dl_lock").
Abbreviation after_makedirs := (Block.after_makedirs target).
Abbreviation progress := (Block.progress target silent).
Abbreviation find_temp := (Block.find_temp home env).
Abbreviation temp_world := (Block.temp_world url target silent).
Abbreviation failure_source := (Block.failure_source env url).
Abbreviation publish_outcome := (Block.publish_outcome home env url target silent).
Abbreviation po_no_temp := (Block.po_no_temp home env url target silent).
Abbreviation po_published := (Block.po_published home env url target silent).
Abbreviation po_cleaned := (Block.po_cleaned home env url target silent).
Abbreviation po_interrupted := (Block.po_interrupted home env url target silent).
Abbreviation po_overwritten := (Block.po_overwritten home env url target silent).



Lemma makedirs_pass (w : World) :
  try_except (Os.makedirs (Py.dirname target)) pass_OSError w
  = (Ok tt, after_makedirs w).
Proof.
  unfold try_except, Os.makedirs, after_makedirs, bind, get_fs.
  destruct (String.eqb (Py.dirname target) ""); [reflexivity |].
  destruct (Os.present (fs w) (Py.dirname target)); reflexivity.
Qed.

Lemma find_temp_free (w1 : World) (d : list nat) :
  find_temp w1 = Some d -> Os.free (fs w1) (temp_root home d) = true.
Proof. intros H. apply List.find_some in H as [_ H]. exact H. Qed.

Lemma mkdtemp_eq (w1 : World) :
  Ext.mkdtemp env root w1
  = if Os.is_dir (fs w1) root then
      match find_temp w1 with
      | Some d =>
          (Ok (temp_root home d),
           mkWorld (<[temp_root home d := Dir]> (fs w1)) (stdout w1) (stderr w1)
             (trace w1 ++ [EvMkdtemp (temp_root home d)]))
      | None => (Raise (OSError "No usable temporary directory name found"), w1)
      end
    else (Raise (OSError ("No such directory: " +:+ root)), w1).
Proof.
  unfold Ext.mkdtemp, bind, get_fs, find_temp.
  destruct (Os.is_dir (fs w1) root); [| reflexivity].
  destruct (List.find _ _); reflexivity.
Qed.




Lemma progress_step (m : gmap string node) (so se : list string)
    (tr : list event) :
  when (negb silent)
    (print_err
       (if Py.truthy (Some target)
        then "Cached Download in progress: " +:+ target
        else "Cached Download in progress..."))
    (mkWorld m so se tr)
  = (Ok tt, mkWorld m so (se ++ progress) tr).
Proof.
  unfold Block.progress. destruct silent; simpl; [| reflexivity].
  unfold ret. now rewrite app_nil_r.
Qed.

Section Temp.

Variable d : list nat.

Abbreviation r := (temp_root home d).
Abbreviation tf := (temp_root home d +:+ "/dl").

Lemma temp_root_not_slashes : Py.all_slashes r = false.
Proof.
  destruct (Py.all_slashes r) eqn:E; [| reflexivity].
  apply all_slashes_ends in E; [| apply temp_root_not_empty].
  now rewrite temp_root_no_trailing_slash in E.
Qed.

Lemma temp_file_not_root : tf <> r.
Proof.
  intros E. rewrite <- (append_nil_r r) in E at 2.
  apply (inj (String.app r)) in E. discriminate E.
Qed.

Lemma temp_file_not_empty : tf <> "".
Proof.
  pose proof (temp_root_not_empty home d). destruct r; [congruence | discriminate].
Qed.

Lemma temp_file_not_slashes : Py.all_slashes tf = false.
Proof. now rewrite all_slashes_append, temp_root_not_slashes. Qed.

Lemma temp_stat_root (m : gmap string node) :
  m !! r = Some Dir -> Os.stat m r = Some Dir.
Proof.
  intros H. unfold Os.stat. rewrite temp_root_not_slashes.
  pose proof (temp_root_not_empty home d) as Hn.
  apply String.eqb_neq in Hn. now rewrite Hn.
Qed.

Lemma temp_stat_file (m : gmap string node) : Os.stat m tf = m !! tf.
Proof.
  unfold Os.stat. rewrite temp_file_not_slashes.
  pose proof temp_file_not_empty as Hn.
  apply String.eqb_neq in Hn. now rewrite Hn.
Qed.

(** Removing the temporary directory gives back the file system in which
    it was created, whether the download wrote its file or not. *)
Lemma cleanup (m1 m : gmap string node) (so se : list string)
    (tr : list event) (e : exn) :
  Os.free m1 r = true ->
  m = <[r := Dir]> m1 \/ (exists x, m = <[tf := File x]> (<[r := Dir]> m1)) ->
  (Os.rmtree r ;; (raise e : M unit)) (mkWorld m so se tr)
  = (Raise e, mkWorld m1 so se (tr ++ [EvRmtree r])).
Proof.
  intros Hfree Hm. unfold Os.rmtree, bind, get_fs, Os.is_dir. cbn [fs].
  assert (Hdir : m !! r = Some Dir).
  { destruct Hm as [-> | [x ->]].
    - apply lookup_insert_eq.
    - rewrite lookup_insert_ne by apply temp_file_not_root.
      apply lookup_insert_eq. }
  rewrite (temp_stat_root _ Hdir). unfold set_fs, emit, raise. cbn.
  do 3 f_equal.
  destruct Hm as [-> | [x ->]].
  - rewrite rmtree_insert_under by apply at_or_under_refl.
    now apply rmtree_free.
  - rewrite rmtree_insert_under by apply temp_file_under_root.
    rewrite rmtree_insert_under by apply at_or_under_refl.
    now apply rmtree_free.
Qed.

End Temp.

(** The [except Exception] clause of lines 119-121 on a failure [e] of the
    block. *)
Lemma handler_outcome (w : World) (d : list nat) (e : exn)
    (m : gmap string node) (tr evs : list event) (res : Result unit)
    (w' : World) :
  let w1 := after_makedirs w in
  let r := temp_root home d in
  find_temp w1 = Some d ->
  m = <[r := Dir]> (fs w1)
  \/ (exists x, m = <[r +:+ "/dl" := File x]> (<[r := Dir]> (fs w1))) ->
  failure_source e ->
  evs = [] \/ evs = [EvLock lock_path] ->
  tr = trace w1 ++ [EvMkdtemp r; EvFetch url (r +:+ "/dl")] ++ evs ->
  match (if is_Exception e
         then Some (Os.rmtree r ;; (raise e : M unit)) else None) with
  | Some k => k (mkWorld m (stdout w1) (stderr w1 ++ progress) tr)
  | None => (Raise e, mkWorld m (stdout w1) (stderr w1 ++ progress) tr)
  end = (res, w') ->
  publish_outcome w res w'.
Proof.
  intros w1 r Hfind Hm Hsrc Hevs ->.
  pose proof (find_temp_free _ _ Hfind) as Hfree.
  destruct (is_Exception e) eqn:He.
  - rewrite (cleanup d (fs w1)) by assumption.
    intros [= <- <-]. rewrite <- !app_assoc.
    now apply (po_cleaned w d e evs).
  - intros [= <- <-]. apply (po_interrupted w d e m evs); auto.
    destruct Hm as [-> | [x ->]].
    + apply lookup_insert_eq.
    + rewrite lookup_insert_ne by apply temp_file_not_root.
      apply lookup_insert_eq.
Qed.

Lemma download_and_publish_outcome (w : World) (res : Result unit) (w' : World) :
  download_and_publish home env url target silent w = (res, w') ->
  publish_outcome w res w'.
Proof.
  unfold download_and_publish. unfold bind at 1. rewrite makedirs_pass.
  unfold bind at 1. rewrite mkdtemp_eq.
  destruct (Os.is_dir (fs (after_makedirs w)) root) eqn:Hroot.
  2:{ intros [= <- <-]. constructor. now left. }
  destruct (find_temp (after_makedirs w)) as [d|] eqn:Hfind.
  2:{ intros [= <- <-]. constructor. now right. }
  pose proof (find_temp_free _ _ Hfind) as Hfree.
  rewrite temp_file_path.
  unfold try_except. unfold bind at 1. rewrite progress_step.
  unfold bind at 1. unfold Ext.custom_download. unfold bind at 1.
  unfold emit at 1. cbn [fs stdout stderr trace].
  destruct (remote env url) as [[new|]|e [part|]] eqn:Hremote.
  4:{ unfold raise at 1.
      apply (handler_outcome w d e _ _ []); auto.
      - left. now exists None.
      - now rewrite <- app_assoc. }
  3:{ unfold bind at 1, set_fs at 1, raise at 1. cbn [fs stdout stderr trace].
      apply (handler_outcome w d e _ _ []); eauto.
      - left. now exists (Some part).
      - now rewrite <- app_assoc. }
  2:{ unfold ret at 1. unfold Ext.with_lock.
      destruct (lock_failure env) as [e|] eqn:Hlock.
      - unfold raise at 1.
        apply (handler_outcome w d e _ _ []); auto.
        + right. now left.
        + now rewrite <- app_assoc.
      - unfold bind at 1, emit at 1. cbn [fs stdout stderr trace].
        unfold Ext.move, bind at 1, get_fs at 1. cbn [fs].
        rewrite (temp_stat_file d).
        rewrite lookup_insert_ne by (symmetry; apply temp_file_not_root).
        rewrite (free_lookup _ _ _ Hfree (temp_file_under_root home d)).
        destruct (move_failure env) as [[e [part|]]|] eqn:Hmove.
        + unfold raise at 1.
          apply (handler_outcome w d _ _ _ [EvLock lock_path]); auto.
          * right. right. right. eauto.
          * now rewrite <- !app_assoc.
        + unfold raise at 1.
          apply (handler_outcome w d e _ _ [EvLock lock_path]); auto.
          * right. right. left. now exists None.
          * now rewrite <- !app_assoc.
        + unfold raise at 1.
          apply (handler_outcome w d _ _ _ [EvLock lock_path]); auto.
          * right. right. right. eauto.
          * now rewrite <- !app_assoc. }
  unfold set_fs at 1. cbn [fs stdout stderr trace].
  unfold Ext.with_lock.
  destruct (lock_failure env) as [e|] eqn:Hlock.
  { unfold raise at 1.
    apply (handler_outcome w d e _ _ []); eauto.
    - right. now left.
    - now rewrite <- app_assoc. }
  unfold bind at 1, emit at 1. cbn [fs stdout stderr trace].
  unfold Ext.move, bind at 1, get_fs at 1. cbn [fs].
  rewrite (temp_stat_file d), lookup_insert_eq.
  set (m3 := <[temp_root home d +:+ "/dl" := File new]> _).
  set (real := if Os.is_dir m3 target then _ else target).
  assert (Hown : forall (msg : string) (res0 : Result unit) (w0 : World),
            match (if is_Exception (OSError msg)
                   then Some (Os.rmtree (temp_root home d) ;;
                              (raise (OSError msg) : M unit))
                   else None) with
            | Some k =>
                k (mkWorld m3 (stdout (after_makedirs w))
                     (stderr (after_makedirs w) ++ progress)
                     (((trace (after_makedirs w)
                        ++ [EvMkdtemp (temp_root home d)])
                       ++ [EvFetch url (temp_root home d +:+ "/dl")])
                      ++ [EvLock lock_path]))
            | None =>
                (Raise (OSError msg),
                 mkWorld m3 (stdout (after_makedirs w))
                   (stderr (after_makedirs w) ++ progress)
                   (((trace (after_makedirs w)
                      ++ [EvMkdtemp (temp_root home d)])
                     ++ [EvFetch url (temp_root home d +:+ "/dl")])
                    ++ [EvLock lock_path]))
            end = (res0, w0) ->
            publish_outcome w res0 w0).
  { intros msg res0 w0.
    apply (handler_outcome w d _ _ _ [EvLock lock_path]); eauto.
    - right. right. right. eauto.
    - now rewrite <- !app_assoc. }
  destruct (move_failure env) as [[e [part|]]|] eqn:Hmove.
  2:{ unfold raise at 1.
      apply (handler_outcome w d e _ _ [EvLock lock_path]); eauto.
      - right. right. left. now exists None.
      - now rewrite <- !app_assoc. }
  - destruct (Os.is_dir m3 target && Os.present m3 real) eqn:Hinto;
      [unfold raise at 1; apply Hown |].
    destruct (String.eqb_spec real "") as [Hreal0|Hreal0];
      [unfold raise at 1; apply Hown |].
    destruct (String.eqb (Py.dirname real) ""
              || Os.is_dir m3 (Py.dirname real)) eqn:Hparent;
      [| unfold raise at 1; apply Hown].
    assert (Hm3r : m3 !! temp_root home d = Some Dir).
    { unfold m3. rewrite lookup_insert_ne by apply temp_file_not_root.
      apply lookup_insert_eq. }
    assert (Hreal : real <> temp_root home d).
    { intros E.
      assert (Hp : Os.present m3 real = true).
      { rewrite E. unfold Os.present. now rewrite (temp_stat_root d). }
      rewrite Hp, andb_true_r in Hinto.
      unfold real in E. rewrite Hinto in E.
      unfold Os.is_dir in Hinto. rewrite E in Hinto.
      rewrite (temp_stat_root d) in Hinto by exact Hm3r.
      discriminate Hinto. }
    unfold bind at 1, set_fs at 1, raise at 1. cbn [fs stdout stderr trace].
    destruct (is_Exception e) eqn:He.
    + unfold Os.rmtree, bind, get_fs, Os.is_dir. cbn [fs].
      rewrite (temp_stat_root d)
        by (now rewrite lookup_insert_ne by exact Hreal).
      unfold set_fs, emit, raise. cbn [fs stdout stderr trace].
      intros [= <- <-]. rewrite <- !app_assoc.
      now apply (po_overwritten w d e new part real).
    + intros [= <- <-]. rewrite <- !app_assoc.
      apply (po_interrupted w d e _ [EvLock lock_path]); auto.
      now rewrite lookup_insert_ne by exact Hreal.
  - destruct (Os.is_dir m3 target && Os.present m3 real) eqn:Hinto;
      [unfold raise at 1; apply Hown |].
    destruct (String.eqb_spec real "") as [Hreal|Hreal];
      [unfold raise at 1; apply Hown |].
    destruct (String.eqb (Py.dirname real) ""
              || Os.is_dir m3 (Py.dirname real)) eqn:Hparent;
      [| unfold raise at 1; apply Hown].
    unfold bind, set_fs, emit. cbn [fs stdout stderr trace].
    intros [= <- <-].
    assert (Hdel : delete (temp_root home d +:+ "/dl") m3
                   = <[temp_root home d := Dir]> (fs (after_makedirs w))).
    { unfold m3. apply delete_insert_id.
      rewrite lookup_insert_ne by (symmetry; apply temp_file_not_root).
      apply (free_lookup _ _ _ Hfree (temp_file_under_root home d)). }
    rewrite Hdel, <- !app_assoc.
    now apply (po_published w d new real).
Qed.


End PublishFacts.
(** ** The whole call *)
Section CallFacts.

Variable home : string.


Lemma check_existing_hit (target : string) (md5 : option string)
    (silent : bool) (w : World) :
  Py.truthy md5 = false -> Os.present (fs w) target = true ->
  check_existing target md5 silent w
  = (Ok true,
     mkWorld (fs w) (stdout w ++ hit_message silent target) (stderr w) (trace w)).
Proof.
  intros Hmd5 Hp. unfold check_existing, bind, Os.path_exists.
  rewrite Hp, Hmd5. cbn [andb negb]. unfold hit_message.
  destruct w as [m so se tr].
  destruct silent; cbn; [| reflexivity].
  unfold ret. now rewrite app_nil_r.
Qed.

Lemma check_existing_absent (target : string) (md5 : option string)
    (silent : bool) (w : World) :
  Os.present (fs w) target = false ->
  check_existing target md5 silent w = (Ok false, w).
Proof.
  intros Hp. unfold check_existing, bind, Os.path_exists. now rewrite Hp.
Qed.

(** An existing file and a checksum of 32 characters: the file is
    verified, and a mismatch is written to the standard error stream. *)
Lemma check_existing_verify (target : string) (expected : string)
    (old : list byte) (silent : bool) (w : World) :
  Os.stat (fs w) target = Some (File old) ->
  String.length expected = 32%nat ->
  check_existing target (Some expected) silent w
  = if decide (Md5.hexdigest old = expected)
    then (Ok true,
          mkWorld (fs w) (stdout w ++ calculated silent target) (stderr w)
            (trace w ++ [EvOpen target]))
    else (Ok false,
          mkWorld (fs w) (stdout w ++ calculating silent target)
            (stderr w ++ [mismatch_message (Md5.hexdigest old) (Some expected)])
            (trace w ++ [EvOpen target])).
Proof.
  intros Hs Hlen. unfold check_existing, bind at 1, Os.path_exists.
  assert (Hp : Os.present (fs w) target = true)
    by (apply present_stat; eauto).
  assert (Ht : Py.truthy (Some expected) = true)
    by (destruct expected; [discriminate Hlen | reflexivity]).
  rewrite Hp, Ht. cbn [andb negb].
  unfold try_except, bind.
  rewrite (validate_md5sum_file target old) by (auto; discriminate).
  destruct (decide (Md5.hexdigest old = expected)); reflexivity.
Qed.

Lemma check_existing_bad_length (target : string) (expected : string)
    (silent : bool) (w : World) :
  Os.present (fs w) target = true ->
  Py.truthy (Some expected) = true ->
  String.length expected <> 32%nat ->
  check_existing target (Some expected) silent w
  = (Raise (ValueError ("Expected MD5 must be 32 characters long: "
                        +:+ expected)), w).
Proof.
  intros Hp Ht Hlen. unfold check_existing, bind at 1, Os.path_exists.
  rewrite Hp, Ht. cbn [andb negb]. unfold try_except, bind.
  rewrite validate_md5sum_bad_length; [reflexivity |].
  now intros s [= <-].
Qed.

Lemma check_existing_not_file (target : string) (expected : string)
    (silent : bool) (w : World) :
  Os.stat (fs w) target = Some Dir ->
  String.length expected = 32%nat ->
  exists msg,
    check_existing target (Some expected) silent w
    = (Raise (OSError msg),
       mkWorld (fs w) (stdout w ++ calculating silent target) (stderr w)
         (trace w ++ [EvOpen target])).
Proof.
  intros Hs Hlen. unfold check_existing, bind at 1, Os.path_exists.
  assert (Hp : Os.present (fs w) target = true)
    by (apply present_stat; eauto).
  assert (Ht : Py.truthy (Some expected) = true)
    by (destruct expected; [discriminate Hlen | reflexivity]).
  rewrite Hp, Ht. cbn [andb negb]. unfold try_except, bind.
  destruct (validate_md5sum_not_file target expected silent None w) as [msg E];
    [intros data; congruence | exact Hlen |].
  exists msg. now rewrite E.
Qed.


Lemma check_existing_outcome (target : string) (md5 : option string)
    (silent : bool) (w : World) (res : Result bool) (wc : World) :
  check_existing target md5 silent w = (res, wc) ->
  check_outcome target md5 silent w res wc.
Proof.
  destruct (Os.present (fs w) target) eqn:Hp.
  2:{ rewrite check_existing_absent by exact Hp.
      intros [= <- <-]. now constructor. }
  destruct (Py.truthy md5) eqn:Ht.
  2:{ rewrite check_existing_hit by assumption.
      intros [= <- <-]. now constructor. }
  destruct md5 as [expected|]; [| discriminate Ht].
  destruct (Nat.eq_dec (String.length expected) 32%nat) as [Hlen | Hlen].
  2:{ rewrite check_existing_bad_length by assumption.
      intros [= <- <-]. now apply (co_bad_length _ _ _ _ expected). }
  apply present_stat in Hp as [[old|] Hs].
  - rewrite (check_existing_verify _ _ old) by assumption.
    destruct (decide (Md5.hexdigest old = expected)); intros [= <- <-].
    + now apply (co_match _ _ _ _ expected old).
    + now apply (co_mismatch _ _ _ _ expected old).
  - destruct (check_existing_not_file target expected silent w Hs Hlen)
      as [msg ->].
    intros [= <- <-]. now apply (co_not_file _ _ _ _ expected msg).
Qed.



Lemma verify_and_postprocess_eq (target : string) (md5 : option string)
    (silent : bool) (pp : option callback) (w : World) :
  verify_and_postprocess target md5 silent pp w
  = match verify_fresh target md5 silent w with
    | (Raise e, wv) => (Raise e, wv)
    | (Ok _, wv) =>
        match postprocess_step target pp wv with
        | (Raise e, w3) => (Raise e, w3)
        | (Ok _, w3) => (Ok target, w3)
        end
    end.
Proof.
  unfold verify_and_postprocess, verify_fresh, postprocess_step, bind.
  destruct (when _ _ w) as [[[]|e] wv]; [| reflexivity].
  destruct pp as [f|]; [| reflexivity].
  destruct (run_callback f target wv) as [[[]|e] w3]; reflexivity.
Qed.


Lemma verify_fresh_outcome (target : string) (md5 : option string)
    (silent : bool) (w : World) (res : Result unit) (wv : World) :
  verify_fresh target md5 silent w = (res, wv) ->
  verify_outcome target md5 silent w res wv.
Proof.
  unfold verify_fresh.
  destruct (Py.truthy md5) eqn:Ht; cbn [when].
  2:{ intros [= <- <-]. now constructor. }
  destruct md5 as [expected|]; [| discriminate Ht].
  unfold bind.
  destruct (Nat.eq_dec (String.length expected) 32%nat) as [Hlen | Hlen].
  2:{ rewrite validate_md5sum_bad_length by (now intros s [= <-]).
      intros [= <- <-]. now apply (vo_bad_length _ _ _ _ expected). }
  destruct (Os.stat (fs w) target) as [[new|]|] eqn:Hs.
  - rewrite (validate_md5sum_file target new) by (auto; discriminate).
    destruct (decide (Md5.hexdigest new = expected)); intros [= <- <-].
    + now apply (vo_match _ _ _ _ expected new).
    + now apply (vo_mismatch _ _ _ _ expected new).
  - destruct (validate_md5sum_not_file target expected silent None w)
      as [msg ->]; [intros data; congruence | exact Hlen |].
    intros [= <- <-]. apply (vo_not_file _ _ _ _ expected msg); auto.
    intros data; congruence.
  - destruct (validate_md5sum_not_file target expected silent None w)
      as [msg ->]; [intros data; congruence | exact Hlen |].
    intros [= <- <-]. apply (vo_not_file _ _ _ _ expected msg); auto.
    intros data; congruence.
Qed.

(** The three ways a call ends: in the check of the existing file, in the
    download block, or after it. *)
Lemma cached_custom_download_cases (env : Env) (url : string)
    (fp md5 : option string) (silent : bool) (pp : option callback)
    (w : World) (res : Result string) (w' : World) :
  let target := target_path home url fp in
  cached_custom_download home env url fp md5 silent pp w = (res, w') ->
  (check_existing target md5 silent w = (Ok true, w') /\ res = Ok target)
  \/ (exists e, check_existing target md5 silent w = (Raise e, w')
                /\ res = Raise e)
  \/ (exists wc,
        check_existing target md5 silent w = (Ok false, wc)
        /\ ((exists e, download_and_publish home env url target silent wc
                        = (Raise e, w') /\ res = Raise e)
            \/ (exists w2, download_and_publish home env url target silent wc
                           = (Ok tt, w2)
                           /\ verify_and_postprocess target md5 silent pp w2
                              = (res, w')))).
Proof.
  intros target. unfold cached_custom_download. fold target. unfold bind at 1.
  destruct (check_existing target md5 silent w) as [[[|]|e] wc].
  - intros [= <- <-]. now left.
  - intros H. right. right. exists wc. split; [reflexivity |].
    unfold bind in H.
    destruct (download_and_publish home env url target silent wc)
      as [[[]|e] w2].
    + right. now exists w2.
    + left. exists e. now inversion H.
  - intros [= <- <-]. right. left. now exists e.
Qed.

End CallFacts.

(** ** The outcomes of the block, one by one *)
Section PublishInversion.

Variable home : string.
Variable env : Env.
Variables (url target : string) (silent : bool).

Abbreviation lock_path := (Py.join (custom_cache_root home) "_dl_lock").
Abbreviation published := (Block.published home env url target silent).
Abbreviation cleaned := (Block.cleaned home env url target silent).
Abbreviation interrupted := (Block.interrupted home env url target silent).
Abbreviation overwritten := (Block.overwritten home env url target silent).

Lemma download_and_publish_ok (w w2 : World) :
  download_and_publish home env url target silent w = (Ok tt, w2) ->
  exists d new real, published w w2 d new real.
Proof.
  intros H. apply download_and_publish_outcome in H.
  inversion H as [ | d new real w1 r m3 Hfind Hremote Hreal Hinto Hne | | | ].
  exists d, new, real. repeat split; assumption.
Qed.

Lemma download_and_publish_raise (w w2 : World) (e : exn) :
  download_and_publish home env url target silent w = (Raise e, w2) ->
  (w2 = Block.after_makedirs target w /\ (exists msg, e = OSError msg)
   /\ (Os.is_dir (fs (Block.after_makedirs target w))
         (custom_cache_root home) = false
       \/ Block.find_temp home env (Block.after_makedirs target w) = None))
  \/ (exists d evs, cleaned w w2 e d evs)
  \/ (exists d m evs, interrupted w w2 e d m evs)
  \/ (exists d new part real, overwritten w w2 e d new part real).
Proof.
  intros H. apply download_and_publish_outcome in H.
  inversion H as [ msg Hno | | d e' evs w1 r Hfind He Hsrc Hevs
                 | d e' m evs w1 r Hfind He Hm Hevs
                 | d e' new part real w1 r m3 Hfind He Hremote Hlock Hmove
                     Hreal ]; subst.
  - left. eauto.
  - right. left. exists d, evs. repeat split; assumption.
  - right. right. left. exists d, m, evs. repeat split; assumption.
  - right. right. right. eexists d, new, part, _.
    repeat split; first [eassumption | reflexivity].
Qed.

End PublishInversion.

Export Block.

(** ** Cache hits and repeated calls *)
Section CacheHitClaims.

Variable home : string.

Lemma new_events_app (w w' : World) (evs : list event) :
  trace w' = trace w ++ evs -> new_events w w' = evs.
Proof. intros H. unfold new_events. rewrite H. apply drop_app_length. Qed.

Lemma new_events_same (w w' : World) :
  trace w' = trace w -> new_events w w' = [].
Proof.
  intros H. apply new_events_app. now rewrite app_nil_r.
Qed.


Lemma after_makedirs_trace (target : string) (w : World) :
  trace (after_makedirs target w) = trace w ++ makedirs_events target w.
Proof.
  unfold after_makedirs, makedirs_events.
  destruct (_ || _); [now rewrite app_nil_r | reflexivity].
Qed.

Lemma after_makedirs_stdout (target : string) (w : World) :
  stdout (after_makedirs target w) = stdout w.
Proof. unfold after_makedirs. now destruct (_ || _). Qed.

Lemma after_makedirs_stderr (target : string) (w : World) :
  stderr (after_makedirs target w) = stderr w.
Proof. unfold after_makedirs. now destruct (_ || _). Qed.

(** A checksum of 32 characters counts as given. *)
Lemma truthy_length (e : string) :
  String.length e = 32%nat -> Py.truthy (Some e) = true.
Proof. destruct e; [discriminate | reflexivity]. Qed.

Ltac falsy_contra :=
  match goal with
  | Hl : String.length ?e = 32%nat, Ht : Py.truthy (Some ?e) = false |- _ =>
      rewrite (truthy_length e Hl) in Ht; discriminate Ht
  end.

(** A call without checksum on an existing target: the path is returned,
    only line 88 prints, and nothing else changes. *)
Lemma cached_hit (env : Env) (url : string) (fp md5 : option string)
    (silent : bool) (pp : option callback) (w : World) :
  Py.truthy md5 = false ->
  Os.present (fs w) (target_path home url fp) = true ->
  cached_custom_download home env url fp md5 silent pp w
  = (Ok (target_path home url fp),
     mkWorld (fs w)
       (stdout w ++ hit_message silent (target_path home url fp))
       (stderr w) (trace w)).
Proof.
  intros Ht Hp. unfold cached_custom_download, bind.
  now rewrite check_existing_hit.
Qed.

(** After a publish the target exists. *)
Lemma published_present (m : gmap string node) (r tf target real : string)
    (new : list byte) :
  let m3 := <[tf := File new]> (<[r := Dir]> m) in
  real = (if Os.is_dir m3 target then Py.join target (Ext.basename tf)
          else target) ->
  real <> "" ->
  Os.present (<[real := File new]> (<[r := Dir]> m)) target = true.
Proof.
  intros m3 Hreal Hne. unfold Os.present, Os.stat.
  destruct (Os.is_dir m3 target) eqn:Hdir.
  - unfold Os.is_dir, Os.stat in Hdir.
    destruct (String.eqb target ""); [discriminate Hdir |].
    destruct (Py.all_slashes target); [reflexivity |].
    destruct (m3 !! target) as [[|]|] eqn:E; try discriminate Hdir.
    unfold m3 in E. apply lookup_insert_Some in E as [[_ E] | [_ E]];
      [discriminate E |].
    destruct (decide (real = target)) as [->|Hrt].
    + now rewrite lookup_insert_eq.
    + rewrite lookup_insert_ne by exact Hrt. now rewrite E.
  - subst real. apply String.eqb_neq in Hne. rewrite Hne.
    destruct (Py.all_slashes target); [reflexivity |].
    now rewrite lookup_insert_eq.
Qed.


(** C1: with no checksum, a call on an existing target returns the path
    at once: no fetch, no file opened, the file system as it was. Hence,
    when a first call has returned, a second call with the same URL returns
    the same path without fetching, and the two calls together fetched
    once if the target was absent at first (and not at all if it was
    there). The target is a normalised path that names a file, so that
    its look-up is the one of the file system, and line 101 has at most
    one directory to make. *)
Theorem cached_download_idempotent (env1 env2 : Env) (url : string)
    (fp md5 : option string) (s1 s2 : bool) (pp1 pp2 : option callback)
    (w0 : World) (p : string) (w1 : World) :
  let target := target_path home url fp in
  proper_target target = true ->
  directory_ready (fs w0) target = true ->
  Py.truthy md5 = false ->
  keeps_target pp1 target ->
  cached_custom_download home env1 url fp md5 s1 pp1 w0 = (Ok p, w1) ->
  (forall w, Os.present (fs w) target = true ->
     cached_custom_download home env2 url fp md5 s2 pp2 w
     = (Ok target,
        mkWorld (fs w) (stdout w ++ hit_message s2 target) (stderr w)
          (trace w)))
  /\ p = target
  /\ cached_custom_download home env2 url fp md5 s2 pp2 w1
     = (Ok p,
        mkWorld (fs w1) (stdout w1 ++ hit_message s2 target) (stderr w1)
          (trace w1))
  /\ fetches (new_events w0 w1)
     = (if Os.present (fs w0) target then 0 else 1)%nat.
Proof.
  intros target _ _ Ht Hkeep H.
  split; [intros w Hp; now apply cached_hit |].
  assert (Hgoal : p = target /\ Os.present (fs w1) target = true
                  /\ fetches (new_events w0 w1)
                     = (if Os.present (fs w0) target then 0 else 1)%nat).
  2:{ destruct Hgoal as (-> & Hp & Hf). split; [reflexivity |].
      split; [now apply cached_hit | exact Hf]. }
  apply cached_custom_download_cases in H. fold target in H.
  destruct H as [[Hc Hr] | [(e & _ & Hr) | (wc & Hc & Hd)]];
    [| discriminate Hr |].
  - injection Hr as ->.
    apply check_existing_outcome in Hc. inversion Hc; subst.
    + cbn [fs]. rewrite new_events_same by reflexivity.
      split; [reflexivity |]. split; [assumption |].
      now match goal with H : Os.present _ _ = true |- _ => rewrite H end.
    + falsy_contra.
  - apply check_existing_outcome in Hc. inversion Hc; subst;
      [| falsy_contra].
    destruct Hd as [(e & _ & Hr) | (w2 & Hd & Hf)]; [discriminate Hr |].
    apply download_and_publish_ok in Hd
      as (d & new & real & Hfind & Hremote & Hreal & Hinto & Hne & ->).
    rewrite verify_and_postprocess_eq in Hf.
    unfold verify_fresh in Hf. rewrite Ht in Hf. cbn [when] in Hf.
    unfold ret at 1 in Hf. unfold postprocess_step in Hf.
    match goal with H : Os.present (fs wc) target = false |- _ =>
      rewrite H end.
    pose proof (published_present _ _ _ _ _ _ Hreal Hne) as Hpub.
    assert (Hfetch : forall w', trace w'
              = trace (temp_world url target s1 (after_makedirs target wc)
                         (temp_root home d)
                         (<[real := File new]>
                            (<[temp_root home d := Dir]>
                               (fs (after_makedirs target wc))))
                         [EvLock (Py.join (custom_cache_root home) "_dl_lock");
                          EvMove (temp_root home d +:+ "/dl") real]) ->
              fetches (new_events wc w') = 1%nat).
    { intros w' E. erewrite new_events_app.
      2:{ rewrite E. cbn [trace temp_world].
          rewrite after_makedirs_trace, <- app_assoc. reflexivity. }
      unfold makedirs_events. now destruct (_ || _). }
    destruct pp1 as [f|].
    + unfold run_callback in Hf. cbn [fs stdout stderr trace temp_world] in Hf.
      destruct (f target _) as [[[]|e] m'] eqn:Ef; [| discriminate Hf].
      injection Hf as <- <-. cbn [fs].
      split; [reflexivity |]. split.
      * eapply Hkeep; [reflexivity | exact Ef | exact Hpub].
      * now apply Hfetch.
    + injection Hf as <- <-. cbn [fs temp_world].
      split; [reflexivity |]. split; [exact Hpub |]. now apply Hfetch.
Qed.

End CacheHitClaims.

(** ** Failures of the download block *)
Section FailureClaims.

Variable home : string.

Lemma after_makedirs_lookup (target : string) (w : World) :
  fs (after_makedirs target w) !! target = fs w !! target.
Proof.
  unfold after_makedirs.
  destruct (String.eqb_spec (Py.dirname target) "") as [|Hd]; [reflexivity |].
  destruct (Os.present (fs w) (Py.dirname target)) eqn:Hp; [reflexivity |].
  simpl. apply lookup_insert_ne. intros E.
  destruct (dirname_fixed _ E) as [E1 | E1].
  - rewrite E, E1 in Hd. now apply Hd.
  - rewrite E in Hp. unfold Os.present, Os.stat in Hp. rewrite E1 in Hp.
    destruct (String.eqb_spec target ""); [| discriminate Hp].
    rewrite E in Hd. contradiction.
Qed.

(** The check of the existing file leaves the file system alone and opens
    at most the target. *)
Lemma check_existing_frame (target : string) (md5 : option string)
    (silent : bool) (w : World) (res : Result bool) (wc : World) :
  check_existing target md5 silent w = (res, wc) ->
  fs wc = fs w
  /\ exists evs, trace wc = trace w ++ evs
                 /\ (evs = [] \/ evs = [EvOpen target]).
Proof.
  intros H. apply check_existing_outcome in H.
  inversion H; subst; cbn [fs trace]; (split; [reflexivity |]);
    first [ exists []; split; [now rewrite app_nil_r | now left]
          | exists [EvOpen target]; split; [reflexivity | now right] ].
Qed.

(** The verification of the fresh file and the callback add to the trace
    at most the opening of the target. *)
Lemma verify_and_postprocess_trace (target : string) (md5 : option string)
    (silent : bool) (pp : option callback) (w : World)
    (res : Result string) (w' : World) :
  verify_and_postprocess target md5 silent pp w = (res, w') ->
  exists evs, trace w' = trace w ++ evs
              /\ (evs = [] \/ evs = [EvOpen target]).
Proof.
  rewrite verify_and_postprocess_eq.
  destruct (verify_fresh target md5 silent w) as [rv wv] eqn:Hv.
  apply verify_fresh_outcome in Hv.
  assert (Hwv : exists evs, trace wv = trace w ++ evs
                            /\ (evs = [] \/ evs = [EvOpen target])).
  { inversion Hv; subst; cbn [trace];
      first [ exists []; split; [now rewrite app_nil_r | now left]
            | exists [EvOpen target]; split; [reflexivity | now right] ]. }
  destruct rv as [[]|e]; [| now intros [= <- <-]].
  unfold postprocess_step. destruct pp as [f|].
  - unfold run_callback. destruct (f target (fs wv)) as [[[]|e] m'];
      intros [= <- <-]; exact Hwv.
  - unfold ret. intros [= <- <-]. exact Hwv.
Qed.

Lemma In_makedirs_events (target : string) (w : World) (ev : event) :
  In ev (makedirs_events target w) -> ev = EvMakedirs (Py.dirname target).
Proof.
  unfold makedirs_events. destruct (_ || _); simpl; [tauto |].
  now intros [<- | []].
Qed.



End FailureClaims.

(** ** Where the published file lands *)
Section PublishedFacts.

Variable home : string.
Variable env : Env.
Variables (url target : string) (silent : bool).

Lemma basename_append (a q : string) :
  Ext.basename (a +:+ "/" +:+ q) = Ext.basename q.
Proof.
  induction a as [|x a IH].
  - reflexivity.
  - change (String x a +:+ "/" +:+ q) with (String x (a +:+ "/" +:+ q)).
    cbn [Ext.basename].
    replace (Py.has_slash (String x (a +:+ "/" +:+ q))) with true; [exact IH |].
    symmetry. cbn [Py.has_slash]. rewrite has_slash_append.
    change (Py.has_slash ("/" +:+ q)) with true.
    now rewrite !orb_true_r.
Qed.

Lemma after_makedirs_dir (w : World) :
  Py.dirname target = ""
  \/ Os.present (fs (after_makedirs target w)) (Py.dirname target) = true.
Proof.
  unfold after_makedirs.
  destruct (String.eqb_spec (Py.dirname target) "") as [|Hd]; [now left |].
  right. destruct (Os.present (fs w) (Py.dirname target)) eqn:Hp; [exact Hp |].
  cbn [orb fs]. unfold Os.present, Os.stat.
  apply String.eqb_neq in Hd. rewrite Hd.
  destruct (Py.all_slashes _); [reflexivity | now rewrite lookup_insert_eq].
Qed.

Lemma at_or_under_empty (d : list nat) :
  Os.at_or_under (temp_root home d) "" = false.
Proof.
  unfold Os.at_or_under. pose proof (temp_root_not_empty home d) as Hn.
  destruct (temp_root home d); [congruence | reflexivity].
Qed.

(** Nothing that exists when the candidate is chosen lies at or below it. *)
Lemma present_not_under (m : gmap string node) (d : list nat) (q : string) :
  Os.free m (temp_root home d) = true ->
  Os.present m q = true -> Os.at_or_under (temp_root home d) q = false.
Proof.
  intros Hfree Hq.
  destruct (Os.at_or_under (temp_root home d) q) eqn:E; [| reflexivity].
  apply present_stat in Hq as [x Hx].
  apply stat_Some_inv in Hx as [_ [Hx | Hx]].
  - rewrite all_slashes_not_under in E; auto using temp_root_not_empty,
      temp_root_no_trailing_slash.
  - now rewrite (free_lookup _ _ _ Hfree E) in Hx.
Qed.

(** The target of a call does not lie below the temporary directory. *)
Lemma target_not_below_temp (w : World) (d : list nat) :
  Os.free (fs (after_makedirs target w)) (temp_root home d) = true ->
  Py.starts_with (temp_root home d +:+ "/") target = false.
Proof.
  intros Hfree.
  destruct (Py.starts_with (temp_root home d +:+ "/") target) eqn:E;
    [| reflexivity].
  apply dirname_under in E; auto using temp_root_not_empty,
    temp_root_no_trailing_slash.
  destruct (after_makedirs_dir w) as [Hd | Hd].
  - rewrite Hd, at_or_under_empty in E. discriminate E.
  - now rewrite (present_not_under _ _ _ Hfree Hd) in E.
Qed.

(** When the target was not a directory before the block, the file is
    moved onto the target itself, which lies outside the temporary
    directory. *)
Lemma published_onto_target (w w2 : World) (d : list nat) (new : list byte)
    (real : string) :
  Os.stat (fs w) target <> Some Dir ->
  published home env url target silent w w2 d new real ->
  real = target /\ Os.at_or_under (temp_root home d) target = false
  /\ Os.stat (fs w2) target = Some (File new).
Proof.
  intros Hnd (Hfind & Hremote & Hreal & Hinto & Hne & Hw2).
  pose proof (find_temp_free _ _ _ _ Hfind) as Hfree.
  set (r := temp_root home d) in *.
  set (m3 := <[r +:+ "/dl" := File new]> _) in *.
  assert (Hdir : Os.is_dir m3 target = true -> False).
  { intros Hdir. rewrite Hdir in Hreal, Hinto. cbn [andb] in Hinto.
    unfold Os.is_dir in Hdir.
    destruct (Os.stat m3 target) as [[|]|] eqn:Hs; try discriminate Hdir.
    apply stat_Some_inv in Hs as [Hn [Hs | Hs]].
    - apply Hnd. unfold Os.stat. rewrite Hs.
      apply String.eqb_neq in Hn. now rewrite Hn.
    - unfold m3 in Hs. apply lookup_insert_Some in Hs as [[_ Hs] | [_ Hs]];
        [discriminate Hs |].
      apply lookup_insert_Some in Hs as [[Hs _] | [_ Hs]].
      + subst target.
        change "/dl" with ("/" +:+ "dl") in Hreal.
        rewrite basename_append in Hreal.
        change (Ext.basename "dl") with "dl" in Hreal. unfold r in Hreal.
        rewrite temp_file_path in Hreal. subst real.
        unfold Os.present in Hinto. unfold m3, r in Hinto.
        rewrite temp_stat_file, lookup_insert_eq in Hinto. discriminate Hinto.
      + rewrite after_makedirs_lookup in Hs. apply Hnd.
        unfold Os.stat. apply String.eqb_neq in Hn. rewrite Hn, Hs.
        now destruct (Py.all_slashes target). }
  destruct (Os.is_dir m3 target) eqn:Hd3; [now destruct Hdir |].
  split; [exact Hreal |]. split.
  - unfold Os.at_or_under. apply orb_false_iff. split.
    + apply String.eqb_neq. intros E. rewrite E in Hd3.
      unfold Os.is_dir, m3, r in Hd3.
      rewrite temp_stat_root in Hd3; [discriminate |].
      rewrite lookup_insert_ne by apply temp_file_not_root.
      apply lookup_insert_eq.
    + now apply target_not_below_temp with (w := w).
  - rewrite Hw2, Hreal. cbn [fs temp_world]. rewrite Hreal in Hne.
    apply stat_insert_eq; [exact Hne |].
    destruct (Py.all_slashes target) eqn:Hall; [| reflexivity].
    unfold Os.is_dir, Os.stat in Hd3. rewrite Hall in Hd3.
    apply String.eqb_neq in Hne. rewrite Hne in Hd3. discriminate Hd3.
Qed.

End PublishedFacts.

(** ** Successful downloads *)
Section SuccessClaims.

Variable home : string.

Lemma check_false_not_dir (target : string) (md5 : option string)
    (silent : bool) (w wc : World) :
  check_existing target md5 silent w = (Ok false, wc) ->
  fs wc = fs w /\ Os.stat (fs wc) target <> Some Dir.
Proof.
  intros H. apply check_existing_outcome in H.
  inversion H as [ | Hp | | | exp old Hmd5 Hs Hlen Hne | ]; subst;
    cbn [fs]; (split; [reflexivity |]).
  - unfold Os.present in Hp. now destruct (Os.stat (fs wc) target).
  - rewrite Hs. discriminate.
Qed.


Lemma verify_and_postprocess_fs (target : string) (md5 : option string)
    (silent : bool) (pp : option callback) (w : World)
    (res : Result string) (w' : World) (r q : string) :
  verify_and_postprocess target md5 silent pp w = (res, w') ->
  keeps_below pp r -> Os.at_or_under r q = true ->
  fs w' !! q = fs w !! q.
Proof.
  rewrite verify_and_postprocess_eq. intros H Hkeep Hq.
  destruct (verify_fresh target md5 silent w) as [rv wv] eqn:Hv.
  apply verify_fresh_outcome in Hv.
  assert (Hwv : fs wv = fs w) by (inversion Hv; subst; reflexivity).
  destruct rv as [[]|e]; [| injection H as <- <-; now rewrite Hwv].
  unfold postprocess_step in H. destruct pp as [f|].
  - unfold run_callback in H.
    destruct (f target (fs wv)) as [rf m'] eqn:Ef.
    assert (Hm : m' !! q = fs wv !! q) by (eapply Hkeep; eauto).
    destruct rf as [[]|e]; injection H as <- <-; cbn [fs];
      now rewrite Hm, Hwv.
  - unfold ret in H. injection H as <- <-. now rewrite Hwv.
Qed.

(** C9: when a call returns after a fresh download, the temporary
    directory [r] it created is still there and empty, and no directory
    was removed. The callback, if any, is one that leaves [r] alone. *)
Theorem temp_dir_survives_success (env : Env) (url : string)
    (fp md5 : option string) (silent : bool) (pp : option callback)
    (w w' : World) (p r : string) :
  cached_custom_download home env url fp md5 silent pp w = (Ok p, w') ->
  In (EvMkdtemp r) (new_events w w') ->
  keeps_below pp r ->
  fs w' !! r = Some Dir
  /\ (forall q, Os.at_or_under r q = true -> q <> r -> fs w' !! q = None)
  /\ (forall q, ~ In (EvRmtree q) (new_events w w')).
Proof.
  intros H Hmk Hkeep.
  apply cached_custom_download_cases in H.
  set (target := target_path home url fp) in *.
  destruct H as [[Hc _] | [(e0 & _ & Hr) | (wc & Hc & Hd)]];
    [| discriminate Hr |].
  { exfalso. apply check_existing_frame in Hc as (_ & evs & Htr & Hevs).
    rewrite (new_events_app _ _ _ Htr) in Hmk.
    destruct Hevs as [-> | ->]; simpl in Hmk; intuition discriminate. }
  destruct Hd as [(e0 & _ & Hr) | (w2 & Hd & Hf)]; [discriminate Hr |].
  pose proof (check_false_not_dir _ _ _ _ _ Hc) as [Hfs Hnd].
  apply check_existing_frame in Hc as (_ & cevs & Htr & Hcevs).
  assert (Hc_no : forall ev, In ev cevs -> ev = EvOpen target)
    by (intros ev; destruct Hcevs as [-> | ->]; simpl; intuition).
  apply download_and_publish_ok in Hd as (d & new & real & Hpub).
  destruct (published_onto_target _ _ _ _ _ _ _ _ _ _ Hnd Hpub)
    as (-> & Hout & _).
  destruct Hpub as (Hfind & _ & _ & _ & _ & ->).
  pose proof (find_temp_free _ _ _ _ Hfind) as Hfree.
  destruct (verify_and_postprocess_trace _ _ _ _ _ _ _ Hf)
    as (vevs & Hvtr & Hvevs).
  assert (Hnew : new_events w w'
            = cevs ++ makedirs_events target wc
              ++ [EvMkdtemp (temp_root home d);
                  EvFetch url (temp_root home d +:+ "/dl");
                  EvLock (Py.join (custom_cache_root home) "_dl_lock");
                  EvMove (temp_root home d +:+ "/dl") target]
              ++ vevs).
  { apply new_events_app. rewrite Hvtr. cbn [trace temp_world].
    rewrite after_makedirs_trace, Htr, <- !app_assoc. reflexivity. }
  assert (Hv_no : forall ev, In ev vevs -> ev = EvOpen target)
    by (intros ev; destruct Hvevs as [-> | ->]; simpl; intuition).
  rewrite Hnew in Hmk |- *.
  assert (Hr : r = temp_root home d).
  { apply in_app_or in Hmk as [Hmk | Hmk];
      [apply Hc_no in Hmk; discriminate Hmk |].
    apply in_app_or in Hmk as [Hmk | Hmk];
      [apply In_makedirs_events in Hmk; discriminate Hmk |].
    simpl in Hmk.
    destruct Hmk as [Hmk | [Hmk | [Hmk | [Hmk | Hmk]]]];
      try discriminate Hmk; [now injection Hmk |].
    apply Hv_no in Hmk. discriminate Hmk. }
  subst r.
  assert (Hlook : forall q, Os.at_or_under (temp_root home d) q = true ->
            fs w' !! q
            = (<[target := File new]>
                 (<[temp_root home d := Dir]>
                    (fs (after_makedirs target wc)))) !! q).
  { intros q Hq.
    now rewrite (verify_and_postprocess_fs _ _ _ _ _ _ _ _ _ Hf Hkeep Hq). }
  split; [| split].
  - rewrite Hlook by apply at_or_under_refl.
    rewrite lookup_insert_ne.
    + apply lookup_insert_eq.
    + intros E. rewrite E, at_or_under_refl in Hout. discriminate Hout.
  - intros q Hq Hne. rewrite Hlook by exact Hq.
    rewrite lookup_insert_ne by (intros E; congruence).
    rewrite lookup_insert_ne by congruence.
    exact (free_lookup _ _ _ Hfree Hq).
  - intros q Hin.
    apply in_app_or in Hin as [Hin | Hin];
      [apply Hc_no in Hin; discriminate Hin |].
    apply in_app_or in Hin as [Hin | Hin];
      [apply In_makedirs_events in Hin; discriminate Hin |].
    simpl in Hin.
    destruct Hin as [Hin | [Hin | [Hin | [Hin | Hin]]]];
      try discriminate Hin.
    apply Hv_no in Hin. discriminate Hin.
Qed.

Lemma cached_after_publish (env : Env) (url : string)
    (fp md5 : option string) (silent : bool) (pp : option callback)
    (w wc w2 : World) :
  let target := target_path home url fp in
  check_existing target md5 silent w = (Ok false, wc) ->
  download_and_publish home env url target silent wc = (Ok tt, w2) ->
  cached_custom_download home env url fp md5 silent pp w
  = verify_and_postprocess target md5 silent pp w2.
Proof.
  intros target Hc Hd. unfold cached_custom_download. fold target.
  unfold bind at 1. rewrite Hc. unfold bind at 1. now rewrite Hd.
Qed.

(** C4: the two policies. An existing file whose digest differs from the
    expected one (a string of 32 characters) is reported on the standard
    error stream and the call goes on to the download, which replaces the
    target when it completes; a fresh file whose digest differs from the
    expected one makes the call raise. The target is a normalised path
    that names a file, and line 101 has at most one directory to make. *)
Theorem asymmetric_integrity (env : Env) (url : string)
    (fp md5 : option string) (silent : bool) (pp : option callback)
    (w : World) :
  let target := target_path home url fp in
  proper_target target = true ->
  directory_ready (fs w) target = true ->
  Py.truthy md5 = true ->
  (forall expected old,
     md5 = Some expected -> String.length expected = 32%nat ->
     Os.stat (fs w) target = Some (File old) ->
     Md5.hexdigest old <> expected ->
     check_existing target md5 silent w
     = (Ok false,
        mkWorld (fs w) (stdout w ++ calculating silent target)
          (stderr w ++ [mismatch_message (Md5.hexdigest old) md5])
          (trace w ++ [EvOpen target])))
  /\ (forall wc,
        check_existing target md5 silent w = (Ok false, wc) ->
        cached_custom_download home env url fp md5 silent pp w
        = (download_and_publish home env url target silent ;;
           verify_and_postprocess target md5 silent pp) wc)
  /\ (forall wc w2,
        check_existing target md5 silent w = (Ok false, wc) ->
        download_and_publish home env url target silent wc = (Ok tt, w2) ->
        exists new,
          remote env url = DlReturn (Some new)
          /\ fs w2 !! target = Some (File new)
          /\ (Some (Md5.hexdigest new) <> md5 ->
              exists e w',
                cached_custom_download home env url fp md5 silent pp w
                = (Raise e, w')
                /\ (e = AssertionError
                          (mismatch_message (Md5.hexdigest new) md5)
                    \/ e = ValueError
                             ("Expected MD5 must be 32 characters long: "
                              +:+ Py.fmt md5)))).
Proof.
  intros target _ _ Ht. split; [| split].
  - intros expected old -> Hlen Hs Hne.
    rewrite (check_existing_verify _ _ old) by assumption.
    destruct (decide _) as [E|_]; [contradiction | reflexivity].
  - intros wc Hc. unfold cached_custom_download. fold target.
    unfold bind at 1. now rewrite Hc.
  - intros wc w2 Hc Hd.
    rewrite (cached_after_publish env url fp md5 silent pp w wc w2 Hc Hd).
    fold target.
    pose proof (check_false_not_dir _ _ _ _ _ Hc) as [_ Hnd].
    apply download_and_publish_ok in Hd as (d & new & real & Hpub).
    destruct (published_onto_target _ _ _ _ _ _ _ _ _ _ Hnd Hpub)
      as (-> & _ & Hstat).
    exists new. split; [apply Hpub |]. split.
    { destruct Hpub as (_ & _ & _ & _ & _ & ->). cbn [fs temp_world].
      apply lookup_insert_eq. }
    intros Hne. rewrite verify_and_postprocess_eq.
    destruct (verify_fresh target md5 silent w2) as [rv wv] eqn:Hv.
    apply verify_fresh_outcome in Hv.
    inversion Hv as [ Hf | exp Hmd5 _ Hlen | exp new' Hmd5 Hs Hlen Hdig
                    | exp new' Hmd5 Hs Hlen Hdig | exp msg Hmd5 Hs Hlen ];
      subst.
    + congruence.
    + eexists _, _. split; [reflexivity | now right].
    + rewrite Hstat in Hs. injection Hs as <-. now destruct Hne.
    + rewrite Hstat in Hs. injection Hs as <-.
      eexists _, _. split; [reflexivity | now left].
    + now destruct (Hs new).
Qed.

End SuccessClaims.

(** ** The path derived from the URL *)
Section DerivedPath.

#[local] Arguments String.append !_ _ / : simpl nomatch.
#[local] Arguments Ascii.eqb : simpl never.

Variable home : string.



Lemma replace1_cons (c : ascii) (new : string) (x : ascii) (s : string) :
  Py.replace (String c "") new (String x s)
  = (if Ascii.eqb c x then new else String x "")
    +:+ Py.replace (String c "") new s.
Proof.
  unfold Py.replace. cbn [Py.replace_from Py.starts_with].
  rewrite andb_true_r. now destruct (Ascii.eqb c x).
Qed.

Lemma replace1_app (c : ascii) (new a b : string) :
  Py.replace (String c "") new (a +:+ b)
  = Py.replace (String c "") new a +:+ Py.replace (String c "") new b.
Proof.
  induction a as [|x a IH]; [reflexivity |].
  change (String x a +:+ b) with (String x (a +:+ b)).
  rewrite !replace1_cons, IH. now rewrite append_assoc.
Qed.

(** The four replacements of lines 78-81, one after the other, on one
    character. *)
Lemma replace_chain_char (x : ascii) :
  Py.replace "?" "-QUESTION-"
    (Py.replace "=" "-EQUAL-"
       (Py.replace ":" "-COLON-"
          (Py.replace "/" "-SLASH-" (String x ""))))
  = marker x.
Proof.
  unfold marker.
  destruct (Ascii.eqb_spec x "/") as [-> | H1]; [reflexivity |].
  destruct (Ascii.eqb_spec x ":") as [-> | H2]; [reflexivity |].
  destruct (Ascii.eqb_spec x "=") as [-> | H3]; [reflexivity |].
  destruct (Ascii.eqb_spec x "?") as [-> | H4]; [reflexivity |].
  rewrite replace1_cons.
  replace (Ascii.eqb "/" x) with false
    by (symmetry; apply Ascii.eqb_neq; congruence).
  change (Py.replace "/" "-SLASH-" "") with "". cbn [String.append].
  rewrite replace1_cons.
  replace (Ascii.eqb ":" x) with false
    by (symmetry; apply Ascii.eqb_neq; congruence).
  change (Py.replace ":" "-COLON-" "") with "". cbn [String.append].
  rewrite replace1_cons.
  replace (Ascii.eqb "=" x) with false
    by (symmetry; apply Ascii.eqb_neq; congruence).
  change (Py.replace "=" "-EQUAL-" "") with "". cbn [String.append].
  rewrite replace1_cons.
  replace (Ascii.eqb "?" x) with false
    by (symmetry; apply Ascii.eqb_neq; congruence).
  reflexivity.
Qed.

Lemma replace_chain (url : string) :
  Py.replace "?" "-QUESTION-"
    (Py.replace "=" "-EQUAL-"
       (Py.replace ":" "-COLON-"
          (Py.replace "/" "-SLASH-" url)))
  = mangle url.
Proof.
  induction url as [|x u IH]; [reflexivity |].
  change (String x u) with (String x "" +:+ u).
  rewrite !replace1_app, IH, replace_chain_char. reflexivity.
Qed.

Lemma marker_no_slash (c : ascii) : Py.has_slash (marker c) = false.
Proof.
  unfold marker.
  destruct (Ascii.eqb_spec c "/"); [reflexivity |].
  destruct (Ascii.eqb c ":"); [reflexivity |].
  destruct (Ascii.eqb c "="); [reflexivity |].
  destruct (Ascii.eqb c "?"); [reflexivity |].
  simpl. rewrite orb_false_r. now apply Ascii.eqb_neq.
Qed.

Lemma mangle_no_slash (url : string) : Py.has_slash (mangle url) = false.
Proof.
  induction url as [|c u IH]; [reflexivity |].
  cbn [mangle]. now rewrite has_slash_append, marker_no_slash, IH.
Qed.

(** C6: without [file_path] the target is the cache root, a slash, and
    the URL with each [/], [:], [=] and [?] replaced by its marker; the
    name holds no slash, so the file lies directly in the cache root. *)
Theorem derived_path_from_url (url : string) :
  target_path home url None
  = custom_cache_root home +:+ "/" +:+ mangle url
  /\ Py.has_slash (mangle url) = false
  /\ Py.dirname (target_path home url None) = custom_cache_root home.
Proof.
  assert (E : target_path home url None
              = custom_cache_root home +:+ "/" +:+ mangle url).
  { unfold target_path, derive_file_path. rewrite replace_chain.
    apply join_cache_root, mangle_no_slash. }
  rewrite E. split; [reflexivity |]. split; [apply mangle_no_slash |].
  apply dirname_child.
  - apply cache_root_not_empty.
  - apply cache_root_no_trailing_slash.
  - apply mangle_no_slash.
Qed.

End DerivedPath.

(** ** What the code prints *)
Section OutputClaims.

Variable home : string.

(** C10: the empty string as expected checksum counts as no checksum: on
    an existing target the call returns the path as a cache hit, with no
    check of the format (which would raise) and no file opened. *)
Theorem empty_checksum_is_cache_hit (env : Env) (url : string)
    (fp : option string) (silent : bool) (pp : option callback) (w : World) :
  let target := target_path home url fp in
  Os.present (fs w) target = true ->
  cached_custom_download home env url fp (Some "") silent pp w
  = (Ok target,
     mkWorld (fs w) (stdout w ++ hit_message silent target) (stderr w)
       (trace w))
  /\ cached_custom_download home env url fp (Some "") silent pp w
     = cached_custom_download home env url fp None silent pp w.
Proof.
  intros target Hp. now rewrite !cached_hit.
Qed.

Lemma calculate_md5sum_quiet (p : string) (block_size : option Z) (w : World)
    (res : Result string) (w' : World) :
  calculate_md5sum p block_size w = (res, w') ->
  stdout w' = stdout w /\ stderr w' = stderr w.
Proof.
  unfold calculate_md5sum, Os.read_file, bind, emit, get_fs. cbn.
  destruct (Os.stat (fs w) p) as [[data|]|]; intros [= <- <-];
    split; reflexivity.
Qed.

Lemma validate_md5sum_quiet (p : string) (expected : option string)
    (block_size : option Z) (w : World) (res : Result bool) (w' : World) :
  validate_md5sum p expected true block_size w = (res, w') ->
  stdout w' = stdout w /\ stderr w' = stderr w.
Proof.
  unfold validate_md5sum.
  destruct (negb _); [intros [= <- <-]; split; reflexivity |].
  cbn [negb when]. unfold bind at 1. unfold ret at 1. unfold bind.
  destruct (calculate_md5sum p block_size w) as [[actual|e] w1] eqn:Hc;
    apply calculate_md5sum_quiet in Hc.
  - case_bool_decide; intros [= <- <-]; exact Hc.
  - intros [= <- <-]. exact Hc.
Qed.

Lemma publish_quiet (env : Env) (url target : string) (w : World)
    (res : Result unit) (w' : World) :
  download_and_publish home env url target true w = (res, w') ->
  stdout w' = stdout w /\ stderr w' = stderr w.
Proof.
  intros H. destruct res as [[]|e].
  - apply download_and_publish_ok in H
      as (d & new & real & _ & _ & _ & _ & _ & ->).
    cbn [stdout stderr temp_world progress].
    now rewrite app_nil_r, after_makedirs_stdout, after_makedirs_stderr.
  - apply download_and_publish_raise in H
      as [[-> _] | [(d & evs & Hcl) | [(d & m & evs & Hin)
                                      | (d & new & part & real & Hov)]]].
    + now rewrite after_makedirs_stdout, after_makedirs_stderr.
    + destruct Hcl as (_ & _ & _ & _ & ->).
      cbn [stdout stderr temp_world progress].
      now rewrite app_nil_r, after_makedirs_stdout, after_makedirs_stderr.
    + destruct Hin as (_ & _ & _ & _ & ->).
      cbn [stdout stderr temp_world progress].
      now rewrite app_nil_r, after_makedirs_stdout, after_makedirs_stderr.
    + destruct Hov as (_ & _ & _ & _ & _ & _ & ->).
      cbn [stdout stderr temp_world progress].
      now rewrite app_nil_r, after_makedirs_stdout, after_makedirs_stderr.
Qed.

Lemma finish_quiet (target : string) (md5 : option string)
    (pp : option callback) (w : World) (res : Result string) (w' : World) :
  verify_and_postprocess target md5 true pp w = (res, w') ->
  stdout w' = stdout w /\ stderr w' = stderr w.
Proof.
  rewrite verify_and_postprocess_eq.
  destruct (verify_fresh target md5 true w) as [rv wv] eqn:Hv.
  apply verify_fresh_outcome in Hv.
  assert (Hwv : stdout wv = stdout w /\ stderr wv = stderr w).
  { inversion Hv; subst; cbn [stdout stderr calculated calculating];
      rewrite ?app_nil_r; split; reflexivity. }
  destruct rv as [[]|e]; [| now intros [= <- <-]].
  unfold postprocess_step. destruct pp as [f|].
  - unfold run_callback. destruct (f target (fs wv)) as [[[]|e] m'];
      intros [= <- <-]; exact Hwv.
  - unfold ret. intros [= <- <-]. exact Hwv.
Qed.

(** C7, as the code has it: the digest never prints; with [silent] set,
    the verification prints nothing, and the cached download writes
    nothing to the standard output and at most one line to the standard
    error stream, the warning about an existing file whose digest differs
    from the expected one. *)
Theorem silent_operations_print_only_the_warning (env : Env) (url : string)
    (fp md5 : option string) (pp : option callback) (p : string)
    (block_size : option Z) (w : World) :
  let target := target_path home url fp in
  (stdout (calculate_md5sum p block_size w).2 = stdout w
   /\ stderr (calculate_md5sum p block_size w).2 = stderr w)
  /\ (stdout (validate_md5sum p md5 true block_size w).2 = stdout w
      /\ stderr (validate_md5sum p md5 true block_size w).2 = stderr w)
  /\ stdout (cached_custom_download home env url fp md5 true pp w).2
     = stdout w
  /\ (stderr (cached_custom_download home env url fp md5 true pp w).2
      = stderr w
      \/ exists old,
           Os.stat (fs w) target = Some (File old)
           /\ Some (Md5.hexdigest old) <> md5
           /\ stderr (cached_custom_download home env url fp md5 true pp w).2
              = stderr w ++ [mismatch_message (Md5.hexdigest old) md5]).
Proof.
  intros target.
  split.
  { destruct (calculate_md5sum p block_size w) as [r1 w1] eqn:H.
    exact (calculate_md5sum_quiet _ _ _ _ _ H). }
  split.
  { destruct (validate_md5sum p md5 true block_size w) as [r1 w1] eqn:H.
    exact (validate_md5sum_quiet _ _ _ _ _ _ H). }
  destruct (cached_custom_download home env url fp md5 true pp w)
    as [res w'] eqn:H.
  cbn [snd].
  apply cached_custom_download_cases in H. fold target in H.
  assert (Hcheck : forall rc wc,
            check_existing target md5 true w = (rc, wc) ->
            stdout wc = stdout w
            /\ (stderr wc = stderr w
                \/ exists old,
                     Os.stat (fs w) target = Some (File old)
                     /\ Some (Md5.hexdigest old) <> md5
                     /\ stderr wc
                        = stderr w ++ [mismatch_message (Md5.hexdigest old) md5])).
  { intros rc wc Hc. apply check_existing_outcome in Hc.
    inversion Hc as [ | | | | exp old Hmd5 Hs Hlen Hne | ]; subst;
      cbn [stdout stderr hit_message calculated calculating];
      rewrite ?app_nil_r; (split; [reflexivity |]);
      try (left; reflexivity).
    right. exists old. repeat split; [assumption | congruence]. }
  destruct H as [[Hc _] | [(e & Hc & _) | (wc & Hc & Hd)]].
  - exact (Hcheck _ _ Hc).
  - exact (Hcheck _ _ Hc).
  - destruct (Hcheck _ _ Hc) as [Hout Herr].
    assert (Hkeep : stdout w' = stdout wc /\ stderr w' = stderr wc).
    { destruct Hd as [(e & Hd & _) | (w2 & Hd & Hf)].
      - exact (publish_quiet _ _ _ _ _ _ Hd).
      - destruct (publish_quiet _ _ _ _ _ _ Hd) as [E1 E2].
        destruct (finish_quiet _ _ _ _ _ _ Hf) as [F1 F2].
        split; congruence. }
    destruct Hkeep as [-> ->]. exact (conj Hout Herr).
Qed.

(** C7, as the spec words it, fails: a cache hit with the default
    [silent=False] writes a line to the standard output. *)
Lemma cache_hit_prints :
  stdout
    (cached_custom_download "/home/u" (mkEnv (fun _ => DlReturn None) [] None None)
       "u" None None false None
       (mkWorld {[ "/home/u/.custom_cache/gdown/u" := File [] ]} [] [] [])).2
  = ["File already exists: /home/u/.custom_cache/gdown/u"].
Proof. vm_compute. reflexivity. Qed.

End OutputClaims.

(** ** The boundary layer *)
Section BoundaryClaims.

(** [textwrap.wrap] *)
Variable wrap : string -> list string.

(** The call of line 181 does not reach the body of [indent]: the keyword
    [prefix] names no parameter. *)
Lemma indent_call_prefix (text : string) :
  Indent.call [text] [("prefix", Py.tab)]
  = Raise (TypeError "indent() got an unexpected keyword argument 'prefix'").
Proof. reflexivity. Qed.

Lemma on_folder_limit_raises (e : exn) (w : World) :
  Cli.on_folder_limit wrap e w
  = (Raise (TypeError "indent() got an unexpected keyword argument 'prefix'"),
     w).
Proof.
  unfold Cli.on_folder_limit, bind, Cli.lift.
  now rewrite indent_call_prefix.
Qed.

(** C8 fails on the code: when a download (not of a folder, and without
    [--id]) raises the capacity error, the handler of lines 177-185 raises
    [TypeError] before it prints: [main] ends with that exception, the
    world is as the download left it, and no diagnostic with the
    suggestion is written. *)
Theorem capacity_error_handler_raises (custom_download : Cli.download_call -> M unit)
    (args : Cli.Args) (msg : string) (w w1 : World) :
  Cli.id args = false -> Cli.folder args = false ->
  (forall c, custom_download c w
             = (Raise (FolderContentsMaximumLimitError msg), w1)) ->
  Cli.main wrap custom_download args w
  = (Raise (TypeError "indent() got an unexpected keyword argument 'prefix'"),
     w1)
  /\ Cli.exit_status
       (Cli.main wrap custom_download args w).1 = 1.
Proof.
  intros Hid Hfolder Hdl.
  assert (E : Cli.main wrap custom_download args w
              = (Raise (TypeError
                   "indent() got an unexpected keyword argument 'prefix'"),
                 w1)).
  { unfold Cli.main. rewrite Hid, Hfolder. unfold bind at 1.
    destruct (Cli.is_http_url (Cli.url_or_id args)); unfold ret at 1;
      cbv beta iota; unfold try_except; rewrite Hdl; cbn [Cli.handlers];
      apply on_folder_limit_raises. }
  rewrite E. split; reflexivity.
Qed.

(** With [--folder] the call of line 149 raises [NameError], which the
    last clause reports as a bare "Error". *)
Lemma folder_option_name_error (custom_download : Cli.download_call -> M unit)
    (args : Cli.Args) (w : World) :
  Cli.id args = false -> Cli.folder args = true ->
  Cli.main wrap custom_download args w
  = (Raise (SystemExit 1),
     mkWorld (fs w) (stdout w) (stderr w ++ ["Error"]) (trace w)).
Proof.
  intros Hid Hfolder. unfold Cli.main. rewrite Hid, Hfolder.
  unfold bind at 1.
  destruct (Cli.is_http_url (Cli.url_or_id args)); reflexivity.
Qed.

End BoundaryClaims.

(** ** The properties on concrete runs *)
Section Scenarios.






Example derived_path_demo : target_path demo_home demo_url None = demo_target.
Proof. reflexivity. Qed.

Example mangle_demo :
  mangle demo_url = "http-COLON--SLASH--SLASH-x-SLASH-y-QUESTION-a-EQUAL-b".
Proof. reflexivity. Qed.

Lemma cached_download_idempotent_cold :
  let first :=
    cached_custom_download demo_home env_ok demo_url None None false None
      world_cold in
  first.1 = Ok demo_target
  /\ cached_custom_download demo_home env_broken demo_url None None false None
       first.2
     = (Ok demo_target,
        mkWorld (fs first.2)
          (stdout first.2 ++ hit_message false demo_target)
          (stderr first.2) (trace first.2))
  /\ fetches (new_events world_cold first.2) = 1%nat.
Proof.
  intros first.
  assert (Hcall : cached_custom_download demo_home env_ok demo_url None None
                    false None world_cold = (Ok demo_target, first.2))
    by (vm_compute; reflexivity).
  destruct (cached_download_idempotent demo_home env_ok env_broken demo_url
              None None false false None None world_cold demo_target first.2
              eq_refl eq_refl eq_refl ltac:(intros f m r m' [=]) Hcall)
    as (_ & _ & Hsecond & Hfetch).
  split; [vm_compute; reflexivity |].
  split; [exact Hsecond | exact Hfetch].
Defined.



Lemma temp_dir_survives_success_cold :
  let run :=
    cached_custom_download demo_home env_ok demo_url None None false None
      world_cold in
  run.1 = Ok demo_target
  /\ fs run.2 !! demo_temp = Some Dir
  /\ (forall q, Os.at_or_under demo_temp q = true -> q <> demo_temp ->
                fs run.2 !! q = None)
  /\ (forall q, ~ In (EvRmtree q) (new_events world_cold run.2)).
Proof.
  intros run.
  assert (Hcall : cached_custom_download demo_home env_ok demo_url None None
                    false None world_cold = (Ok demo_target, run.2))
    by (vm_compute; reflexivity).
  split; [vm_compute; reflexivity |].
  apply (temp_dir_survives_success demo_home env_ok demo_url None None false
           None world_cold run.2 demo_target demo_temp Hcall).
  - vm_compute. now left.
  - intros f p m res m' q [=].
Defined.

Lemma asymmetric_integrity_stale :
  Py.truthy (Some md5_hello) = true
  /\ check_existing demo_target (Some md5_hello) true world_stale
     = (Ok false,
        mkWorld (fs world_stale) (stdout world_stale ++ calculating true demo_target)
          (stderr world_stale
           ++ [mismatch_message (Md5.hexdigest [x6f; x6c; x64]) (Some md5_hello)])
          (trace world_stale ++ [EvOpen demo_target]))
  /\ exists e w',
       cached_custom_download demo_home env_ok demo_url None (Some md5_hello)
         true None world_stale = (Raise e, w')
       /\ (e = AssertionError
                 (mismatch_message (Md5.hexdigest abc) (Some md5_hello))
           \/ e = ValueError
                    ("Expected MD5 must be 32 characters long: "
                     +:+ Py.fmt (Some md5_hello))).
Proof.
  destruct (asymmetric_integrity demo_home env_ok demo_url None
              (Some md5_hello) true None world_stale eq_refl eq_refl eq_refl)
    as (P1 & _ & P2).
  split; [reflexivity |]. split.
  - apply (P1 md5_hello [x6f; x6c; x64] eq_refl eq_refl).
    + vm_compute. reflexivity.
    + vm_compute. discriminate.
  - set (wc := (check_existing demo_target (Some md5_hello) true world_stale).2).
    set (w2 := (download_and_publish demo_home env_ok demo_url demo_target
                  true wc).2).
    destruct (P2 wc w2) as (new & Hremote & _ & Hraise).
    + vm_compute. reflexivity.
    + vm_compute. reflexivity.
    + injection Hremote as <-. apply Hraise. vm_compute. discriminate.
Defined.

Lemma empty_checksum_is_cache_hit_stale :
  Os.present (fs world_stale) demo_target = true
  /\ cached_custom_download demo_home env_broken demo_url None (Some "")
       false None world_stale
     = (Ok demo_target,
        mkWorld (fs world_stale)
          (stdout world_stale ++ hit_message false demo_target)
          (stderr world_stale) (trace world_stale)).
Proof.
  split; [vm_compute; reflexivity |].
  apply (empty_checksum_is_cache_hit demo_home env_broken demo_url None false
           None world_stale).
  vm_compute. reflexivity.
Defined.


Lemma capacity_error_handler_raises_example :
  Cli.main (fun s => [s])
    (fun _ => raise (FolderContentsMaximumLimitError "too many files"))
    (plain_args "https://drive.example/folder")
    (mkWorld ∅ [] [] [])
  = (Raise (TypeError "indent() got an unexpected keyword argument 'prefix'"),
     mkWorld ∅ [] [] [])
  /\ Cli.exit_status
       (Cli.main (fun s => [s])
          (fun _ => raise (FolderContentsMaximumLimitError "too many files"))
          (plain_args "https://drive.example/folder")
          (mkWorld ∅ [] [] [])).1 = 1.
Proof.
  apply (capacity_error_handler_raises (fun s => [s])
           (fun _ => raise (FolderContentsMaximumLimitError "too many files"))
           (plain_args "https://drive.example/folder") "too many files"
           (mkWorld ∅ [] [] []) (mkWorld ∅ [] [] [])).
  - reflexivity.
  - reflexivity.
  - intros c. reflexivity.
Defined.

End Scenarios.

(** ** [indent]: what the body does to a text *)
Section IndentFacts.

#[local] Arguments String.append !_ _ / : simpl nomatch.
#[local] Arguments Ascii.eqb : simpl never.

Import Indent.

Lemma concat_empty_cons (x : string) (l : list string) :
  String.concat "" (x :: l) = x +:+ String.concat "" l.
Proof.
  destruct l as [|y l]; cbn [String.concat].
  - symmetry. apply append_nil_r.
  - reflexivity.
Qed.

Lemma concat_empty_app (l1 l2 : list string) :
  String.concat "" (l1 ++ l2) = String.concat "" l1 +:+ String.concat "" l2.
Proof.
  induction l1 as [|x l1 IH].
  - reflexivity.
  - change ((x :: l1) ++ l2) with (x :: (l1 ++ l2)).
    now rewrite !concat_empty_cons, IH, append_assoc.
Qed.

Lemma append_char (cur : string) (c : ascii) (t : string) :
  (cur +:+ String c "") +:+ t = cur +:+ String c t.
Proof. now rewrite append_assoc. Qed.

(** A property of the lines of [t], proved for [t] and for [t] with one
    more character in front: the CR LF case steps over two characters. *)
Lemma splitlines_ind (P : string -> string -> Prop) :
  (forall t, (forall cur, P cur t) /\ (forall c cur, P cur (String c t))) ->
  forall cur t, P cur t.
Proof. intros H cur t. apply (H t). Qed.

Lemma splitlines_from_cons (cur : string) (c : ascii) (t' : string) :
  splitlines_from cur (String c t')
  = if Ascii.eqb c (ascii_of_nat 13) then
      match t' with
      | String c' t'' =>
          if Ascii.eqb c' (ascii_of_nat 10)
          then (cur +:+ String c (String c' "")) :: splitlines_from "" t''
          else (cur +:+ String c "") :: splitlines_from "" t'
      | "" => [cur +:+ String c ""]
      end
    else if is_linebreak c then (cur +:+ String c "") :: splitlines_from "" t'
    else splitlines_from (cur +:+ String c "") t'.
Proof. reflexivity. Qed.

Lemma append_char_not_empty (cur : string) (c : ascii) :
  String.eqb (cur +:+ String c "") "" = false.
Proof. now destruct cur. Qed.

(** ["".join(t.splitlines(True)) == t] *)
Lemma splitlines_from_concat (cur t : string) :
  String.concat "" (splitlines_from cur t) = cur +:+ t.
Proof.
  revert cur t. apply (splitlines_ind (fun cur t => _ = _)).
  induction t as [|c' t [IH1 IH2]].
  - split.
    + intros cur. cbn [splitlines_from]. rewrite append_nil_r.
      destruct (String.eqb_spec cur ""); [now subst | reflexivity].
    + intros c cur. rewrite (splitlines_from_cons cur c).
      destruct (Ascii.eqb c _); [reflexivity |].
      destruct (is_linebreak c).
      * reflexivity.
      * cbn [splitlines_from]. now rewrite append_char_not_empty.
  - split; [intros cur; apply IH2 |].
    intros c cur. rewrite (splitlines_from_cons cur c).
    destruct (Ascii.eqb c _).
    + destruct (Ascii.eqb c' _).
      * rewrite concat_empty_cons, IH1. cbn [String.append].
        now rewrite append_assoc.
      * rewrite concat_empty_cons, IH2. cbn [String.append].
        now rewrite append_char.
    + destruct (is_linebreak c).
      * rewrite concat_empty_cons, IH2. cbn [String.append].
        now rewrite append_char.
      * rewrite IH2. now rewrite append_char.
Qed.

Lemma strip_nonempty_append (a b : string) :
  strip_nonempty (a +:+ b) = strip_nonempty a || strip_nonempty b.
Proof.
  induction a as [|c a IH]; [reflexivity |].
  cbn [String.append strip_nonempty]. now rewrite IH, orb_assoc.
Qed.

Lemma not_linebreak_not_cr (c : ascii) :
  is_linebreak c = false -> Ascii.eqb c (ascii_of_nat 13) = false.
Proof.
  intros H. destruct (Ascii.eqb_spec c (ascii_of_nat 13)) as [E|]; [| reflexivity].
  rewrite E in H. discriminate H.
Qed.

(** The lines of a text are made of its characters: a text of white space
    has only lines of white space. *)
Lemma splitlines_from_blank (cur t : string) :
  strip_nonempty cur = false -> strip_nonempty t = false ->
  Forall (fun line => strip_nonempty line = false) (splitlines_from cur t).
Proof.
  revert cur t.
  apply (splitlines_ind (fun cur t => _ -> _ -> Forall _ _)).
  assert (Hone : forall cur c, strip_nonempty cur = false ->
            negb (is_space c) = false ->
            strip_nonempty (cur +:+ String c "") = false).
  { intros cur c Hcur Hc. rewrite strip_nonempty_append, Hcur.
    cbn [strip_nonempty orb]. now rewrite Hc. }
  induction t as [|c' t [IH1 IH2]].
  - split.
    + intros cur Hcur _. cbn [splitlines_from].
      destruct (String.eqb cur ""); auto.
    + intros c cur Hcur Ht. cbn [strip_nonempty] in Ht.
      apply orb_false_iff in Ht as [Hc _].
      rewrite (splitlines_from_cons cur c).
      destruct (Ascii.eqb c _); [auto |].
      destruct (is_linebreak c); [auto |].
      cbn [splitlines_from]. rewrite append_char_not_empty. auto.
  - split; [intros cur; apply IH2 |].
    intros c cur Hcur Ht. cbn [strip_nonempty] in Ht.
    apply orb_false_iff in Ht as [Hc Ht].
    pose proof Ht as Ht'. cbn [strip_nonempty] in Ht'.
    apply orb_false_iff in Ht' as [Hc' Ht'].
    rewrite (splitlines_from_cons cur c).
    destruct (Ascii.eqb c _).
    + destruct (Ascii.eqb c' _).
      * constructor; [| now apply IH1].
        rewrite strip_nonempty_append, Hcur. cbn [strip_nonempty orb].
        now rewrite Hc, Hc'.
      * constructor; [now apply Hone | now apply IH2].
    + destruct (is_linebreak c).
      * constructor; [now apply Hone | now apply IH2].
      * apply IH2; [now apply Hone | exact Ht].
Qed.

(** A line feed ends a line whatever comes before it, so the lines of
    [a + "\n" + b] are those of [a + "\n"] and then those of [b]. *)
Lemma splitlines_from_newline (cur a b : string) :
  splitlines_from cur (a +:+ Py.nl +:+ b)
  = splitlines_from cur (a +:+ Py.nl) ++ splitlines_from "" b.
Proof.
  revert cur a. apply (splitlines_ind (fun cur a => _ = _)).
  assert (Hbase : forall cur,
            splitlines_from cur (Py.nl +:+ b)
            = splitlines_from cur Py.nl ++ splitlines_from "" b)
    by reflexivity.
  induction t as [|c' t [IH1 IH2]].
  - split; [exact Hbase |].
    intros c cur. cbn [String.append].
    rewrite !(splitlines_from_cons cur c).
    destruct (Ascii.eqb c _); [reflexivity |].
    destruct (is_linebreak c).
    + change (String "010" b) with (Py.nl +:+ b). now rewrite Hbase.
    + change (String "010" b) with (Py.nl +:+ b). now rewrite Hbase.
  - split; [intros cur; apply IH2 |].
    intros c cur.
    change (String c (String c' t) +:+ Py.nl +:+ b)
      with (String c (String c' (t +:+ Py.nl +:+ b))).
    change (String c (String c' t) +:+ Py.nl)
      with (String c (String c' (t +:+ Py.nl))).
    rewrite !(splitlines_from_cons cur c).
    destruct (Ascii.eqb c _).
    + destruct (Ascii.eqb c' _).
      * now rewrite IH1.
      * change (String c' (t +:+ Py.nl +:+ b))
          with (String c' t +:+ Py.nl +:+ b).
        now rewrite IH2.
    + change (String c' (t +:+ Py.nl +:+ b))
        with (String c' t +:+ Py.nl +:+ b).
      destruct (is_linebreak c); now rewrite IH2.
Qed.

(** A text without line boundaries is one line, with or without a line
    feed at its end. *)
Lemma splitlines_from_plain (cur x : string) :
  no_linebreak x = true ->
  splitlines_from cur (x +:+ Py.nl) = [cur +:+ x +:+ Py.nl]
  /\ splitlines_from cur x
     = if String.eqb (cur +:+ x) "" then [] else [cur +:+ x].
Proof.
  revert cur. induction x as [|c x IH]; intros cur Hx.
  - split; [reflexivity |]. cbn [splitlines_from]. now rewrite append_nil_r.
  - cbn [no_linebreak] in Hx. apply andb_true_iff in Hx as [Hc Hx].
    apply negb_true_iff in Hc.
    change (String c x +:+ Py.nl) with (String c (x +:+ Py.nl)).
    rewrite !(splitlines_from_cons cur c), (not_linebreak_not_cr c Hc), Hc.
    destruct (IH (cur +:+ String c "") Hx) as [-> ->].
    now rewrite !append_char.
Qed.

End IndentFacts.

Section IndentProperties.

#[local] Arguments String.append !_ _ / : simpl nomatch.
#[local] Arguments Ascii.eqb : simpl never.

Import Indent.

(** X1: [indent(t, "")] is [t]: the lines [splitlines(True)] gives, joined
    again, are the text, whatever line boundaries it holds. *)
Theorem indent_empty_prefix (t : string) : indent t "" = t.
Proof.
  unfold indent, splitlines_keepends.
  rewrite (map_ext _ (fun line => line)).
  - rewrite map_id. apply splitlines_from_concat.
  - intros line. now destruct (strip_nonempty line).
Qed.

(** X2: a text that holds white space only is returned as it is: no line
    of it gets the prefix. *)
Theorem indent_blank_text (t p : string) :
  strip_nonempty t = false -> indent t p = t.
Proof.
  intros Ht. unfold indent, splitlines_keepends.
  pose proof (splitlines_from_blank "" t eq_refl Ht) as Hall.
  rewrite <- (splitlines_from_concat "" t) at 2.
  f_equal. induction Hall as [|line l Hline _ IH]; [reflexivity |].
  cbn [map]. now rewrite Hline, IH.
Qed.

(** X3: [indent] works line by line: the result for [a + "\n" + b] is
    the result for [a + "\n"] followed by the result for [b]. *)
Theorem indent_after_newline (a b p : string) :
  indent (a +:+ Py.nl +:+ b) p = indent (a +:+ Py.nl) p +:+ indent b p.
Proof.
  unfold indent, splitlines_keepends.
  now rewrite splitlines_from_newline, map_app, concat_empty_app.
Qed.

(** X4: on lines joined by line feeds, as the handlers of the command
    line build them, [indent] puts the prefix in front of every line that
    holds more than white space and leaves the others as they are. *)
Theorem indent_joined_lines (ls : list string) (p : string) :
  Forall (fun l => no_linebreak l = true) ls ->
  indent (String.concat Py.nl ls) p
  = String.concat Py.nl (map (prefixed p) ls).
Proof.
  intros Hls. induction Hls as [|x r Hx Hr IH]; [reflexivity |].
  destruct r as [|y r].
  - cbn [map String.concat]. unfold indent, splitlines_keepends.
    destruct (splitlines_from_plain "" x Hx) as [_ ->].
    cbn [String.append]. unfold prefixed.
    destruct x as [|c x]; reflexivity || (cbn; now rewrite append_nil_r).
  - change (String.concat Py.nl (x :: y :: r))
      with (x +:+ Py.nl +:+ String.concat Py.nl (y :: r)).
    rewrite indent_after_newline, IH.
    change (String.concat Py.nl (map (prefixed p) (x :: y :: r)))
      with (prefixed p x +:+ Py.nl
            +:+ String.concat Py.nl (map (prefixed p) (y :: r))).
    rewrite <- append_assoc. f_equal.
    unfold indent, splitlines_keepends.
    destruct (splitlines_from_plain "" x Hx) as [-> _].
    cbn [String.append map]. rewrite concat_empty_cons.
    cbn [String.concat]. rewrite append_nil_r.
    rewrite strip_nonempty_append. change (strip_nonempty Py.nl) with false.
    rewrite orb_false_r. unfold prefixed.
    destruct (strip_nonempty x); [now rewrite append_assoc | reflexivity].
Qed.

End IndentProperties.

(** ** [calculate_file_size] *)
Section FileSize.

#[local] Arguments String.append !_ _ / : simpl nomatch.
#[local] Arguments Ascii.eqb : simpl never.

Import Cli.

Lemma span_digits_spec (s : string) :
  s = (span_digits s).1 +:+ (span_digits s).2
  /\ all_digits (span_digits s).1 = true.
Proof.
  induction s as [|c s [IH1 IH2]]; [now split |].
  cbn [span_digits]. destruct (is_digit c) eqn:Hc; [| now split].
  destruct (span_digits s) as [ds rest]. cbn [fst snd] in *.
  split.
  - cbn [String.append]. now rewrite <- IH1.
  - cbn [all_digits]. now rewrite Hc, IH2.
Qed.

Lemma span_digits_append (ds rest : string) :
  all_digits ds = true -> span_digits rest = ("", rest) ->
  span_digits (ds +:+ rest) = (ds, rest).
Proof.
  intros Hds Hrest. induction ds as [|c ds IH]; [exact Hrest |].
  cbn [all_digits] in Hds. apply andb_true_iff in Hds as [Hc Hds].
  cbn [String.append span_digits]. now rewrite Hc, (IH Hds).
Qed.

Lemma span_digits_unit (u : size_unit) (rest : string) :
  span_digits (unit_text u +:+ rest) = ("", unit_text u +:+ rest).
Proof. destruct u; reflexivity. Qed.

Lemma match_unit_text (u : size_unit) (rest : string) :
  match_unit (unit_text u +:+ rest) = Some u.
Proof. destruct u; reflexivity. Qed.

Lemma match_unit_inv (s : string) (u : size_unit) :
  match_unit s = Some u -> exists rest, s = unit_text u +:+ rest.
Proof.
  unfold match_unit.
  destruct (Py.starts_with "GB" s) eqn:E1;
    [intros [= <-]; exact (starts_with_split _ _ E1) |].
  destruct (Py.starts_with "MB" s) eqn:E2;
    [intros [= <-]; exact (starts_with_split _ _ E2) |].
  destruct (Py.starts_with "KB" s) eqn:E3;
    [intros [= <-]; exact (starts_with_split _ _ E3) |].
  destruct (Py.starts_with "B" s) eqn:E4;
    [intros [= <-]; exact (starts_with_split _ _ E4) |].
  discriminate.
Qed.

(** The value of a string of digits is read from the left, base ten. *)
Lemma digits_value_from_snoc (acc : Z) (ds : string) (c : ascii) :
  digits_value_from acc (ds +:+ String c "")
  = 10 * digits_value_from acc ds + (Z.of_nat (nat_of_ascii c) - 48).
Proof.
  revert acc. induction ds as [|x ds IH]; intros acc; [reflexivity |].
  cbn [String.append digits_value_from]. apply IH.
Qed.

(** ** The decimal notation of a number *)

Lemma pretty_N_char_digit (x : N) :
  (x < 10)%N ->
  is_digit (pretty_N_char x) = true
  /\ Z.of_nat (nat_of_ascii (pretty_N_char x)) - 48 = Z.of_N x.
Proof.
  intros H.
  destruct x as [|p]; [now split |].
  do 9 (destruct p as [p|p|]; try lia; try (now split)).
Qed.

Lemma pretty_N_go_digits (x : N) (s : string) :
  pretty_N_go x s = pretty_N_go x "" +:+ s
  /\ all_digits (pretty_N_go x "") = true
  /\ digits_value (pretty_N_go x "") = Z.of_N x.
Proof.
  revert s. induction (N.lt_wf_0 x) as [x _ IH]. intros s.
  destruct (N.eq_dec x 0%N) as [-> | Hx].
  - rewrite !pretty_N_go_0. now split.
  - assert (Hpos : (0 < x)%N) by lia.
    assert (Hlt : (x `div` 10 < x)%N) by (apply N.div_lt; lia).
    assert (Hmod : (x `mod` 10 < 10)%N) by (apply N.mod_lt; lia).
    destruct (pretty_N_char_digit _ Hmod) as [Hd Hv].
    rewrite !(pretty_N_go_step x) by exact Hpos.
    destruct (IH _ Hlt (String (pretty_N_char (x `mod` 10)) s)) as [E1 _].
    destruct (IH _ Hlt (String (pretty_N_char (x `mod` 10)) ""))
      as (E2 & Hall & Hval).
    split; [| split].
    + rewrite E1, E2, append_assoc. reflexivity.
    + rewrite E2. clear -Hall Hd.
      induction (pretty_N_go (x `div` 10) "") as [|c r IHr].
      * cbn. now rewrite Hd.
      * cbn [all_digits] in Hall. apply andb_true_iff in Hall as [Hc Hr].
        cbn [String.append all_digits]. now rewrite Hc, IHr.
    + rewrite E2. unfold digits_value in *.
      rewrite digits_value_from_snoc, Hval, Hv.
      rewrite (N.div_mod x 10) at 3 by lia. lia.
Qed.

Lemma pretty_N_digits (n : N) :
  pretty n <> "" /\ all_digits (pretty n) = true
  /\ digits_value (pretty n) = Z.of_N n.
Proof.
  unfold pretty, pretty_N.
  destruct (decide (n = 0)%N) as [-> | Hn]; [now split |].
  destruct (pretty_N_go_digits n "") as (_ & Hall & Hval).
  split; [| now split].
  rewrite pretty_N_go_step by lia.
  destruct (pretty_N_go_digits (n `div` 10)
              (String (pretty_N_char (n `mod` 10)) "")) as (-> & _ & _).
  now destruct (pretty_N_go (n `div` 10) "").
Qed.

(** X5: a string that begins with one or more digits and one of the
    units GB, MB, KB, B is accepted, whatever follows the unit: the result
    is the number the digits denote times the unit's power of 1024. *)
Theorem calculate_file_size_accepts (ds : string) (u : size_unit)
    (rest : string) :
  ds <> "" -> all_digits ds = true ->
  calculate_file_size (Some (ds +:+ unit_text u +:+ rest))
  = Ok (Some (FloatMul (digits_value ds) (unit_factor u))).
Proof.
  intros Hne Hds. unfold calculate_file_size.
  rewrite (span_digits_append ds _ Hds (span_digits_unit u rest)).
  rewrite match_unit_text. destruct ds; [congruence | reflexivity].
Qed.

(** X6: every other string raises [TypeError]: a string is accepted only
    if it begins with digits and a unit, and for a string the function
    never returns [None]. *)
Theorem calculate_file_size_rejects (s : string) :
  calculate_file_size (Some s) = Raise (TypeError "")
  \/ exists ds u rest,
       s = ds +:+ unit_text u +:+ rest /\ ds <> "" /\ all_digits ds = true
       /\ calculate_file_size (Some s)
          = Ok (Some (FloatMul (digits_value ds) (unit_factor u))).
Proof.
  unfold calculate_file_size.
  destruct (span_digits_spec s) as [Hs Hall].
  destruct (span_digits s) as [ds rest]. cbn [fst snd] in *.
  destruct ds as [|c ds]; [now left |].
  destruct (match_unit rest) as [u|] eqn:Hu; [| now left].
  right. apply match_unit_inv in Hu as [rest' ->].
  exists (String c ds), u, rest'. now repeat split.
Qed.

(** X7: the decimal notation of a number [n] followed by a unit is read
    back as [n] times the unit's factor. *)
Theorem calculate_file_size_decimal (n : N) (u : size_unit) :
  calculate_file_size (Some (pretty n +:+ unit_text u))
  = Ok (Some (FloatMul (Z.of_N n) (unit_factor u))).
Proof.
  destruct (pretty_N_digits n) as (Hne & Hall & Hval).
  rewrite <- (append_nil_r (unit_text u)).
  unfold calculate_file_size.
  rewrite (span_digits_append _ _ Hall (span_digits_unit u "")).
  rewrite match_unit_text, Hval.
  destruct (pretty n); [congruence | reflexivity].
Qed.

End FileSize.

(** ** [main]: how a download ends the process *)
Section MainFacts.

(** [textwrap.wrap] *)
Variable wrap : string -> list string.
Variable custom_download : Cli.download_call -> M unit.

(** Without [--folder], [main] is the download call under the [except]
    clauses, made once the warning of [--id] is out. *)
Lemma main_download (args : Cli.Args) (w : World) :
  Cli.folder args = false ->
  exists c,
    Cli.main wrap custom_download args w
    = try_except (custom_download c) (Cli.handlers wrap) (warned args w).
Proof.
  intros Hfolder. unfold Cli.main, warned. rewrite Hfolder.
  destruct (Cli.id args).
  - eexists. reflexivity.
  - destruct (Cli.is_http_url (Cli.url_or_id args)); eexists; reflexivity.
Qed.

Lemma on_proxy_error_raises (e : exn) (w : World) :
  Cli.on_proxy_error wrap e w
  = (Raise (TypeError "indent() got an unexpected keyword argument 'prefix'"),
     w).
Proof. reflexivity. Qed.

(** X8: when the download raises [FileURLRetrievalError], [main] prints
    the message of the exception to the standard error stream, in one
    [print] call, and exits with status 1. *)
Theorem main_retrieval_error (args : Cli.Args) (msg : string) (w w1 : World) :
  Cli.folder args = false ->
  (forall c, custom_download c (warned args w)
             = (Raise (FileURLRetrievalError msg), w1)) ->
  Cli.main wrap custom_download args w
  = (Raise (SystemExit 1),
     mkWorld (fs w1) (stdout w1) (stderr w1 ++ [msg]) (trace w1)).
Proof.
  intros Hfolder Hdl.
  destruct (main_download args w Hfolder) as [c ->].
  unfold try_except. now rewrite Hdl.
Qed.

(** X9: an exception of any other class below [Exception], apart from the
    three with a clause of their own, is reported as the bare word
    "Error": [main] prints nothing of its message, and the status is 1. *)
Theorem main_other_exception (args : Cli.Args) (e : exn) (w w1 : World) :
  Cli.folder args = false ->
  is_Exception e = true -> has_own_clause e = false ->
  (forall c, custom_download c (warned args w) = (Raise e, w1)) ->
  Cli.main wrap custom_download args w
  = (Raise (SystemExit 1),
     mkWorld (fs w1) (stdout w1) (stderr w1 ++ ["Error"]) (trace w1)).
Proof.
  intros Hfolder He Hown Hdl.
  destruct (main_download args w Hfolder) as [c ->].
  unfold try_except. rewrite Hdl.
  destruct e; try discriminate He; try discriminate Hown; reflexivity.
Qed.

(** X10: the clause for [ProxyError] fails as the one for the capacity
    error does: [indent] is called with the keyword [prefix], so [main]
    ends with [TypeError] and the hint about the proxy settings is never
    written. *)
Theorem main_proxy_error (args : Cli.Args) (msg : string) (w w1 : World) :
  Cli.folder args = false ->
  (forall c, custom_download c (warned args w) = (Raise (ProxyError msg), w1)) ->
  Cli.main wrap custom_download args w
  = (Raise (TypeError "indent() got an unexpected keyword argument 'prefix'"),
     w1)
  /\ stderr (Cli.main wrap custom_download args w).2 = stderr w1.
Proof.
  intros Hfolder Hdl.
  destruct (main_download args w Hfolder) as [c ->].
  unfold try_except. rewrite Hdl. cbn [Cli.handlers].
  now rewrite on_proxy_error_raises.
Qed.

(** X11: with [--folder] no download is made, whatever the other
    arguments are: the name [download_folder] is not bound, the last
    clause catches the [NameError], and the process writes "Error" and
    exits with status 1. *)
Theorem main_folder_fails (args : Cli.Args) (w : World) :
  Cli.folder args = true ->
  Cli.main wrap custom_download args w
  = (Raise (SystemExit 1),
     mkWorld (fs w) (stdout w) (stderr w ++ ["Error"])
       (trace (warned args w))).
Proof.
  intros Hfolder. unfold Cli.main, warned. rewrite Hfolder.
  destruct (Cli.id args).
  - reflexivity.
  - destruct (Cli.is_http_url (Cli.url_or_id args)); reflexivity.
Qed.

(** X12: what does not derive from [Exception] (an interrupt, a
    [sys.exit] inside the download) passes through [main] as it is:
    nothing is written. *)
Theorem main_interrupt_passes (args : Cli.Args) (e : exn) (w w1 : World) :
  Cli.folder args = false ->
  is_Exception e = false ->
  (forall c, custom_download c (warned args w) = (Raise e, w1)) ->
  Cli.main wrap custom_download args w = (Raise e, w1).
Proof.
  intros Hfolder He Hdl.
  destruct (main_download args w Hfolder) as [c ->].
  unfold try_except. rewrite Hdl.
  destruct e; try discriminate He; reflexivity.
Qed.

(** X13: [main] returns exactly when the download call returned, and
    then leaves the world as the download left it: after a failure of the
    download the process never ends as if it had succeeded. *)
Theorem main_returns_iff (args : Cli.Args) (res : Result unit) (w w1 : World) :
  Cli.folder args = false ->
  (forall c, custom_download c (warned args w) = (res, w1)) ->
  ((Cli.main wrap custom_download args w).1 = Ok tt <-> res = Ok tt)
  /\ (res = Ok tt -> Cli.main wrap custom_download args w = (Ok tt, w1)).
Proof.
  intros Hfolder Hdl.
  destruct (main_download args w Hfolder) as [c ->].
  unfold try_except. rewrite Hdl.
  destruct res as [[]|e]; [now split |].
  split; [| discriminate].
  split; [| discriminate].
  destruct e; cbn [Cli.handlers is_Exception];
    rewrite ?on_folder_limit_raises, ?on_proxy_error_raises;
    discriminate.
Qed.

End MainFacts.

(** ** The digest and the block size *)
Section DigestFacts.

(** X14: with a positive block size up to the default, the file is read
    in blocks that are not empty, hold at most [block_size] bytes each
    and, one after the other, are the file. *)
Theorem read_blocks_bounded (fuel : nat) (n : Z) (data : list byte) :
  0 < n <= 65536 -> (length data <= fuel)%nat ->
  Forall (fun block => block <> [] /\ (length block <= Z.to_nat n)%nat)
    (read_blocks fuel n data)
  /\ concat (read_blocks fuel n data) = data.
Proof.
  intros Hn. revert data. induction fuel as [|fuel IH]; intros data Hlen.
  - destruct data; [now split | simpl in Hlen; lia].
  - cbn [read_blocks].
    replace (n <? 0) with false by (symmetry; apply Z.ltb_ge; lia).
    destruct (take (Z.to_nat n) data) as [|b block] eqn:Hblock.
    + split; [constructor |].
      destruct data as [|b data]; [reflexivity |].
      destruct (Z.to_nat n) eqn:Hk; [lia | discriminate Hblock].
    + assert (Hshort : (length (drop (length (b :: block)) data) <= fuel)%nat).
      { rewrite length_drop. destruct data as [|x data];
          [rewrite take_nil in Hblock; discriminate Hblock |].
        simpl in *. lia. }
      destruct (IH _ Hshort) as [Hall Hcat].
      split.
      * constructor; [| exact Hall]. split; [discriminate |].
        rewrite <- Hblock, length_take. lia.
      * cbn [concat]. rewrite Hcat, <- Hblock.
        rewrite length_take.
        destruct (Nat.le_ge_cases (Z.to_nat n) (length data)) as [Hle | Hge].
        -- rewrite Nat.min_l by exact Hle. apply take_drop.
        -- rewrite Nat.min_r by exact Hge.
           rewrite drop_all, take_ge by lia. apply app_nil_r.
Qed.

(** X15: the digest does not depend on the block size among those
    [file.read] accepts: any two of the default, -1 (which reads the whole
    file at once) and the positive sizes up to the default give the same
    result in every world, also where the file cannot be read. *)
Theorem calculate_md5sum_any_block_size (p : string) (b1 b2 : option Z)
    (w : World) :
  accepted_size b1 = true -> accepted_size b2 = true ->
  calculate_md5sum p b1 w = calculate_md5sum p b2 w.
Proof.
  intros H1 H2.
  apply accepted_size_not_zero in H1. apply accepted_size_not_zero in H2.
  destruct (Os.stat (fs w) p) as [[data|]|] eqn:Hs.
  - now rewrite !(calculate_md5sum_file p data) by assumption.
  - unfold calculate_md5sum, Os.read_file, bind, emit, get_fs. cbn [fs].
    now rewrite Hs.
  - unfold calculate_md5sum, Os.read_file, bind, emit, get_fs. cbn [fs].
    now rewrite Hs.
Qed.

(** X16: with block size 0 nothing is read: the digest is that of the
    empty input whatever the file holds, so that [validate_md5sum] accepts
    any file for that one checksum. *)
Theorem block_size_zero_reads_nothing (p : string) (data : list byte)
    (silent : bool) (w : World) :
  Os.stat (fs w) p = Some (File data) ->
  calculate_md5sum p (Some 0) w
  = (Ok (Md5.hexdigest []),
     mkWorld (fs w) (stdout w) (stderr w) (trace w ++ [EvOpen p]))
  /\ (validate_md5sum p (Some (Md5.hexdigest [])) silent (Some 0) w).1
     = Ok true.
Proof.
  intros Hs.
  assert (Hcalc : forall w0, fs w0 = fs w ->
            calculate_md5sum p (Some 0) w0
            = (Ok (Md5.hexdigest []),
               mkWorld (fs w0) (stdout w0) (stderr w0)
                 (trace w0 ++ [EvOpen p]))).
  { intros w0 E. unfold calculate_md5sum, Os.read_file, bind, emit, get_fs.
    cbn [fs]. rewrite E, Hs. unfold ret.
    destruct data; reflexivity. }
  split; [now apply Hcalc |].
  unfold validate_md5sum. rewrite hexdigest_length. cbn [Nat.eqb negb].
  unfold bind at 1.
  destruct silent; cbn [negb when].
  - unfold ret at 1. unfold bind. rewrite Hcalc by reflexivity.
    now rewrite bool_decide_true.
  - unfold print at 1. unfold bind. rewrite Hcalc by reflexivity.
    now rewrite bool_decide_true.
Qed.

End DigestFacts.

(** ** The cache root *)
Section ModuleInit.

Variable home : string.



End ModuleInit.

(** ** The download block when everything works *)
Section FreshDownload.

Variable home : string.
Variable env : Env.
Variables (url target : string) (silent : bool).

Abbreviation root' := (custom_cache_root home).
Abbreviation lock_path' := (Py.join (custom_cache_root home) "_dl_lock").

Lemma absent_lookup (m : gmap string node) (p : string) :
  Os.present m p = false -> p <> "" ->
  Py.all_slashes p = false /\ m !! p = None.
Proof.
  unfold Os.present, Os.stat. intros H Hn.
  apply String.eqb_neq in Hn. rewrite Hn in H.
  destruct (Py.all_slashes p); [discriminate H |].
  split; [reflexivity |]. now destruct (m !! p).
Qed.

(** The block returns when the cache root is a directory, a candidate
    name is free, the directory of the target exists once line 101 has
    run, the download writes its file and neither the lock nor the move
    fails; the file is then at the target. *)
Lemma download_and_publish_succeeds (w : World) (d : list nat)
    (new : list byte) :
  Os.present (fs w) target = false -> target <> "" ->
  target <> temp_root home d ->
  Os.is_dir (fs (after_makedirs target w)) root' = true ->
  find_temp home env (after_makedirs target w) = Some d ->
  Py.dirname target = ""
  \/ Os.is_dir (fs (after_makedirs target w)) (Py.dirname target) = true ->
  remote env url = DlReturn (Some new) ->
  lock_failure env = None -> move_failure env = None ->
  download_and_publish home env url target silent w
  = (Ok tt,
     temp_world url target silent (after_makedirs target w) (temp_root home d)
       (<[target := File new]>
          (<[temp_root home d := Dir]> (fs (after_makedirs target w))))
       [EvLock lock_path'; EvMove (temp_root home d +:+ "/dl") target]).
Proof.
  intros Habs Hne Hnr Hroot Hfind Hparent Hremote Hlock Hmove.
  pose proof (find_temp_free _ _ _ _ Hfind) as Hfree.
  destruct (absent_lookup _ _ Habs Hne) as [Hall Hlook].
  set (w1 := after_makedirs target w) in *.
  assert (Hntf : target <> temp_root home d +:+ "/dl").
  { intros E. pose proof (target_not_below_temp home target w d Hfree) as Hu.
    rewrite E in Hu.
    change "/dl" with ("/" +:+ "dl") in Hu.
    rewrite <- append_assoc, starts_with_append in Hu. discriminate Hu. }
  set (m3 := <[temp_root home d +:+ "/dl" := File new]>
               (<[temp_root home d := Dir]> (fs w1))).
  assert (Hm3 : m3 !! target = None).
  { unfold m3. rewrite !lookup_insert_ne by congruence.
    unfold w1. now rewrite after_makedirs_lookup. }
  assert (Hdir : Os.is_dir m3 target = false).
  { unfold Os.is_dir, Os.stat. rewrite Hall, Hm3.
    now destruct (String.eqb target ""). }
  assert (Hpar : String.eqb (Py.dirname target) ""
                 || Os.is_dir m3 (Py.dirname target) = true).
  { destruct Hparent as [-> | Hp]; [reflexivity |].
    apply orb_true_iff. right.
    assert (Hpres : Os.present (fs w1) (Py.dirname target) = true).
    { unfold Os.present. unfold Os.is_dir in Hp.
      now destruct (Os.stat (fs w1) (Py.dirname target)). }
    pose proof (present_not_under home _ d _ Hfree Hpres) as Hout.
    unfold Os.is_dir in *. unfold m3.
    rewrite !stat_insert_ne; [exact Hp | |].
    - intros E. rewrite E, at_or_under_refl in Hout. discriminate Hout.
    - intros E. rewrite E in Hout.
      rewrite temp_file_under_root in Hout. discriminate Hout. }
  unfold download_and_publish. unfold bind at 1. rewrite makedirs_pass.
  unfold bind at 1. rewrite mkdtemp_eq. fold w1. rewrite Hroot, Hfind.
  rewrite temp_file_path.
  unfold try_except. unfold bind at 1. rewrite progress_step.
  unfold bind at 1. unfold Ext.custom_download. unfold bind at 1.
  unfold emit at 1. cbn [fs stdout stderr trace]. rewrite Hremote.
  unfold set_fs at 1. cbn [fs stdout stderr trace].
  unfold Ext.with_lock. rewrite Hlock.
  unfold bind at 1, emit at 1. cbn [fs stdout stderr trace].
  unfold Ext.move, bind at 1, get_fs at 1. cbn [fs]. rewrite Hmove.
  rewrite (temp_stat_file home d).
  rewrite lookup_insert_eq. fold m3. rewrite Hdir. cbn [andb].
  apply String.eqb_neq in Hne. rewrite Hne, Hpar.
  unfold bind, set_fs, emit. cbn [fs stdout stderr trace].
  assert (Hdel : delete (temp_root home d +:+ "/dl") m3
                 = <[temp_root home d := Dir]> (fs w1)).
  { unfold m3. apply delete_insert_id.
    rewrite lookup_insert_ne by (symmetry; apply temp_file_not_root).
    apply (free_lookup _ _ _ Hfree (temp_file_under_root home d)). }
  rewrite Hdel, <- !app_assoc. reflexivity.
Qed.

End FreshDownload.

(** ** More on the whole call *)
Section CallProperties.

Variable home : string.

(** X18: an existing file whose digest is the expected checksum is a
    cache hit: the path is returned after the file was read once, the file
    system is as before, and neither the download nor the callback runs
    (the result is the same for every environment and callback). *)
Theorem verified_file_is_cache_hit (env : Env) (url : string)
    (fp : option string) (expected : string) (old : list byte)
    (silent : bool) (pp : option callback) (w : World) :
  Os.stat (fs w) (target_path home url fp) = Some (File old) ->
  Md5.hexdigest old = expected ->
  cached_custom_download home env url fp (Some expected) silent pp w
  = (Ok (target_path home url fp),
     mkWorld (fs w)
       (stdout w ++ calculated silent (target_path home url fp))
       (stderr w) (trace w ++ [EvOpen (target_path home url fp)])).
Proof.
  intros Hs Hd.
  assert (Hlen : String.length expected = 32%nat)
    by (rewrite <- Hd; apply hexdigest_length).
  unfold cached_custom_download, bind.
  rewrite (check_existing_verify _ _ old) by assumption.
  destruct (decide (Md5.hexdigest old = expected)); [reflexivity | contradiction].
Qed.

(** X19: a directory at the target path and a checksum of 32 characters:
    reading the directory raises [OSError], which the clause for the
    mismatch of an existing file does not catch. The call ends with it and
    nothing is downloaded. *)
Theorem directory_target_raises (env : Env) (url : string)
    (fp : option string) (expected : string) (silent : bool)
    (pp : option callback) (w : World) :
  Os.stat (fs w) (target_path home url fp) = Some Dir ->
  String.length expected = 32%nat ->
  exists msg,
    cached_custom_download home env url fp (Some expected) silent pp w
    = (Raise (OSError msg),
       mkWorld (fs w)
         (stdout w ++ calculating silent (target_path home url fp))
         (stderr w) (trace w ++ [EvOpen (target_path home url fp)])).
Proof.
  intros Hs Hlen.
  destruct (check_existing_not_file (target_path home url fp) expected silent
              w Hs Hlen) as [msg E].
  exists msg. unfold cached_custom_download, bind. now rewrite E.
Qed.

Lemma malformed_on_existing (env : Env) (url : string) (fp : option string)
    (expected : string) (silent : bool) (pp : option callback) (w : World) :
  Os.present (fs w) (target_path home url fp) = true ->
  Py.truthy (Some expected) = true -> String.length expected <> 32%nat ->
  cached_custom_download home env url fp (Some expected) silent pp w
  = (Raise (ValueError ("Expected MD5 must be 32 characters long: "
                        +:+ expected)), w).
Proof.
  intros Hp Ht Hlen. unfold cached_custom_download, bind.
  now rewrite check_existing_bad_length.
Qed.

(** X20: the expected checksum is looked at only when there is a file to
    verify. With a target that does not exist yet and a checksum that is
    not of 32 characters, the file is downloaded and published first; the
    call then raises [ValueError] and the file stays at the target, so
    that every later call with that checksum raises at once, without a
    download. The target is a normalised path that names a file, and line
    101 has at most one directory to make. *)
Theorem malformed_checksum_checked_after_download (env : Env) (url : string)
    (fp : option string) (expected : string) (silent : bool)
    (pp : option callback) (w w2 : World) :
  proper_target (target_path home url fp) = true ->
  directory_ready (fs w) (target_path home url fp) = true ->
  Os.present (fs w) (target_path home url fp) = false ->
  Py.truthy (Some expected) = true -> String.length expected <> 32%nat ->
  download_and_publish home env url (target_path home url fp) silent w
  = (Ok tt, w2) ->
  cached_custom_download home env url fp (Some expected) silent pp w
  = (Raise (ValueError ("Expected MD5 must be 32 characters long: "
                        +:+ expected)), w2)
  /\ (exists new, remote env url = DlReturn (Some new)
                  /\ Os.stat (fs w2) (target_path home url fp)
                     = Some (File new))
  /\ forall env' silent' pp',
       cached_custom_download home env' url fp (Some expected) silent' pp' w2
       = (Raise (ValueError ("Expected MD5 must be 32 characters long: "
                             +:+ expected)), w2).
Proof.
  intros _ _ Habs Ht Hlen Hd.
  set (target := target_path home url fp) in *.
  assert (Hc : check_existing target (Some expected) silent w = (Ok false, w))
    by now apply check_existing_absent.
  assert (Hnd : Os.stat (fs w) target <> Some Dir).
  { unfold Os.present in Habs. now destruct (Os.stat (fs w) target). }
  split; [| split].
  - rewrite (cached_after_publish home env url fp (Some expected) silent pp
               w w w2 Hc Hd).
    fold target. rewrite verify_and_postprocess_eq. unfold verify_fresh.
    rewrite Ht. cbn [when]. unfold bind.
    rewrite validate_md5sum_bad_length; [reflexivity |].
    now intros s [= <-].
  - apply download_and_publish_ok in Hd as (d & new & real & Hpub).
    destruct (published_onto_target _ _ _ _ _ _ _ _ _ _ Hnd Hpub)
      as (_ & _ & Hstat).
    exists new. split; [apply Hpub | exact Hstat].
  - intros env' silent' pp'. apply malformed_on_existing; auto.
    apply download_and_publish_ok in Hd as (d & new & real & Hpub).
    destruct (published_onto_target _ _ _ _ _ _ _ _ _ _ Hnd Hpub)
      as (_ & _ & Hstat).
    apply present_stat. eauto.
Qed.

(** X21: a fresh file whose digest differs from the expected checksum
    makes the call raise, and nothing is taken back: the file that failed
    the verification stays at the target path, the temporary directory
    stays too, and no directory was removed. The target is a normalised
    path that names a file, and line 101 has at most one directory to
    make. *)
Theorem fresh_mismatch_keeps_file (env : Env) (url : string)
    (fp : option string) (expected : string) (new : list byte)
    (silent : bool) (pp : option callback) (w wc w2 : World) :
  proper_target (target_path home url fp) = true ->
  directory_ready (fs w) (target_path home url fp) = true ->
  String.length expected = 32%nat ->
  check_existing (target_path home url fp) (Some expected) silent w
  = (Ok false, wc) ->
  download_and_publish home env url (target_path home url fp) silent wc
  = (Ok tt, w2) ->
  remote env url = DlReturn (Some new) ->
  Md5.hexdigest new <> expected ->
  exists w' d,
    cached_custom_download home env url fp (Some expected) silent pp w
    = (Raise (AssertionError
                (mismatch_message (Md5.hexdigest new) (Some expected))), w')
    /\ Os.stat (fs w') (target_path home url fp) = Some (File new)
    /\ In (EvMkdtemp (temp_root home d)) (new_events w w')
    /\ fs w' !! temp_root home d = Some Dir
    /\ forall q, ~ In (EvRmtree q) (new_events w w').
Proof.
  intros _ _ Hlen Hc Hd Hremote Hne.
  set (target := target_path home url fp) in *.
  pose proof (check_false_not_dir _ _ _ _ _ Hc) as [_ Hnd].
  rewrite (cached_after_publish home env url fp (Some expected) silent pp
             w wc w2 Hc Hd).
  fold target.
  apply check_existing_frame in Hc as (_ & cevs & Htr & Hcevs).
  apply download_and_publish_ok in Hd as (d & new' & real & Hpub).
  destruct (published_onto_target _ _ _ _ _ _ _ _ _ _ Hnd Hpub)
    as (-> & Hout & Hstat).
  destruct Hpub as (Hfind & Hremote' & _ & _ & _ & Hw2).
  rewrite Hremote in Hremote'. injection Hremote' as <-.
  rewrite verify_and_postprocess_eq. unfold verify_fresh.
  rewrite (truthy_length _ Hlen). cbn [when]. unfold bind.
  rewrite (validate_md5sum_file target new) by (auto; discriminate).
  destruct (decide (Md5.hexdigest new = expected)) as [E|_]; [contradiction |].
  eexists _, d. split; [reflexivity |]. cbn [fs].
  split; [exact Hstat |].
  assert (Hnew : new_events w
                   (mkWorld (fs w2) (stdout w2 ++ calculating silent target)
                      (stderr w2) (trace w2 ++ [EvOpen target]))
                 = cevs ++ makedirs_events target wc
                   ++ [EvMkdtemp (temp_root home d);
                       EvFetch url (temp_root home d +:+ "/dl");
                       EvLock (Py.join (custom_cache_root home) "_dl_lock");
                       EvMove (temp_root home d +:+ "/dl") target]
                   ++ [EvOpen target]).
  { apply new_events_app. cbn [trace]. rewrite Hw2. cbn [trace temp_world].
    rewrite after_makedirs_trace, Htr, <- !app_assoc. reflexivity. }
  rewrite Hnew. split; [| split].
  - apply in_or_app. right. apply in_or_app. right. now left.
  - rewrite Hw2. cbn [fs temp_world].
    rewrite lookup_insert_ne.
    + apply lookup_insert_eq.
    + intros E. rewrite E, at_or_under_refl in Hout. discriminate Hout.
  - intros q Hin.
    apply in_app_or in Hin as [Hin | Hin].
    { destruct Hcevs as [-> | ->]; simpl in Hin; intuition discriminate. }
    apply in_app_or in Hin as [Hin | Hin];
      [apply In_makedirs_events in Hin; discriminate Hin |].
    simpl in Hin. intuition discriminate.
Qed.

(** X22: the callback is not run when the call fails: if the call without
    a callback raises, the call with any callback raises the same
    exception and leaves the same world. *)
Theorem callback_not_run_on_failure (env : Env) (url : string)
    (fp md5 : option string) (silent : bool) (pp : option callback)
    (w w' : World) (e : exn) :
  cached_custom_download home env url fp md5 silent None w = (Raise e, w') ->
  cached_custom_download home env url fp md5 silent pp w = (Raise e, w').
Proof.
  intros H. apply cached_custom_download_cases in H.
  set (target := target_path home url fp) in *.
  unfold cached_custom_download. fold target. unfold bind at 1.
  destruct H as [[_ Hr] | [(e0 & Hc & Hr) | (wc & Hc & Hd)]].
  - discriminate Hr.
  - rewrite Hc. congruence.
  - rewrite Hc. unfold bind at 1.
    destruct Hd as [(e0 & Hd & Hr) | (w2 & Hd & Hv)].
    + rewrite Hd. congruence.
    + rewrite Hd. rewrite verify_and_postprocess_eq in Hv |- *.
      destruct (verify_fresh target md5 silent w2) as [[[]|e1] wv].
      * cbn [postprocess_step] in Hv. unfold ret in Hv. discriminate Hv.
      * exact Hv.
Qed.

(** X23: after a fresh download the callback is called once, with the
    path the call returns, on the file system the call leaves without a
    callback; what it raises leaves the call, and the published file is
    not taken back. *)
Theorem callback_runs_after_fresh_download (env : Env) (url : string)
    (fp md5 : option string) (silent : bool) (f : callback)
    (w w' : World) (p src dst : string) :
  cached_custom_download home env url fp md5 silent None w = (Ok p, w') ->
  In (EvMove src dst) (new_events w w') ->
  p = target_path home url fp
  /\ cached_custom_download home env url fp md5 silent (Some f) w
     = match f p (fs w') with
       | (Ok _, m) => (Ok p, mkWorld m (stdout w') (stderr w') (trace w'))
       | (Raise e, m) => (Raise e, mkWorld m (stdout w') (stderr w') (trace w'))
       end.
Proof.
  intros H Hmv. apply cached_custom_download_cases in H.
  set (target := target_path home url fp) in *.
  destruct H as [[Hc Hr] | [(e0 & _ & Hr) | (wc & Hc & Hd)]];
    [| discriminate Hr |].
  { exfalso. apply check_existing_frame in Hc as (_ & evs & Htr & Hevs).
    rewrite (new_events_app _ _ _ Htr) in Hmv.
    destruct Hevs as [-> | ->]; simpl in Hmv; intuition discriminate. }
  destruct Hd as [(e0 & _ & Hr) | (w2 & Hd & Hv)]; [discriminate Hr |].
  rewrite (cached_after_publish home env url fp md5 silent (Some f)
             w wc w2 Hc Hd).
  fold target. rewrite verify_and_postprocess_eq in Hv |- *.
  destruct (verify_fresh target md5 silent w2) as [[[]|e1] wv];
    [| discriminate Hv].
  cbn [postprocess_step] in Hv |- *. unfold ret in Hv.
  injection Hv as <- <-. split; [reflexivity |].
  unfold run_callback. destruct (f target (fs wv)) as [[[]|e] m]; reflexivity.
Qed.

(** X24: an interrupt during the download or the wait for the lock is not
    an [Exception]: the handler of lines 119-121 does not run, so the
    temporary directory the call made is still there afterwards and no
    directory was removed. *)
Theorem interrupt_leaves_temp_dir (env : Env) (url : string)
    (fp md5 : option string) (silent : bool) (pp : option callback)
    (w w' : World) (e : exn) (r : string) :
  cached_custom_download home env url fp md5 silent pp w = (Raise e, w') ->
  is_Exception e = false ->
  In (EvMkdtemp r) (new_events w w') ->
  (forall src dst, ~ In (EvMove src dst) (new_events w w')) ->
  fs w' !! r = Some Dir
  /\ forall q, ~ In (EvRmtree q) (new_events w w').
Proof.
  intros H He Hmk Hnomove. apply cached_custom_download_cases in H.
  set (target := target_path home url fp) in *.
  destruct H as [[_ Hr] | [(e0 & Hc & Hr) | (wc & Hc & Hd)]];
    [discriminate Hr | |].
  { exfalso. apply check_existing_frame in Hc as (_ & evs & Htr & Hevs).
    rewrite (new_events_app _ _ _ Htr) in Hmk.
    destruct Hevs as [-> | ->]; simpl in Hmk; intuition discriminate. }
  apply check_existing_frame in Hc as (_ & cevs & Htr & Hcevs).
  assert (Hc_no : forall ev, In ev cevs -> ev = EvOpen target)
    by (intros ev; destruct Hcevs as [-> | ->]; simpl; intuition).
  destruct Hd as [(e0 & Hd & Hr) | (w2 & Hd & Hv)].
  - injection Hr as <-.
    apply download_and_publish_raise in Hd
      as [[-> _] | [(d & evs & Hcl) | [(d & m & evs & Hint)
                                      | (d & new & part & real & Hov)]]].
    + exfalso.
      rewrite (new_events_app w _ (cevs ++ makedirs_events target wc)) in Hmk
        by (rewrite after_makedirs_trace, Htr, <- app_assoc; reflexivity).
      apply in_app_or in Hmk as [Hmk | Hmk];
        [apply Hc_no in Hmk; discriminate Hmk |].
      apply In_makedirs_events in Hmk. discriminate Hmk.
    + destruct Hcl as (_ & He' & _). congruence.
    + destruct Hint as (Hfind & _ & Hm & Hevs & ->).
      assert (Hnew : new_events w
                (temp_world url target silent (after_makedirs target wc)
                   (temp_root home d) m evs)
              = cevs ++ makedirs_events target wc
                ++ [EvMkdtemp (temp_root home d);
                    EvFetch url (temp_root home d +:+ "/dl")] ++ evs).
      { apply new_events_app. cbn [trace temp_world].
        rewrite after_makedirs_trace, Htr, <- !app_assoc. reflexivity. }
      rewrite Hnew in Hmk |- *.
      assert (Hev_no : forall ev, In ev evs ->
                ev = EvLock (Py.join (custom_cache_root home) "_dl_lock"))
        by (intros ev; destruct Hevs as [-> | ->]; simpl; intuition).
      assert (Hr : r = temp_root home d).
      { apply in_app_or in Hmk as [Hmk | Hmk];
          [apply Hc_no in Hmk; discriminate Hmk |].
        apply in_app_or in Hmk as [Hmk | Hmk];
          [apply In_makedirs_events in Hmk; discriminate Hmk |].
        simpl in Hmk. destruct Hmk as [Hmk | [Hmk | Hmk]];
          [now injection Hmk | discriminate Hmk |].
        apply Hev_no in Hmk. discriminate Hmk. }
      subst r. split; [exact Hm |].
      intros q Hin.
      apply in_app_or in Hin as [Hin | Hin];
        [apply Hc_no in Hin; discriminate Hin |].
      apply in_app_or in Hin as [Hin | Hin];
        [apply In_makedirs_events in Hin; discriminate Hin |].
      simpl in Hin. destruct Hin as [Hin | [Hin | Hin]];
        try discriminate Hin.
      apply Hev_no in Hin. discriminate Hin.
    + destruct Hov as (_ & He' & _). congruence.
  - exfalso.
    apply download_and_publish_ok in Hd as (d & new & real & Hpub).
    destruct Hpub as (_ & _ & _ & _ & _ & Hw2).
    destruct (verify_and_postprocess_trace _ _ _ _ _ _ _ Hv)
      as (vevs & Hvtr & _).
    apply (Hnomove (temp_root home d +:+ "/dl") real).
    rewrite (new_events_app w w'
               (cevs ++ makedirs_events target wc
                ++ [EvMkdtemp (temp_root home d);
                    EvFetch url (temp_root home d +:+ "/dl");
                    EvLock (Py.join (custom_cache_root home) "_dl_lock");
                    EvMove (temp_root home d +:+ "/dl") real] ++ vevs)).
    + apply in_or_app. right. apply in_or_app. right.
      simpl. right. right. right. now left.
    + rewrite Hvtr, Hw2. cbn [trace temp_world].
      rewrite after_makedirs_trace, Htr, <- !app_assoc. reflexivity.
Qed.


End CallProperties.

(** ** A download into a cold cache *)
Section ColdCache.

Variable home : string.

Lemma derive_file_path_eq (url : string) :
  derive_file_path home url = custom_cache_root home +:+ "/" +:+ mangle url.
Proof.
  unfold derive_file_path. rewrite replace_chain.
  apply join_cache_root, mangle_no_slash.
Qed.

(** A target that does not exist, everything in place and nothing that
    fails: the call returns, and what the file system then holds. *)
Lemma fresh_download_run (env : Env) (url : string)
    (fp md5 : option string) (silent : bool) (w : World) (d : list nat)
    (new : list byte) :
  let target := target_path home url fp in
  let w1 := after_makedirs target w in
  Os.present (fs w) target = false -> target <> "" ->
  target <> temp_root home d ->
  Os.is_dir (fs w1) (custom_cache_root home) = true ->
  find_temp home env w1 = Some d ->
  Py.dirname target = "" \/ Os.is_dir (fs w1) (Py.dirname target) = true ->
  remote env url = DlReturn (Some new) ->
  lock_failure env = None -> move_failure env = None ->
  Py.truthy md5 = false \/ md5 = Some (Md5.hexdigest new) ->
  exists w',
    cached_custom_download home env url fp md5 silent None w = (Ok target, w')
    /\ fs w' = <[target := File new]> (<[temp_root home d := Dir]> (fs w1))
    /\ fetches (new_events w w') = 1%nat.
Proof.
  intros target w1 Habs Hne Hnr Hroot Hfind Hparent Hremote Hlock Hmove Hmd5.
  pose proof (download_and_publish_succeeds home env url target silent w d new
                Habs Hne Hnr Hroot Hfind Hparent Hremote Hlock Hmove) as Hd.
  fold w1 in Hd.
  pose proof (check_existing_absent target md5 silent w Habs) as Hc.
  rewrite (cached_after_publish home env url fp md5 silent None w w _ Hc Hd).
  fold target. rewrite verify_and_postprocess_eq. unfold verify_fresh.
  assert (Hmk : fetches (makedirs_events target w) = 0%nat)
    by (unfold makedirs_events; now destruct (_ || _)).
  destruct Hmd5 as [Hf | ->].
  - rewrite Hf. cbn [when postprocess_step]. unfold ret.
    eexists. split; [reflexivity |]. split; [reflexivity |].
    rewrite (new_events_app w _
               (makedirs_events target w
                ++ [EvMkdtemp (temp_root home d);
                    EvFetch url (temp_root home d +:+ "/dl");
                    EvLock (Py.join (custom_cache_root home) "_dl_lock");
                    EvMove (temp_root home d +:+ "/dl") target])).
    + unfold fetches in *. rewrite List.filter_app, length_app, Hmk.
      reflexivity.
    + cbn [trace temp_world]. unfold w1.
      now rewrite after_makedirs_trace, <- !app_assoc.
  - rewrite (truthy_length _ (hexdigest_length new)). cbn [when].
    unfold bind.
    rewrite (validate_md5sum_file target new);
      [ | | discriminate | apply hexdigest_length ].
    2:{ cbn [fs temp_world]. apply stat_insert_eq; [exact Hne |].
        now destruct (absent_lookup _ _ Habs Hne). }
    destruct (decide (Md5.hexdigest new = Md5.hexdigest new)); [| contradiction].
    cbn [postprocess_step]. unfold ret.
    eexists. split; [reflexivity |]. split; [reflexivity |].
    rewrite (new_events_app w _
               (makedirs_events target w
                ++ [EvMkdtemp (temp_root home d);
                    EvFetch url (temp_root home d +:+ "/dl");
                    EvLock (Py.join (custom_cache_root home) "_dl_lock");
                    EvMove (temp_root home d +:+ "/dl") target;
                    EvOpen target])).
    + unfold fetches in *. rewrite List.filter_app, length_app, Hmk.
      reflexivity.
    + cbn [trace temp_world]. unfold w1.
      now rewrite after_makedirs_trace, <- !app_assoc.
Qed.

Lemma proper_target_not_empty (p : string) :
  proper_target p = true -> p <> "".
Proof. intros H ->. discriminate H. Qed.

Lemma after_makedirs_id (target : string) (w : World) :
  Py.dirname target = "" \/ Os.is_dir (fs w) (Py.dirname target) = true ->
  after_makedirs target w = w.
Proof.
  intros [E | E]; unfold after_makedirs.
  - now rewrite E.
  - unfold Os.present. unfold Os.is_dir in E.
    destruct (Os.stat (fs w) (Py.dirname target)); [| discriminate E].
    now rewrite orb_true_r.
Qed.

(** X26: the call succeeds when nothing stands in its way. The target is
    a normalised path that names a file and does not exist; the cache root
    and the directory of the target are there; a candidate name is free;
    the download writes [new]; neither the lock nor the move fails; the
    checksum is absent or the digest of [new]. Then the call returns the
    target path after exactly one fetch, the target holds [new], the
    temporary directory is still there, and every other path, the lock
    file apart, holds what it held. *)
Theorem fresh_download_succeeds (env : Env) (url : string)
    (fp md5 : option string) (silent : bool) (w : World) (d : list nat)
    (new : list byte) :
  let target := target_path home url fp in
  let r := temp_root home d in
  proper_target target = true ->
  Os.present (fs w) target = false ->
  target <> r ->
  Os.is_dir (fs w) (custom_cache_root home) = true ->
  Py.dirname target = "" \/ Os.is_dir (fs w) (Py.dirname target) = true ->
  find_temp home env w = Some d ->
  remote env url = DlReturn (Some new) ->
  lock_failure env = None -> move_failure env = None ->
  Py.truthy md5 = false \/ md5 = Some (Md5.hexdigest new) ->
  exists w',
    cached_custom_download home env url fp md5 silent None w = (Ok target, w')
    /\ Os.stat (fs w') target = Some (File new)
    /\ fs w' !! r = Some Dir
    /\ (forall p,
          p <> target -> p <> r ->
          p <> Py.join (custom_cache_root home) "_dl_lock" ->
          fs w' !! p = fs w !! p)
    /\ fetches (new_events w w') = 1%nat.
Proof.
  intros target r Hproper Habs Hnr Hroot Hparent Hfind Hremote Hlock Hmove
    Hmd5.
  subst target r.
  pose proof (proper_target_not_empty _ Hproper) as Hne.
  pose proof (after_makedirs_id _ w Hparent) as Hid.
  destruct (fresh_download_run env url fp md5 silent w d new)
    as (w' & Hcall & Hfs & Hfetch); rewrite ?Hid; auto.
  rewrite Hid in Hfs.
  exists w'. split; [exact Hcall |]. rewrite Hfs.
  split; [| split; [| split; [| exact Hfetch]]].
  - apply stat_insert_eq; [exact Hne |].
    now destruct (absent_lookup _ _ Habs Hne).
  - rewrite lookup_insert_ne by exact Hnr. apply lookup_insert_eq.
  - intros p Hp Hr _. now rewrite !lookup_insert_ne by congruence.
Qed.

End ColdCache.

(** ** What [silent] changes *)
Section Silent.

Lemma same_effects_refl (w : World) : same_effects w w.
Proof. now split. Qed.

Lemma alike_ret {A} (a : A) : alike (ret a) (ret a).
Proof. intros w1 w2 H. now split. Qed.

Lemma alike_raise {A} (e : exn) : alike (raise e : M A) (raise e).
Proof. intros w1 w2 H. now split. Qed.

Lemma alike_bind {A B} (c1 c2 : M A) (k1 k2 : A -> M B) :
  alike c1 c2 -> (forall a, alike (k1 a) (k2 a)) ->
  alike (bind c1 k1) (bind c2 k2).
Proof.
  intros Hc Hk w1 w2 H. unfold bind.
  destruct (Hc w1 w2 H) as [Hr Hw].
  destruct (c1 w1) as [[a1|e1] w1'], (c2 w2) as [[a2|e2] w2'];
    cbn [fst snd] in *; try discriminate Hr.
  - injection Hr as <-. now apply Hk.
  - injection Hr as <-. now split.
Qed.

Lemma alike_try {A} (c1 c2 : M A) (h1 h2 : exn -> option (M A)) :
  alike c1 c2 ->
  (forall e, match h1 e, h2 e with
             | Some k1, Some k2 => alike k1 k2
             | None, None => True
             | _, _ => False
             end) ->
  alike (try_except c1 h1) (try_except c2 h2).
Proof.
  intros Hc Hh w1 w2 H. unfold try_except.
  destruct (Hc w1 w2 H) as [Hr Hw].
  destruct (c1 w1) as [[a1|e1] w1'], (c2 w2) as [[a2|e2] w2'];
    cbn [fst snd] in *; try discriminate Hr.
  - now split.
  - injection Hr as <-. specialize (Hh e1).
    destruct (h1 e1), (h2 e1); try contradiction.
    + now apply Hh.
    + now split.
Qed.

(** Printing, or not, is the same to the file system and the trace. *)
Lemma alike_print (b1 b2 : bool) (s1 s2 : string) :
  alike (when b1 (print s1)) (when b2 (print s2)).
Proof. intros w1 w2 [Hf Ht]. destruct b1, b2; now repeat split. Qed.

Lemma alike_print_err (b1 b2 : bool) (s1 s2 : string) :
  alike (when b1 (print_err s1)) (when b2 (print_err s2)).
Proof. intros w1 w2 [Hf Ht]. destruct b1, b2; now repeat split. Qed.

Lemma alike_warn (s : string) : alike (print_err s) (print_err s).
Proof. intros w1 w2 [Hf Ht]. now repeat split. Qed.

Lemma alike_emit (e : event) : alike (emit e) (emit e).
Proof.
  intros w1 w2 [Hf Ht]. repeat split; cbn; [exact Hf | now rewrite Ht].
Qed.

Lemma alike_set_fs (f : gmap string node -> gmap string node) :
  alike (set_fs f) (set_fs f).
Proof.
  intros w1 w2 [Hf Ht]. repeat split; cbn; [now rewrite Hf | exact Ht].
Qed.

Lemma alike_get_fs : alike get_fs get_fs.
Proof. intros w1 w2 [Hf Ht]. repeat split; cbn; now rewrite ?Hf. Qed.

Lemma alike_path_exists (p : string) :
  alike (Os.path_exists p) (Os.path_exists p).
Proof. intros w1 w2 [Hf Ht]. repeat split; cbn; now rewrite ?Hf. Qed.

Lemma alike_run_callback (f : callback) (p : string) :
  alike (run_callback f p) (run_callback f p).
Proof.
  intros w1 w2 [Hf Ht]. unfold run_callback. rewrite Hf.
  destruct (f p (fs w2)) as [r m]. now repeat split.
Qed.

Create HintDb alike.
#[local] Hint Resolve alike_ret alike_raise alike_print alike_print_err
  alike_warn alike_emit alike_set_fs alike_get_fs alike_path_exists
  alike_run_callback : alike.

Ltac alike_step :=
  first
    [ apply alike_bind; [| intros ?]
    | apply alike_try; [| intros []; cbn; auto with alike]
    | progress auto with alike ].

Lemma alike_read_file (p : string) : alike (Os.read_file p) (Os.read_file p).
Proof.
  unfold Os.read_file. repeat alike_step.
  destruct (Os.stat _ p) as [[|]|]; auto with alike.
Qed.

Lemma alike_calculate_md5sum (p : string) (b : option Z) :
  alike (calculate_md5sum p b) (calculate_md5sum p b).
Proof.
  unfold calculate_md5sum.
  apply alike_bind; [apply alike_read_file | auto with alike].
Qed.

Lemma alike_validate_md5sum (p : string) (md5 : option string)
    (s1 s2 : bool) (b : option Z) :
  alike (validate_md5sum p md5 s1 b) (validate_md5sum p md5 s2 b).
Proof.
  unfold validate_md5sum.
  destruct (negb _); [auto with alike |].
  apply alike_bind; [auto with alike | intros _].
  apply alike_bind; [apply alike_calculate_md5sum | intros actual].
  destruct (bool_decide _); repeat alike_step.
Qed.

Lemma alike_check_existing (p : string) (md5 : option string) (s1 s2 : bool) :
  alike (check_existing p md5 s1) (check_existing p md5 s2).
Proof.
  unfold check_existing.
  apply alike_bind; [auto with alike | intros ex].
  destruct (ex && negb (Py.truthy md5)); [repeat alike_step |].
  destruct (ex && Py.truthy md5); [| auto with alike].
  apply alike_try.
  - apply alike_bind; [apply alike_validate_md5sum | auto with alike].
  - intros []; cbn; auto. repeat alike_step.
Qed.

Lemma alike_makedirs (d : string) : alike (Os.makedirs d) (Os.makedirs d).
Proof.
  unfold Os.makedirs. apply alike_bind; [auto with alike | intros m].
  destruct (String.eqb d ""); [auto with alike |].
  destruct (Os.present m d); repeat alike_step.
Qed.

Lemma alike_rmtree (p : string) : alike (Os.rmtree p) (Os.rmtree p).
Proof.
  unfold Os.rmtree. apply alike_bind; [auto with alike | intros m].
  destruct (Os.is_dir m p); repeat alike_step.
Qed.

Lemma alike_mkdtemp (env : Env) (root : string) :
  alike (Ext.mkdtemp env root) (Ext.mkdtemp env root).
Proof.
  unfold Ext.mkdtemp. apply alike_bind; [auto with alike | intros m].
  destruct (Os.is_dir m root); [| auto with alike].
  destruct (List.find _ _); repeat alike_step.
Qed.

Lemma alike_custom_download (env : Env) (url dst : string) (s1 s2 : bool) :
  alike (Ext.custom_download env url dst s1)
    (Ext.custom_download env url dst s2).
Proof.
  unfold Ext.custom_download. apply alike_bind; [auto with alike | intros _].
  destruct (remote env url) as [[d|]|e [d|]]; repeat alike_step.
Qed.

Lemma alike_move (env : Env) (src dst : string) :
  alike (Ext.move env src dst) (Ext.move env src dst).
Proof.
  unfold Ext.move. apply alike_bind; [auto with alike | intros m].
  destruct (move_failure env) as [[e [part|]]|]; [| auto with alike |];
    (destruct (Os.stat m src) as [[d|]|]; auto with alike;
     destruct (_ && _); [auto with alike |];
     destruct (String.eqb _ ""); [auto with alike |];
     destruct (_ || _); repeat alike_step).
Qed.

Lemma alike_download_and_publish (home : string) (env : Env)
    (url p : string) (s1 s2 : bool) :
  alike (download_and_publish home env url p s1)
    (download_and_publish home env url p s2).
Proof.
  unfold download_and_publish.
  apply alike_bind; [| intros _].
  { apply alike_try; [apply alike_makedirs |].
    intros []; cbn; auto with alike. }
  apply alike_bind; [apply alike_mkdtemp | intros r].
  apply alike_try.
  - apply alike_bind; [auto with alike | intros _].
    apply alike_bind; [apply alike_custom_download | intros _].
    unfold Ext.with_lock. destruct (lock_failure env); [auto with alike |].
    apply alike_bind; [auto with alike | intros _]. apply alike_move.
  - intros e. destruct (is_Exception e); [| exact I].
    apply alike_bind; [apply alike_rmtree | auto with alike].
Qed.

Lemma alike_verify_and_postprocess (p : string) (md5 : option string)
    (s1 s2 : bool) (pp : option callback) :
  alike (verify_and_postprocess p md5 s1 pp)
    (verify_and_postprocess p md5 s2 pp).
Proof.
  unfold verify_and_postprocess.
  apply alike_bind; [| intros _].
  { destruct (Py.truthy md5); cbn [when]; [| auto with alike].
    apply alike_bind; [apply alike_validate_md5sum | auto with alike]. }
  apply alike_bind; [| auto with alike].
  destruct pp; auto with alike.
Qed.

(** X28: [silent] changes what is printed and nothing else: with any two
    values of the flag, the call ends in the same way (the same path
    returned or the same exception raised), with the same file system and
    the same trace of file, network and lock operations. What
    [custom_download] fetches and writes is taken not to depend on the
    flag. *)
Theorem silent_changes_output_only (home : string) (env : Env) (url : string)
    (fp md5 : option string) (s1 s2 : bool) (pp : option callback)
    (w : World) :
  let run1 := cached_custom_download home env url fp md5 s1 pp w in
  let run2 := cached_custom_download home env url fp md5 s2 pp w in
  run1.1 = run2.1 /\ fs run1.2 = fs run2.2 /\ trace run1.2 = trace run2.2.
Proof.
  intros run1 run2.
  assert (H : alike (cached_custom_download home env url fp md5 s1 pp)
                (cached_custom_download home env url fp md5 s2 pp)).
  { unfold cached_custom_download.
    apply alike_bind; [apply alike_check_existing | intros hit].
    destruct hit; [auto with alike |].
    apply alike_bind; [apply alike_download_and_publish | intros _].
    apply alike_verify_and_postprocess. }
  destruct (H w w (same_effects_refl w)) as [Hr [Hf Ht]].
  now repeat split.
Qed.

End Silent.

(** ** Which URLs share a derived path *)
Section DerivedPathCollisions.

#[local] Arguments String.append !_ _ / : simpl nomatch.
#[local] Arguments Ascii.eqb : simpl never.

Variable home : string.

Lemma mangle_app (a b : string) : mangle (a +:+ b) = mangle a +:+ mangle b.
Proof.
  induction a as [|c a IH]; [reflexivity |].
  cbn [String.append mangle]. now rewrite IH, append_assoc.
Qed.

Lemma marker_cases (c : ascii) :
  (marker c = "-SLASH-" /\ c = "/"%char)
  \/ (marker c = "-COLON-" /\ c = ":"%char)
  \/ (marker c = "-EQUAL-" /\ c = "="%char)
  \/ (marker c = "-QUESTION-" /\ c = "?"%char)
  \/ marker c = String c "".
Proof.
  unfold marker.
  destruct (Ascii.eqb_spec c "/"); [now left |].
  destruct (Ascii.eqb_spec c ":"); [now right; left |].
  destruct (Ascii.eqb_spec c "="); [now right; right; left |].
  destruct (Ascii.eqb_spec c "?"); [now right; right; right; left |].
  now right; right; right; right.
Qed.

Lemma mangle_inj (u v : string) :
  no_dash u = true -> no_dash v = true -> mangle u = mangle v -> u = v.
Proof.
  revert v. induction u as [|c u IH]; intros [|d v] Hu Hv H.
  - reflexivity.
  - exfalso. cbn [mangle] in H.
    destruct (marker_cases d) as [[E _]|[[E _]|[[E _]|[[E _]|E]]]];
      rewrite E in H; discriminate H.
  - exfalso. cbn [mangle] in H.
    destruct (marker_cases c) as [[E _]|[[E _]|[[E _]|[[E _]|E]]]];
      rewrite E in H; discriminate H.
  - cbn [no_dash] in Hu, Hv.
    apply andb_true_iff in Hu as [Hc Hu]. apply andb_true_iff in Hv as [Hd Hv].
    apply negb_true_iff in Hc. apply negb_true_iff in Hd.
    cbn [mangle] in H.
    destruct (marker_cases c) as [[Ec ->]|[[Ec ->]|[[Ec ->]|[[Ec ->]|Ec]]]];
      destruct (marker_cases d) as [[Ed ->]|[[Ed ->]|[[Ed ->]|[[Ed ->]|Ed]]]];
      rewrite ?Ec, ?Ed in H; cbn [String.append] in H;
      try discriminate H;
      try (injection H as H; f_equal; now apply IH);
      try (injection H as Hx H; subst; rewrite Ascii.eqb_refl in *;
           discriminate).
    injection H as -> H. f_equal. now apply IH.
Qed.

(** X29: on URLs that hold no dash the derived path tells the URLs apart:
    two of them with the same path are the same URL. *)
Theorem derived_path_injective (u v : string) :
  no_dash u = true -> no_dash v = true ->
  target_path home u None = target_path home v None -> u = v.
Proof.
  intros Hu Hv H. cbn [target_path] in H.
  rewrite !derive_file_path_eq in H.
  apply (inj (String.app (custom_cache_root home))) in H.
  injection H as H. now apply mangle_inj.
Qed.

(** X30: a marker spelled out in a URL is not told apart from the
    character it stands for: a URL with a slash and the URL with
    [-SLASH-] in its place are different URLs with one cache file. *)
Theorem derived_path_collision (a b : string) :
  a +:+ "/" +:+ b <> a +:+ "-SLASH-" +:+ b
  /\ target_path home (a +:+ "/" +:+ b) None
     = target_path home (a +:+ "-SLASH-" +:+ b) None.
Proof.
  split.
  - intros E. apply (inj (String.app a)) in E.
    cbn [String.append] in E. discriminate E.
  - cbn [target_path]. rewrite !derive_file_path_eq, !mangle_app.
    reflexivity.
Qed.

End DerivedPathCollisions.

(** ** The further properties on concrete runs *)
Section MoreScenarios.

Lemma indent_blank_text_example :
  Indent.indent (" " +:+ Py.nl +:+ Py.tab +:+ Py.nl) ">"
  = " " +:+ Py.nl +:+ Py.tab +:+ Py.nl.
Proof.
  apply (indent_blank_text (" " +:+ Py.nl +:+ Py.tab +:+ Py.nl) ">").
  reflexivity.
Defined.

Lemma indent_joined_lines_example :
  Indent.indent (String.concat Py.nl ["too many"; " "; "files"]) Py.tab
  = String.concat Py.nl
      (map (Indent.prefixed Py.tab) ["too many"; " "; "files"]).
Proof.
  apply (indent_joined_lines ["too many"; " "; "files"] Py.tab).
  repeat constructor.
Defined.

Lemma calculate_file_size_accepts_example :
  Cli.calculate_file_size (Some ("500" +:+ unit_text Cli.KB +:+ "/s"))
  = Ok (Some (Cli.FloatMul (Cli.digits_value "500") (Cli.unit_factor Cli.KB))).
Proof.
  apply (calculate_file_size_accepts "500" Cli.KB "/s").
  - discriminate.
  - reflexivity.
Defined.

Lemma main_retrieval_error_example :
  Cli.main (fun s => [s])
    (fun _ => raise (FileURLRetrievalError "no public link"))
    (plain_args "https://drive.example/file") world_bare
  = (Raise (SystemExit 1),
     mkWorld (fs world_bare) (stdout world_bare)
       (stderr world_bare ++ ["no public link"]) (trace world_bare)).
Proof.
  apply (main_retrieval_error (fun s => [s])
           (fun _ => raise (FileURLRetrievalError "no public link"))
           (plain_args "https://drive.example/file") "no public link"
           world_bare world_bare).
  - reflexivity.
  - intros c. reflexivity.
Defined.

Lemma main_other_exception_example :
  Cli.main (fun s => [s])
    (fun _ => raise (RuntimeError "connection lost"))
    (plain_args "https://drive.example/file") world_bare
  = (Raise (SystemExit 1),
     mkWorld (fs world_bare) (stdout world_bare)
       (stderr world_bare ++ ["Error"]) (trace world_bare)).
Proof.
  apply (main_other_exception (fun s => [s])
           (fun _ => raise (RuntimeError "connection lost"))
           (plain_args "https://drive.example/file")
           (RuntimeError "connection lost") world_bare world_bare).
  - reflexivity.
  - reflexivity.
  - reflexivity.
  - intros c. reflexivity.
Defined.

Lemma main_proxy_error_example :
  Cli.main (fun s => [s]) (fun _ => raise (ProxyError "refused"))
    (plain_args "https://drive.example/file") world_bare
  = (Raise (TypeError "indent() got an unexpected keyword argument 'prefix'"),
     world_bare)
  /\ stderr (Cli.main (fun s => [s]) (fun _ => raise (ProxyError "refused"))
               (plain_args "https://drive.example/file") world_bare).2
     = stderr world_bare.
Proof.
  apply (main_proxy_error (fun s => [s]) (fun _ => raise (ProxyError "refused"))
           (plain_args "https://drive.example/file") "refused"
           world_bare world_bare).
  - reflexivity.
  - intros c. reflexivity.
Defined.

Lemma main_folder_fails_example :
  Cli.main (fun s => [s]) (fun _ => ret tt) folder_args world_bare
  = (Raise (SystemExit 1),
     mkWorld (fs world_bare) (stdout world_bare)
       (stderr world_bare ++ ["Error"])
       (trace (warned folder_args world_bare))).
Proof.
  apply (main_folder_fails (fun s => [s]) (fun _ => ret tt) folder_args
           world_bare).
  reflexivity.
Defined.

Lemma main_interrupt_passes_example :
  Cli.main (fun s => [s]) (fun _ => raise KeyboardInterrupt)
    (plain_args "https://drive.example/file") world_bare
  = (Raise KeyboardInterrupt, world_bare).
Proof.
  apply (main_interrupt_passes (fun s => [s]) (fun _ => raise KeyboardInterrupt)
           (plain_args "https://drive.example/file") KeyboardInterrupt
           world_bare world_bare).
  - reflexivity.
  - reflexivity.
  - intros c. reflexivity.
Defined.

Lemma main_returns_iff_example :
  ((Cli.main (fun s => [s]) (fun _ => ret tt)
      (plain_args "https://drive.example/file") world_bare).1 = Ok tt
   <-> Ok tt = Ok tt)
  /\ (Ok tt = Ok tt ->
      Cli.main (fun s => [s]) (fun _ => ret tt)
        (plain_args "https://drive.example/file") world_bare
      = (Ok tt, world_bare)).
Proof.
  apply (main_returns_iff (fun s => [s]) (fun _ => ret tt)
           (plain_args "https://drive.example/file") (Ok tt)
           world_bare world_bare).
  - reflexivity.
  - intros c. reflexivity.
Defined.

Lemma read_blocks_bounded_example :
  Forall (fun block => block <> [] /\ (length block <= Z.to_nat 2)%nat)
    (read_blocks 3 2 abc)
  /\ concat (read_blocks 3 2 abc) = abc.
Proof.
  apply (read_blocks_bounded 3 2 abc).
  - lia.
  - simpl. lia.
Defined.

Lemma calculate_md5sum_any_block_size_example :
  calculate_md5sum "f" (Some 1) world_abc
  = calculate_md5sum "f" None world_abc.
Proof.
  apply (calculate_md5sum_any_block_size "f" (Some 1) None world_abc).
  - reflexivity.
  - reflexivity.
Defined.

Lemma block_size_zero_reads_nothing_example :
  calculate_md5sum "f" (Some 0) world_abc
  = (Ok (Md5.hexdigest []),
     mkWorld (fs world_abc) (stdout world_abc) (stderr world_abc)
       (trace world_abc ++ [EvOpen "f"]))
  /\ (validate_md5sum "f" (Some (Md5.hexdigest [])) true (Some 0)
        world_abc).1 = Ok true.
Proof.
  apply (block_size_zero_reads_nothing "f" abc true world_abc).
  reflexivity.
Defined.


Lemma verified_file_is_cache_hit_example :
  cached_custom_download demo_home env_broken demo_url None
    (Some (Md5.hexdigest abc)) false (Some remove_file) world_warm
  = (Ok (target_path demo_home demo_url None),
     mkWorld (fs world_warm)
       (stdout world_warm
        ++ calculated false (target_path demo_home demo_url None))
       (stderr world_warm)
       (trace world_warm ++ [EvOpen (target_path demo_home demo_url None)])).
Proof.
  apply (verified_file_is_cache_hit demo_home env_broken demo_url None
           (Md5.hexdigest abc) abc false (Some remove_file) world_warm).
  - vm_compute. reflexivity.
  - reflexivity.
Defined.

Lemma directory_target_raises_example :
  exists msg,
    cached_custom_download demo_home env_ok demo_url None (Some md5_hello)
      false None world_dir_target
    = (Raise (OSError msg),
       mkWorld (fs world_dir_target)
         (stdout world_dir_target
          ++ calculating false (target_path demo_home demo_url None))
         (stderr world_dir_target)
         (trace world_dir_target
          ++ [EvOpen (target_path demo_home demo_url None)])).
Proof.
  apply (directory_target_raises demo_home env_ok demo_url None md5_hello
           false None world_dir_target).
  - vm_compute. reflexivity.
  - reflexivity.
Defined.

Lemma malformed_checksum_checked_after_download_example :
  let w2 :=
    (download_and_publish demo_home env_ok demo_url
       (target_path demo_home demo_url None) false world_cold).2 in
  cached_custom_download demo_home env_ok demo_url None (Some "abc") false
    None world_cold
  = (Raise (ValueError "Expected MD5 must be 32 characters long: abc"), w2)
  /\ (exists new, remote env_ok demo_url = DlReturn (Some new)
                  /\ Os.stat (fs w2) (target_path demo_home demo_url None)
                     = Some (File new))
  /\ forall env' silent' pp',
       cached_custom_download demo_home env' demo_url None (Some "abc")
         silent' pp' w2
       = (Raise (ValueError "Expected MD5 must be 32 characters long: abc"),
          w2).
Proof.
  intros w2.
  apply (malformed_checksum_checked_after_download demo_home env_ok demo_url
           None "abc" false None world_cold w2).
  - reflexivity.
  - reflexivity.
  - vm_compute. reflexivity.
  - reflexivity.
  - simpl. lia.
  - vm_compute. reflexivity.
Defined.

Lemma fresh_mismatch_keeps_file_example :
  exists w' d,
    cached_custom_download demo_home env_ok demo_url None (Some md5_hello)
      true None world_cold
    = (Raise (AssertionError
                (mismatch_message (Md5.hexdigest abc) (Some md5_hello))), w')
    /\ Os.stat (fs w') (target_path demo_home demo_url None) = Some (File abc)
    /\ In (EvMkdtemp (temp_root demo_home d)) (new_events world_cold w')
    /\ fs w' !! temp_root demo_home d = Some Dir
    /\ forall q, ~ In (EvRmtree q) (new_events world_cold w').
Proof.
  apply (fresh_mismatch_keeps_file demo_home env_ok demo_url None md5_hello
           abc true None world_cold world_cold
           (download_and_publish demo_home env_ok demo_url
              (target_path demo_home demo_url None) true world_cold).2).
  - reflexivity.
  - reflexivity.
  - reflexivity.
  - vm_compute. reflexivity.
  - vm_compute. reflexivity.
  - reflexivity.
  - vm_compute. discriminate.
Defined.

Lemma callback_not_run_on_failure_example :
  let run :=
    cached_custom_download demo_home env_broken demo_url None None false None
      world_cold in
  cached_custom_download demo_home env_broken demo_url None None false
    (Some remove_file) world_cold
  = (Raise (RuntimeError "connection lost"), run.2).
Proof.
  intros run.
  apply (callback_not_run_on_failure demo_home env_broken demo_url None None
           false (Some remove_file) world_cold run.2
           (RuntimeError "connection lost")).
  vm_compute. reflexivity.
Defined.

Lemma callback_runs_after_fresh_download_example :
  let run :=
    cached_custom_download demo_home env_ok demo_url None None false None
      world_cold in
  demo_target = target_path demo_home demo_url None
  /\ cached_custom_download demo_home env_ok demo_url None None false
       (Some remove_file) world_cold
     = match remove_file demo_target (fs run.2) with
       | (Ok _, m) =>
           (Ok demo_target,
            mkWorld m (stdout run.2) (stderr run.2) (trace run.2))
       | (Raise e, m) =>
           (Raise e, mkWorld m (stdout run.2) (stderr run.2) (trace run.2))
       end.
Proof.
  intros run.
  apply (callback_runs_after_fresh_download demo_home env_ok demo_url None
           None false remove_file world_cold run.2 demo_target
           (demo_temp +:+ "/dl") demo_target).
  - vm_compute. reflexivity.
  - vm_compute. right. right. right. now left.
Defined.

Lemma interrupt_leaves_temp_dir_example :
  let run :=
    cached_custom_download demo_home env_interrupted demo_url None None false
      None world_cold in
  run.1 = Raise KeyboardInterrupt
  /\ fs run.2 !! demo_temp = Some Dir
  /\ forall q, ~ In (EvRmtree q) (new_events world_cold run.2).
Proof.
  intros run.
  assert (Hcall : cached_custom_download demo_home env_interrupted demo_url
                    None None false None world_cold
                  = (Raise KeyboardInterrupt, run.2))
    by (vm_compute; reflexivity).
  assert (Hnew : new_events world_cold run.2
                 = [EvMkdtemp demo_temp;
                    EvFetch demo_url (demo_temp +:+ "/dl")])
    by (vm_compute; reflexivity).
  split; [vm_compute; reflexivity |].
  apply (interrupt_leaves_temp_dir demo_home env_interrupted demo_url None
           None false None world_cold run.2 KeyboardInterrupt demo_temp
           Hcall eq_refl).
  - rewrite Hnew. now left.
  - intros src dst. rewrite Hnew. intros [H | [H | []]]; discriminate H.
Defined.


Lemma fresh_download_succeeds_example :
  exists w',
    cached_custom_download demo_home env_ok demo_url None
      (Some (Md5.hexdigest abc)) false None world_cold
    = (Ok (target_path demo_home demo_url None), w')
    /\ Os.stat (fs w') (target_path demo_home demo_url None)
       = Some (File abc)
    /\ fs w' !! temp_root demo_home [0; 1; 2]%nat = Some Dir
    /\ (forall p,
          p <> target_path demo_home demo_url None ->
          p <> temp_root demo_home [0; 1; 2]%nat ->
          p <> Py.join (custom_cache_root demo_home) "_dl_lock" ->
          fs w' !! p = fs world_cold !! p)
    /\ fetches (new_events world_cold w') = 1%nat.
Proof.
  apply (fresh_download_succeeds demo_home env_ok demo_url None
           (Some (Md5.hexdigest abc)) false world_cold [0; 1; 2]%nat abc).
  - reflexivity.
  - vm_compute. reflexivity.
  - discriminate.
  - vm_compute. reflexivity.
  - right. vm_compute. reflexivity.
  - vm_compute. reflexivity.
  - reflexivity.
  - reflexivity.
  - reflexivity.
  - now right.
Defined.

Lemma derived_path_injective_example : demo_url = demo_url.
Proof.
  apply (derived_path_injective demo_home demo_url demo_url).
  - reflexivity.
  - reflexivity.
  - reflexivity.
Defined.

End MoreScenarios.
